(** * Arbitrage monitor: a shallow embedding of [bot/final_bot.py]

    The development follows the class [ArbitrageMonitor]: the decimals
    cache, the quote client ([get_token_price]), the price cache
    ([update_price_for_dex]), the spread evaluator
    ([check_and_execute_opportunity]), the swap watcher
    ([subscribe_to_swap]) and the execution coordinator
    ([execute_arbitrage]) together with a model of [asyncio.Lock].

    Python [float] is IEEE-754 binary64, which is Rocq's primitive [float];
    Python [int] is [Z]; [dict]s that are only looked up are [gmap]s and the
    one [dict] whose iteration order matters ([prices]) is an association
    list in insertion order. *)

From Stdlib Require Import ZArith Floats String Ascii List Bool Lia.
From stdpp Require Import base option gmap strings.
Import ListNotations.

Set Warnings "-inexact-float".
Local Open Scope string_scope.
Local Open Scope list_scope.
Local Open Scope Z_scope.

(** ** Python numbers *)

Module Py.

(** [float(n)] for an [int]: the nearest binary64 value, and [None] for
    the [OverflowError] of an [int] too large for a [float]. *)
Definition float_of_int (n : Z) : option float :=
  match binary_normalize prec emax n 0 false with
  | S754_infinity _ => None
  | x => Some (SF2Prim x)
  end.

Definition sf_of_int (n : Z) : spec_float :=
  match n with
  | Z0 => S754_zero false
  | Zpos p => S754_finite false p 0
  | Zneg p => S754_finite true p 0
  end.

(** [a / b] on two [int]s: the correctly rounded quotient, and
    [ZeroDivisionError] ([None]) when [b] is 0. *)
Definition truediv (a b : Z) : option float :=
  if b =? 0 then None
  else Some (SF2Prim (SFdiv prec emax (sf_of_int a) (sf_of_int b))).

(** [int(x)] for a [float]: truncation toward zero; [None] stands for the
    [ValueError] / [OverflowError] raised on nan and the infinities. *)
Definition int_of_float (x : float) : option Z :=
  match Prim2SF x with
  | S754_zero _ => Some 0
  | S754_finite s m e =>
      let a := match e with
               | Zneg k => Z.shiftr (Zpos m) (Zpos k)
               | _ => Z.shiftl (Zpos m) e
               end in
      Some (if s then - a else a)
  | S754_infinity _ | S754_nan => None
  end.

(** [x / y] on two [float]s: [None] is the [ZeroDivisionError]. *)
Definition fdiv (x y : float) : option float :=
  if PrimFloat.eqb y 0%float then None else Some (x / y)%float.

(** [n < x] for an [int] and a [float]: Python compares the two exactly. *)
Definition int_lt_float (n : Z) (x : float) : bool :=
  match Prim2SF x with
  | S754_nan => false
  | S754_infinity s => negb s
  | S754_zero _ => n <? 0
  | S754_finite s m e =>
      let v := if s then Zneg m else Zpos m in
      match e with
      | Zneg k => n * 2 ^ Zpos k <? v
      | _ => n <? v * 2 ^ e
      end
  end.

(** Truth value of a [float] ([if price:]): everything but zero. *)
Definition truthy (x : float) : bool := negb (PrimFloat.eqb x 0%float).

(** [str.lower()] on the ASCII range. *)
Definition lower_ascii (c : ascii) : ascii :=
  let n := nat_of_ascii c in
  if (Nat.leb 65 n && Nat.leb n 90)%bool then ascii_of_nat (n + 32) else c.

Fixpoint lower (s : string) : string :=
  match s with
  | EmptyString => EmptyString
  | String c r => String (lower_ascii c) (lower r)
  end.

Fixpoint startswith (p s : string) : bool :=
  match p, s with
  | EmptyString, _ => true
  | String a p', String b s' => if Ascii.eqb a b then startswith p' s' else false
  | String _ _, EmptyString => false
  end.

(** [needle in hay] for two [str]. *)
Fixpoint contains (needle hay : string) : bool :=
  if startswith needle hay then true
  else match hay with
       | EmptyString => false
       | String _ r => contains needle r
       end.

End Py.

(** ** Exceptions and results *)

(** A raised exception: its class and [str(e)]. *)
Record exn := Exception { exn_class : string; exn_str : string }.

Inductive result (A : Type) : Type :=
| Ok (a : A)
| Raise (e : exn).
Arguments Ok {A} a.
Arguments Raise {A} e.

Definition KeyError (k : string) : exn := Exception "KeyError" k.
Definition IndexError : exn := Exception "IndexError" "list index out of range".
Definition ZeroDivisionError : exn := Exception "ZeroDivisionError" "division by zero".
Definition ValueError (m : string) : exn := Exception "ValueError" m.
Definition RuntimeError (m : string) : exn := Exception "RuntimeError" m.
Definition OverflowError : exn := Exception "OverflowError" "int too large to convert to float".
Definition ValidationError (m : string) : exn := Exception "ValidationError" m.
Definition AttributeError (m : string) : exn := Exception "AttributeError" m.

Definition is_attribute_error (e : exn) : bool :=
  String.eqb (exn_class e) "AttributeError".

Definition of_option {A} (e : exn) (o : option A) : result A :=
  match o with
  | Some a => Ok a
  | None => Raise e
  end.

(** ** Data classes *)

Record DEXInfo := {
  name : string;
  router_address : string;
  factory_address : string
}.

Record ArbitrageOpportunity := {
  token_address : string;
  token_symbol : string;
  stable_token : string;
  amount : Z;
  buy_dex : string;
  sell_dex : string;
  buy_price : float;
  sell_price : float;
  expected_profit : float;
  gas_cost : float;
  net_profit : float;
  timestamp : Z
}.

(** A token record [{"address": ..., "symbol": ...}]. *)
Record Token := { address : string; symbol : string }.

(** [params_tuple], in the order of the contract's [params] struct:
    tokenA, tokenB, flashLoanAmount, dexLowPrice, dexHighPrice, user,
    minProfit. *)
Definition params := (string * string * Z * string * string * string * Z)%type.

(** The dictionary given to and returned by [build_transaction]. *)
Record Tx := {
  tx_params : params;
  tx_from : string;
  tx_gas : Z;
  tx_gasPrice : Z;
  tx_nonce : Z
}.

(** ** The chain and the other collaborators

    Everything the bot reads from outside is an oracle.  Remote calls are
    indexed by the number of remote calls issued so far, so that a call may
    fail once and succeed later. *)

Inductive rpc : Type :=
| Decimals (token : string)
| GetAmountsOut (router : string) (amount_in : Z) (path : list string)
| GetGasPrice
| EthUsdFeed
| GetPair (factory tokenA tokenB : string)
| NewFilter (pair : string)
| GetNewEntries (filter : nat).

Record World := {
  to_checksum_address : string -> result string;
  decimals_call : nat -> string -> result Z;
  getAmountsOut_call : nat -> string -> Z -> list string -> result (list Z);
  get_gas_price_call : nat -> result Z;
  eth_usd_feed : nat -> result float;
  getPair_call : nat -> string -> string -> string -> result string;
  new_filter_call : nat -> string -> result nat;
  get_new_entries_call : nat -> nat -> result (list Z);
  get_transaction_count_call : nat -> string -> result Z;
  build_transaction_call : nat -> Tx -> result Tx;
  sign_transaction : Tx -> string -> result string;
  send_raw_transaction_call : nat -> string -> result string;
  wait_for_transaction_receipt_call : nat -> string -> Z -> result Z;
  datetime_now : nat -> Z
}.

(** ABI decoding of the declared output types ([uint8], [uint256[]]). *)
Definition decode_uint8 (z : Z) : result Z :=
  if (0 <=? z) && (z <? 256) then Ok z else Raise (ValueError "uint8").

Definition is_uint256 (z : Z) : bool := (0 <=? z) && (z <? 2 ^ 256).

Definition decode_uint256 (z : Z) : result Z :=
  if is_uint256 z then Ok z else Raise (ValueError "uint256").

Definition decode_uint256_array (l : list Z) : result (list Z) :=
  if forallb is_uint256 l then Ok l else Raise (ValueError "uint256[]").

(** ABI encoding of the argument [10 ** d] as a [uint256]: the power is an
    [int] only for [d >= 0] and has to fit 256 bits. *)
Definition abi_uint256 (d amount : Z) : result unit :=
  if (0 <=? d) && is_uint256 amount then Ok tt
  else Raise (ValidationError "getAmountsOut").

(** [float(w3.from_wei(number, 'ether'))]: [from_wei] raises [ValueError]
    outside [0 .. 2**256 - 1] and otherwise returns the exact decimal
    [number / 10**18]; [float(_)] rounds it to the nearest binary64
    value. *)
Definition from_wei_ether (number : Z) : result float :=
  if (number <? 0) || (2 ^ 256 - 1 <? number)
  then Raise (ValueError "value must be between 1 and 2**256 - 1")
  else of_option ZeroDivisionError (Py.truediv number (10 ^ 18)).

(** ** The monitor object *)

Record ArbitrageMonitor := {
  account : string;
  private_key : string;
  contract_address : string;
  dexes : gmap string DEXInfo;
  stable_tokens : gmap string string;
  selected_dexes : list string;
  is_monitoring : bool;
  price_cache : gmap string (gmap string float);
  _decimals_cache : gmap string Z;
  min_profit_threshold : Z;
  max_flash_loan_amount : Z;
  (** ghost field: the remote calls issued so far, most recent first *)
  rpc_calls : list rpc
}.

Definition set_decimals_cache (f : gmap string Z -> gmap string Z)
    (self : ArbitrageMonitor) : ArbitrageMonitor :=
  {| account := account self; private_key := private_key self;
     contract_address := contract_address self; dexes := dexes self;
     stable_tokens := stable_tokens self; selected_dexes := selected_dexes self;
     is_monitoring := is_monitoring self; price_cache := price_cache self;
     _decimals_cache := f (_decimals_cache self);
     min_profit_threshold := min_profit_threshold self;
     max_flash_loan_amount := max_flash_loan_amount self;
     rpc_calls := rpc_calls self |}.

Definition set_price_cache
    (f : gmap string (gmap string float) -> gmap string (gmap string float))
    (self : ArbitrageMonitor) : ArbitrageMonitor :=
  {| account := account self; private_key := private_key self;
     contract_address := contract_address self; dexes := dexes self;
     stable_tokens := stable_tokens self; selected_dexes := selected_dexes self;
     is_monitoring := is_monitoring self; price_cache := f (price_cache self);
     _decimals_cache := _decimals_cache self;
     min_profit_threshold := min_profit_threshold self;
     max_flash_loan_amount := max_flash_loan_amount self;
     rpc_calls := rpc_calls self |}.

Definition record_call (c : rpc) (self : ArbitrageMonitor) : ArbitrageMonitor :=
  {| account := account self; private_key := private_key self;
     contract_address := contract_address self; dexes := dexes self;
     stable_tokens := stable_tokens self; selected_dexes := selected_dexes self;
     is_monitoring := is_monitoring self; price_cache := price_cache self;
     _decimals_cache := _decimals_cache self;
     min_profit_threshold := min_profit_threshold self;
     max_flash_loan_amount := max_flash_loan_amount self;
     rpc_calls := c :: rpc_calls self |}.

(** ** A state-and-exception monad for the methods *)

Definition M (A : Type) : Type := ArbitrageMonitor -> result A * ArbitrageMonitor.

Definition ret {A} (a : A) : M A := fun self => (Ok a, self).
Definition raise {A} (e : exn) : M A := fun self => (Raise e, self).
Definition bind {A B} (m : M A) (k : A -> M B) : M B :=
  fun self => match m self with
              | (Ok a, self') => k a self'
              | (Raise e, self') => (Raise e, self')
              end.
Definition lift {A} (r : result A) : M A := fun self => (r, self).
Definition gets {A} (f : ArbitrageMonitor -> A) : M A := fun self => (Ok (f self), self).
Definition modify (f : ArbitrageMonitor -> ArbitrageMonitor) : M unit :=
  fun self => (Ok tt, f self).

(** [try: body except Exception as e: handler e]; what the body did to the
    object before it raised stays done. *)
Definition try_except {A} (body : M A) (handler : exn -> M A) : M A :=
  fun self => match body self with
              | (Ok a, self') => (Ok a, self')
              | (Raise e, self') => handler e self'
              end.

(** [d[k]] on a [dict]: [KeyError] when the key is absent. *)
Definition getitem {V} (d : gmap string V) (k : string) : result V :=
  match d !! k with
  | Some v => Ok v
  | None => Raise (KeyError k)
  end.

Declare Scope py_scope.
Delimit Scope py_scope with py.
Notation "'do' x <- m ;; k" := (bind m (fun x => k))
  (at level 10, x name, m at level 99, k at level 200) : py_scope.
Local Open Scope py_scope.

Section Methods.

Variable w : World.

(** [await asyncio.to_thread(<call>)]: the call is recorded, then answered
    by the oracle at the current call index. *)
Definition remote {A} (c : rpc) (answer : nat -> result A) : M A :=
  fun self => (answer (List.length (rpc_calls self)), record_call c self).

Definition get_token_decimals (token_address : string) : M Z :=
  let token_address_lower := Py.lower token_address in
  do cache <- gets _decimals_cache ;;
  match cache !! token_address_lower with
  | Some d => ret d
  | None =>
      try_except
        (do addr <- lift (to_checksum_address w token_address) ;;
         do decimals <- remote (Decimals addr)
                       (fun t => match decimals_call w t addr with
                                 | Ok z => decode_uint8 z
                                 | Raise e => Raise e
                                 end) ;;
         do _ <- modify (set_decimals_cache (insert token_address_lower decimals)) ;;
         ret decimals)
        (fun _ => ret 18)
  end.

(** The body of the [try] of [get_token_price] up to the normalised
    [price]. *)
Definition quoted_price (token_address stable_token dex_key : string) : M float :=
  do dex <- gets (fun self => getitem (dexes self) dex_key) ;;
  do dex <- lift dex ;;
  do router_addr <- lift (to_checksum_address w (router_address dex)) ;;
  do token_decimals <- get_token_decimals token_address ;;
  do stable <- gets (fun self => getitem (stable_tokens self) stable_token) ;;
  do stable <- lift stable ;;
  do stable_decimals <- get_token_decimals stable ;;
  let amount_in := 10 ^ token_decimals in
  do p0 <- lift (to_checksum_address w token_address) ;;
  do p1 <- lift (to_checksum_address w stable) ;;
  let path := [p0; p1] in
  (* [router.functions.getAmountsOut(amount_in, path)] checks its arguments
     against [(uint256, address[])] before anything is sent; [10 ** d] is
     an [int] only for [d >= 0] *)
  do _ <- lift (abi_uint256 token_decimals amount_in) ;;
  do amounts_out <- remote (GetAmountsOut router_addr amount_in path)
                   (fun t => match getAmountsOut_call w t router_addr amount_in path with
                             | Ok l => decode_uint256_array l
                             | Raise e => Raise e
                             end) ;;
  do out <- lift (of_option IndexError (amounts_out !! 1%nat)) ;;
  lift (of_option ZeroDivisionError (Py.truediv out (10 ^ stable_decimals))).

(** [price if 0 < price < 1e12 else None] *)
Definition sane (price : float) : option float :=
  if (PrimFloat.ltb 0 price && PrimFloat.ltb price 1e12)%float then Some price else None.

Definition get_token_price (token_address stable_token dex_key : string)
  : M (option float) :=
  try_except
    (do price <- quoted_price token_address stable_token dex_key ;;
     ret (sane price))
    (fun _ => ret None).

(** [await asyncio.to_thread(self.w3.eth.get_gas_price)].  The argument
    [self.w3.eth.get_gas_price] is evaluated first: on a [w3.eth] without
    such a method (web3.py offers the property [gas_price]) the look-up
    raises [AttributeError] and nothing is asked.  The oracle stands for
    the whole expression, an answer of class [AttributeError] being the
    failed look-up; any other answer is that of a call that was made. *)
Definition eth_get_gas_price : M Z :=
  fun self =>
    match get_gas_price_call w (List.length (rpc_calls self)) with
    | Ok z => (decode_uint256 z, record_call GetGasPrice self)
    | Raise e => if is_attribute_error e then (Raise e, self)
                 else (Raise e, record_call GetGasPrice self)
    end.

Definition estimate_gas_cost : M float :=
  try_except
    (do gas_price <- eth_get_gas_price ;;
     let estimated_gas_limit := 600000 in
     let gas_cost_wei := gas_price * estimated_gas_limit in
     (* [from_wei] raises before the price feed is asked; [float(_)] of
        its result cannot raise, so it is taken here *)
     do gas_cost_eth <- lift (from_wei_ether gas_cost_wei) ;;
     (* [response.json()['ethereum']['usd']], taken as a [float] *)
     do eth_price_usd <- remote EthUsdFeed (eth_usd_feed w) ;;
     ret (gas_cost_eth * eth_price_usd)%float)
    (fun _ => ret 10%float).

(** ** Price cache *)

Definition cache_get (cache : gmap string (gmap string float))
    (key dex : string) : option float :=
  default ∅ (cache !! key) !! dex.

Definition cache_put (key dex : string) (price : float)
    (cache : gmap string (gmap string float)) : gmap string (gmap string float) :=
  <[key := <[dex := price]> (default ∅ (cache !! key))]> cache.

Definition update_price_for_dex (token : Token) (stable_token dex_key : string)
  : M (option float) :=
  do price <- get_token_price (address token) stable_token dex_key ;;
  match price with
  | Some p =>
      if Py.truthy p then
        let key := Py.lower (address token) in
        do _ <- modify (set_price_cache (cache_put key dex_key p)) ;;
        ret (Some p)
      else ret None
  | None => ret None
  end.

(** ** Spread evaluator *)

(** [prices[dex] = price] on a [dict] kept in insertion order. *)
Fixpoint dict_set (d : list (string * float)) (k : string) (v : float)
  : list (string * float) :=
  match d with
  | [] => [(k, v)]
  | (k', v') :: r => if String.eqb k' k then (k', v) :: r else (k', v') :: dict_set r k v
  end.

(** The loop that collects the cached prices of the selected DEXes. *)
Definition collect_prices (cache : gmap string (gmap string float))
    (key : string) (selected : list string) : list (string * float) :=
  fold_left
    (fun prices dex =>
       match cache_get cache key dex with
       | Some price => if Py.truthy price then dict_set prices dex price else prices
       | None => prices
       end)
    selected [].

(** [min(items, key=lambda item: item[1])]: the first item with the least
    key; a later item replaces the current one only if it is strictly
    smaller. *)
Definition min_by_price (first : string * float) (rest : list (string * float))
  : string * float :=
  fold_left (fun best item => if PrimFloat.ltb (snd item) (snd best) then item else best)
            rest first.

(** [max(items, key=lambda item: item[1])], likewise with [>]. *)
Definition max_by_price (first : string * float) (rest : list (string * float))
  : string * float :=
  fold_left (fun best item => if PrimFloat.ltb (snd best) (snd item) then item else best)
            rest first.

(** [0.8 < price_diff_percent < 50.0] *)
Definition in_band (price_diff_percent : float) : bool :=
  (PrimFloat.ltb 0.8 price_diff_percent && PrimFloat.ltb price_diff_percent 50.0)%float.

(** The part of [check_and_execute_opportunity] before the band check:
    [None] for the early [return]s, otherwise the two extreme quotes and
    [price_diff_percent]. *)
Definition price_spread (self : ArbitrageMonitor) (token : Token)
  : result (option ((string * float) * (string * float) * float)) :=
  let token_address := address token in
  let prices := collect_prices (price_cache self) (Py.lower token_address)
                               (selected_dexes self) in
  match prices with
  | first :: ((_ :: _) as rest) =>
      let '(min_price_dex, min_price) := min_by_price first rest in
      let '(max_price_dex, max_price) := max_by_price first rest in
      if String.eqb min_price_dex max_price_dex then Ok None
      else
        match Py.fdiv (max_price - min_price)%float min_price with
        | None => Raise ZeroDivisionError
        | Some q =>
            Ok (Some ((min_price_dex, min_price), (max_price_dex, max_price),
                      (q * 100)%float))
        end
  | _ => Ok None
  end.

(** The part of [check_and_execute_opportunity] after the band check.  The
    result is the opportunity handed to
    [asyncio.create_task(self.execute_arbitrage(opportunity))], or [None]
    when no task is created. *)
Definition profit_check (token : Token) (stable_token : string)
    (low high : string * float) (price_diff_percent : float)
  : M (option ArbitrageOpportunity) :=
  let '(min_price_dex, min_price) := low in
  let '(max_price_dex, max_price) := high in
  do flash_loan_amount_usd <- gets max_flash_loan_amount ;;
  do stable <- gets (fun self => getitem (stable_tokens self) stable_token) ;;
  do stable <- lift stable ;;
  do stable_decimals <- get_token_decimals stable ;;
  let flash_loan_amount_wei := flash_loan_amount_usd * 10 ^ stable_decimals in
  do notional <- lift (of_option OverflowError (Py.float_of_int flash_loan_amount_usd)) ;;
  let gross_profit_usd := (notional * (price_diff_percent / 100))%float in
  do gas_cost_usd <- estimate_gas_cost ;;
  let net_profit_usd := (gross_profit_usd - gas_cost_usd)%float in
  do threshold <- gets min_profit_threshold ;;
  if Py.int_lt_float threshold net_profit_usd then
    do now <- gets (fun self => datetime_now w (List.length (rpc_calls self))) ;;
    let opportunity :=
      {| token_address := address token; token_symbol := symbol token;
         stable_token := stable_token; amount := flash_loan_amount_wei;
         buy_dex := min_price_dex; sell_dex := max_price_dex;
         buy_price := min_price; sell_price := max_price;
         expected_profit := gross_profit_usd; gas_cost := gas_cost_usd;
         net_profit := net_profit_usd; timestamp := now |} in
    (* the report line reads [self.dexes[...].name] of both DEXes *)
    do table <- gets dexes ;;
    do _ <- lift (getitem table min_price_dex) ;;
    do _ <- lift (getitem table max_price_dex) ;;
    ret (Some opportunity)
  else ret None.

Definition check_and_execute_opportunity (token : Token) (stable_token : string)
  : M (option ArbitrageOpportunity) :=
  do spread <- (fun self => (price_spread self token, self)) ;;
  match spread with
  | None => ret None
  | Some (low, high, price_diff_percent) =>
      if negb (in_band price_diff_percent) then ret None
      else profit_check token stable_token low high price_diff_percent
  end.

(** ** Pair locator *)

Definition zero_address : string := "0x0000000000000000000000000000000000000000".

Definition get_pair_address (tokenA tokenB dex_key : string) : M (option string) :=
  try_except
    (do dex <- gets (fun self => getitem (dexes self) dex_key) ;;
     do dex <- lift dex ;;
     do factory_addr <- lift (to_checksum_address w (factory_address dex)) ;;
     do token_a_checksum <- lift (to_checksum_address w tokenA) ;;
     do token_b_checksum <- lift (to_checksum_address w tokenB) ;;
     do pair_addr <- remote (GetPair factory_addr token_a_checksum token_b_checksum)
                       (fun t => getPair_call w t factory_addr token_a_checksum
                                              token_b_checksum) ;;
     if String.eqb pair_addr zero_address then ret None else ret (Some pair_addr))
    (fun _ => ret None).

(** ** Swap event watcher

    [subscribe_to_swap] is two nested [while self.is_monitoring] loops.  A
    watcher is the loop state: where control stands, the local
    [consecutive_errors], and (ghost) what it logged, how long it slept and
    which opportunities it handed to [execute_arbitrage]. *)

Inductive level := DEBUG | INFO | WARNING | ERROR.

Inductive phase :=
| CreatingFilter                 (* head of the outer loop *)
| Polling (event_filter : nat)   (* head of the inner loop *)
| Stopped.                       (* the method has returned *)

Record Watcher := {
  w_token : Token;
  w_stable_token : string;
  w_dex_key : string;
  w_pair_address : string;
  w_phase : phase;
  consecutive_errors : Z;
  w_logged : list (level * string);
  w_slept : list Z;
  w_spawned : list ArbitrageOpportunity
}.

Definition step_to (ph : phase) (errors : Z) (logs : list (level * string))
    (sleeps : list Z) (spawned : list ArbitrageOpportunity) (wt : Watcher) : Watcher :=
  {| w_token := w_token wt; w_stable_token := w_stable_token wt;
     w_dex_key := w_dex_key wt; w_pair_address := w_pair_address wt;
     w_phase := ph; consecutive_errors := errors;
     w_logged := w_logged wt ++ logs; w_slept := w_slept wt ++ sleeps;
     w_spawned := w_spawned wt ++ spawned |}.

(** [for event in entries: ...]: the log lines written, the tasks created,
    and the exception that ended the loop early, if any. *)
Fixpoint process_entries (wt : Watcher) (entries : list Z)
  : M (list (level * string) * list ArbitrageOpportunity * option exn) :=
  match entries with
  | [] => ret ([], [], None)
  | _ :: rest =>
      let swap_log := (INFO, "SWAP DETECTED") in
      do r <- try_except
                (do _ <- update_price_for_dex (w_token wt) (w_stable_token wt)
                                              (w_dex_key wt) ;;
                 do task <- check_and_execute_opportunity (w_token wt)
                                                          (w_stable_token wt) ;;
                 ret (Ok task))
                (fun e => ret (Raise e)) ;;
      match r with
      | Raise e => ret ([swap_log], [], Some e)
      | Ok task =>
          do more <- process_entries wt rest ;;
          let '(logs, tasks, err) := more in
          ret (swap_log :: logs,
               match task with Some o => o :: tasks | None => tasks end, err)
      end
  end.

(** ['filter not found' in str(e).lower()] *)
Definition is_filter_not_found (e : exn) : bool :=
  Py.contains "filter not found" (Py.lower (exn_str e)).

(** The [except Exception as e] block. *)
Definition on_error (wt : Watcher) (errors : Z) (spawned : list ArbitrageOpportunity)
    (e : exn) : Watcher :=
  let consecutive_errors := errors + 1 in
  let first_log :=
    if is_filter_not_found e
    then (DEBUG, "Filter expired. Recreating...")
    else (ERROR, "Subscription error") in
  let sleep_time := Z.min (5 * consecutive_errors) 60 in
  let second_log :=
    if 1 <? consecutive_errors then [(INFO, "Connection unstable. Retrying")] else [] in
  step_to CreatingFilter consecutive_errors (first_log :: second_log) [sleep_time]
          spawned wt.

(** One turn of whichever loop the watcher stands in. *)
Definition watcher_step (wt : Watcher) : M Watcher :=
  do monitoring <- gets is_monitoring ;;
  match w_phase wt with
  | Stopped => ret wt
  | CreatingFilter =>
      if negb monitoring then ret (step_to Stopped (consecutive_errors wt) [] [] [] wt)
      else
        try_except
          (do event_filter <- remote (NewFilter (w_pair_address wt))
                                (fun t => new_filter_call w t (w_pair_address wt)) ;;
           ret (step_to (Polling event_filter) (consecutive_errors wt) [] [] [] wt))
          (fun e => ret (on_error wt (consecutive_errors wt) [] e))
  | Polling event_filter =>
      if negb monitoring then ret (step_to Stopped (consecutive_errors wt) [] [] [] wt)
      else
        do polled <- (fun self =>
                        match remote (GetNewEntries event_filter)
                                     (fun t => get_new_entries_call w t event_filter) self with
                        | (r, self') => (Ok r, self')
                        end) ;;
        match polled with
        | Raise e => ret (on_error wt (consecutive_errors wt) [] e)
        | Ok entries =>
            (* [consecutive_errors = 0] *)
            do done <- process_entries wt entries ;;
            let '(logs, tasks, err) := done in
            match err with
            | Some e => ret (on_error (step_to (w_phase wt) 0 logs [] [] wt) 0 tasks e)
            | None => ret (step_to (Polling event_filter) 0 logs [2] tasks wt)
            end
        end
  end.

Fixpoint watcher_run (fuel : nat) (wt : Watcher) : M Watcher :=
  match fuel with
  | O => ret wt
  | S n => do wt' <- watcher_step wt ;; watcher_run n wt'
  end.

(** [subscribe_to_swap] up to its first loop test. *)
Definition subscribe_to_swap (token : Token) (stable_token dex_key : string)
  : M Watcher :=
  do stable <- gets (fun self => getitem (stable_tokens self) stable_token) ;;
  do stable <- lift stable ;;
  do pair_address <- get_pair_address (address token) stable dex_key ;;
  let start ph pa :=
    {| w_token := token; w_stable_token := stable_token; w_dex_key := dex_key;
       w_pair_address := pa; w_phase := ph; consecutive_errors := 0;
       w_logged := []; w_slept := []; w_spawned := [] |} in
  match pair_address with
  | None => ret (start Stopped "")
  | Some pa => ret (start (if String.eqb pa "" then Stopped else CreatingFilter) pa)
  end.

End Methods.

Local Close Scope py_scope.

(** ** Execution coordinator

    [execute_arbitrage] is a coroutine that shares [trade_lock] with the
    other tasks of the event loop, so it is kept as a tree of the steps it
    asks the loop to perform, which the loop ([resume], below) answers.
    Log lines are kept without their interpolated values. *)

(** What a coroutine asks of the outside.  Those for which [awaited] holds
    stand under an [await] and suspend the task. *)
Inductive io : Type -> Type :=
| Log : level -> string -> io unit
| Sleep : Z -> io unit
| GetTransactionCount : string -> io (result Z)
| GasPrice : io (result Z)
| BuildTransaction : Tx -> io (result Tx)
| SignTransaction : Tx -> string -> io (result string)
| SendRawTransaction : string -> io (result string)
| WaitForTransactionReceipt : string -> Z -> io (result Z).

Definition awaited {R} (e : io R) : bool :=
  match e with
  | Log _ _ | SignTransaction _ _ => false
  | _ => true
  end.

Inductive coro (A : Type) : Type :=
| Return (a : A)
| Throw (e : exn)
| Acquire (k : bool -> coro A)           (* [await self.trade_lock.acquire()] *)
| Release (k : result unit -> coro A)    (* [self.trade_lock.release()] *)
| Perform {R : Type} (e : io R) (k : R -> coro A).
Arguments Return {A} a.
Arguments Throw {A} e.
Arguments Acquire {A} k.
Arguments Release {A} k.
Arguments Perform {A R} e k.

Fixpoint cbind {A B} (c : coro A) (f : A -> coro B) : coro B :=
  match c with
  | Return a => f a
  | Throw e => Throw e
  | Acquire k => Acquire (fun r => cbind (k r) f)
  | Release k => Release (fun r => cbind (k r) f)
  | Perform e k => Perform e (fun r => cbind (k r) f)
  end.

(** [try: body except Exception as e: handler e] *)
Fixpoint ctry {A} (body : coro A) (handler : exn -> coro A) : coro A :=
  match body with
  | Return a => Return a
  | Throw e => handler e
  | Acquire k => Acquire (fun r => ctry (k r) handler)
  | Release k => Release (fun r => ctry (k r) handler)
  | Perform e k => Perform e (fun r => ctry (k r) handler)
  end.

(** [try: body finally: final]: [final] runs on both exits, and the
    exception, if any, goes on afterwards. *)
Fixpoint cfinally {A} (body : coro A) (final : coro unit) : coro A :=
  match body with
  | Return a => cbind final (fun _ => Return a)
  | Throw e => cbind final (fun _ => Throw e)
  | Acquire k => Acquire (fun r => cfinally (k r) final)
  | Release k => Release (fun r => cfinally (k r) final)
  | Perform e k => Perform e (fun r => cfinally (k r) final)
  end.

Definition perform {R} (e : io R) : coro R := Perform e Return.

(** An awaited call that raises what the remote side raised. *)
Definition call {A} (e : io (result A)) : coro A :=
  Perform e (fun r => match r with Ok a => Return a | Raise x => Throw x end).

Definition acquire : coro bool := Acquire Return.

Definition release : coro unit :=
  Release (fun r => match r with Ok _ => Return tt | Raise x => Throw x end).

Definition clift {A} (r : result A) : coro A :=
  match r with Ok a => Return a | Raise x => Throw x end.

Declare Scope coro_scope.
Delimit Scope coro_scope with coro.
Notation "'do' x <- m ;; k" := (cbind m (fun x => k))
  (at level 10, x name, m at level 99, k at level 200) : coro_scope.

Definition rbind {A B} (r : result A) (f : A -> result B) : result B :=
  match r with Ok a => f a | Raise e => Raise e end.

Declare Scope result_scope.
Delimit Scope result_scope with res.
Notation "'do' x <- m ;; k" := (rbind m (fun x => k))
  (at level 10, x name, m at level 99, k at level 200) : result_scope.

Section Coordinator.

Variable w : World.
Variable self : ArbitrageMonitor.

(** [int(opportunity.net_profit * (10**6) * 0.9)] *)
Definition min_profit_of (net_profit : float) : result Z :=
  (do million <- of_option OverflowError (Py.float_of_int (10 ^ 6)) ;;
   of_option (ValueError "cannot convert float to integer")
             (Py.int_of_float (net_profit * million * 0.9)%float))%res.

Definition params_tuple (opportunity : ArbitrageOpportunity) : result params :=
  (do tokenA <- to_checksum_address w (token_address opportunity) ;;
   do stable <- getitem (stable_tokens self) (stable_token opportunity) ;;
   do tokenB <- to_checksum_address w stable ;;
   let flashLoanAmount := amount opportunity in
   do buy <- getitem (dexes self) (buy_dex opportunity) ;;
   do dexLowPrice <- to_checksum_address w (router_address buy) ;;
   do sell <- getitem (dexes self) (sell_dex opportunity) ;;
   do dexHighPrice <- to_checksum_address w (router_address sell) ;;
   let user := account self in
   do minProfit <- min_profit_of (net_profit opportunity) ;;
   Ok (tokenA, tokenB, flashLoanAmount, dexLowPrice, dexHighPrice, user, minProfit))%res.

Definition execute_arbitrage (opportunity : ArbitrageOpportunity) : coro unit :=
  (do got <- acquire ;;
   if negb got then
     do _ <- perform (Log WARNING
               "Could not acquire trade lock, another trade is in progress.") ;;
     Return tt
   else
     cfinally
       (ctry
          (do _ <- perform (Log INFO "EXECUTING ARBITRAGE") ;;
           do _ <- perform (Log INFO "Expected Net Profit") ;;
           do params_tuple <- clift (params_tuple opportunity) ;;
           do nonce <- call (GetTransactionCount (account self)) ;;
           do gas_price <- call GasPrice ;;
           do tx <- call (BuildTransaction
                            {| tx_params := params_tuple; tx_from := account self;
                               tx_gas := 800000; tx_gasPrice := gas_price;
                               tx_nonce := nonce |}) ;;
           do signed_tx <- call (SignTransaction tx (private_key self)) ;;
           do tx_hash <- call (SendRawTransaction signed_tx) ;;
           do _ <- perform (Log INFO "Transaction sent!") ;;
           do receipt <- call (WaitForTransactionReceipt tx_hash 300) ;;
           do _ <- (if receipt =? 1
                    then perform (Log INFO "SUCCESS! Arbitrage executed successfully.")
                    else perform (Log ERROR "FAILED! Arbitrage transaction reverted.")) ;;
           do _ <- perform (Log INFO "Pausing for 60 seconds after trade attempt...") ;;
           perform (Sleep 60))
          (fun e => perform (Log ERROR "Error during arbitrage execution")))
       release)%coro.

End Coordinator.

(** ** The event loop and [asyncio.Lock] *)

(** One entry of the loop's history. *)
Inductive event : Type :=
| Acquired                          (* [acquire()] returned [True] *)
| Queued                            (* [acquire()] found the lock taken and waits *)
| Released                          (* [release()] *)
| Did {R : Type} (e : io R) (r : R). (* a request and its answer *)

(** [asyncio.Lock]: [_locked] and the queue [_waiters] of futures, each with
    the task that awaits it and whether [release()] has set its result. *)
Record Lock := {
  locked : bool;
  waiters : list (nat * bool)
}.

Inductive task : Type :=
| Created (c : coro unit)
| Suspended {R : Type} (e : io R) (k : R -> coro unit)
| WaitingLock (k : bool -> coro unit)
| Finished (r : result unit).

Record Loop := {
  trade_lock : Lock;
  tasks : list task;
  history : list (nat * event)
}.

(** [_wake_up_first]: set the result of the first waiter's future. *)
Definition wake_up_first (ws : list (nat * bool)) : list (nat * bool) :=
  match ws with
  | [] => []
  | (t, _) :: r => (t, true) :: r
  end.

Definition woken (tid : nat) (ws : list (nat * bool)) : bool :=
  existsb (fun '(t, done) => Nat.eqb t tid && done) ws.

Definition leave_queue (tid : nat) (ws : list (nat * bool)) : list (nat * bool) :=
  List.filter (fun '(t, _) => negb (Nat.eqb t tid)) ws.

Section Loop.

Variable w : World.

(** The answer to a request issued as the [t]-th entry of the history. *)
Definition io_answer (t : nat) {R} (e : io R) : R :=
  match e in io R return R with
  | Log _ _ => tt
  | Sleep _ => tt
  | GetTransactionCount a => get_transaction_count_call w t a
  | GasPrice => get_gas_price_call w t
  | BuildTransaction tx => build_transaction_call w t tx
  | SignTransaction tx key => sign_transaction w tx key
  | SendRawTransaction raw => send_raw_transaction_call w t raw
  | WaitForTransactionReceipt h timeout => wait_for_transaction_receipt_call w t h timeout
  end.

(** Run task [tid] until it suspends or ends. *)
Fixpoint advance (tid : nat) (c : coro unit) (lk : Lock) (hist : list (nat * event))
  : task * Lock * list (nat * event) :=
  match c with
  | Return a => (Finished (Ok a), lk, hist)
  | Throw e => (Finished (Raise e), lk, hist)
  | Acquire k =>
      match locked lk, waiters lk with
      | false, [] =>
          advance tid (k true) {| locked := true; waiters := [] |}
                  (hist ++ [(tid, Acquired)])
      | _, _ =>
          (WaitingLock k,
           {| locked := locked lk; waiters := waiters lk ++ [(tid, false)] |},
           hist ++ [(tid, Queued)])
      end
  | Release k =>
      if locked lk then
        advance tid (k (Ok tt))
                {| locked := false; waiters := wake_up_first (waiters lk) |}
                (hist ++ [(tid, Released)])
      else advance tid (k (Raise (RuntimeError "Lock is not acquired."))) lk hist
  | Perform e k =>
      if awaited e then (Suspended e k, lk, hist)
      else
        let r := io_answer (List.length hist) e in
        advance tid (k r) lk (hist ++ [(tid, Did e r)])
  end.

Definition set_task (tid : nat) (t : task) (ts : list task) : list task :=
  <[tid := t]> ts.

(** The loop gives task [tid] its turn. *)
Definition resume (tid : nat) (l : Loop) : Loop :=
  let continue c lk hist :=
    let '(t, lk', hist') := advance tid c lk hist in
    {| trade_lock := lk'; tasks := set_task tid t (tasks l); history := hist' |} in
  match tasks l !! tid with
  | Some (Created c) => continue c (trade_lock l) (history l)
  | Some (Suspended e k) =>
      let r := io_answer (List.length (history l)) e in
      continue (k r) (trade_lock l) (history l ++ [(tid, Did e r)])
  | Some (WaitingLock k) =>
      if woken tid (waiters (trade_lock l)) then
        continue (k true)
                 {| locked := true;
                    waiters := leave_queue tid (waiters (trade_lock l)) |}
                 (history l ++ [(tid, Acquired)])
      else l
  | Some (Finished _) | None => l
  end.

Definition schedule (tids : list nat) (l : Loop) : Loop :=
  fold_left (fun l tid => resume tid l) tids l.

End Loop.

(** A loop with the given tasks, none started, and the lock free. *)
Definition fresh_loop (cs : list (coro unit)) : Loop :=
  {| trade_lock := {| locked := false; waiters := [] |};
     tasks := map Created cs;
     history := [] |}.

(** *** Reading a history *)

Definition is_released (ev : nat * event) : bool :=
  match snd ev with Released => true | _ => false end.

Definition is_cooldown (ev : nat * event) : bool :=
  match snd ev with
  | Did (Sleep s) _ => s =? 60
  | _ => false
  end.

Definition is_receipt (ev : nat * event) : bool :=
  match snd ev with
  | @Did R e r =>
      match e in io R return R -> bool with
      | WaitForTransactionReceipt _ _ =>
          fun r => match r with Ok _ => true | Raise _ => false end
      | _ => fun _ => false
      end r
  | _ => false
  end.

Definition is_submission_of (tid : nat) (ev : nat * event) : bool :=
  Nat.eqb (fst ev) tid &&
  match snd ev with
  | Did (BuildTransaction _) _ | Did (SignTransaction _ _) _
  | Did (SendRawTransaction _) _ => true
  | _ => false
  end.

Definition count (p : nat * event -> bool) (hist : list (nat * event)) : nat :=
  List.length (List.filter p hist).

(** ** A concrete monitor and world for examples *)

Module Demo.

Definition USDC : string := "0x833589fCD6eDb6E08f4c7C32D4f71b54bdA02913".

Definition token : Token := {| address := "0xAbC1"; symbol := "TKN" |}.

(** Every address is accepted and left as it is. *)
Definition checksum_id (a : string) : result string := Ok a.

(** USDC has 6 decimals and every other token 18; the router quotes
    [quote] for one whole token; the gas-price call answers [gas]; the
    price feed is down, so the gas estimate falls back to 10 USD; the
    receipt call answers [receipt]. *)
Definition world (quote : Z) (gas receipt : result Z) : World :=
  {| to_checksum_address := checksum_id;
     decimals_call := fun _ a => if String.eqb a USDC then Ok 6 else Ok 18;
     getAmountsOut_call := fun _ _ amount_in _ => Ok [amount_in; quote];
     get_gas_price_call := fun _ => gas;
     eth_usd_feed := fun _ => Raise (Exception "Timeout" "feed");
     getPair_call := fun _ _ _ _ => Ok "0xPa1r";
     new_filter_call := fun t _ => Ok t;
     get_new_entries_call := fun _ _ => Ok [];
     get_transaction_count_call := fun _ _ => Ok 7;
     build_transaction_call := fun _ tx => Ok tx;
     sign_transaction := fun _ _ => Ok "0xf86b";
     send_raw_transaction_call := fun _ _ => Ok "0x7a5c";
     wait_for_transaction_receipt_call := fun _ _ _ => receipt;
     datetime_now := fun t => Z.of_nat t |}.

Definition monitor (cache : gmap string (gmap string float)) : ArbitrageMonitor :=
  {| account := "0xAcc0"; private_key := "key"; contract_address := "0xC0de";
     dexes := {[ "dexA" := {| name := "DEX A"; router_address := "0xA0";
                              factory_address := "0xFA" |};
                 "dexB" := {| name := "DEX B"; router_address := "0xB0";
                              factory_address := "0xFB" |} ]};
     stable_tokens := {[ "USDC" := USDC ]};
     selected_dexes := ["dexA"; "dexB"];
     is_monitoring := true;
     price_cache := cache;
     _decimals_cache := ∅;
     min_profit_threshold := 10;
     max_flash_loan_amount := 5000;
     rpc_calls := [] |}.

Definition cache_of (a b : float) : gmap string (gmap string float) :=
  {[ Py.lower (address token) := {[ "dexA" := a; "dexB" := b ]} ]}.

Definition opportunity : ArbitrageOpportunity :=
  {| token_address := "0xAbC1"; token_symbol := "TKN"; stable_token := "USDC";
     amount := 5000000000; buy_dex := "dexA"; sell_dex := "dexB";
     buy_price := 100; sell_price := 102; expected_profit := 100;
     gas_cost := 10; net_profit := 90; timestamp := 2 |}.

Definition no_node : exn := Exception "ConnectionError" "no node".
Definition time_exhausted : exn :=
  Exception "TimeExhausted" "Transaction is not in the chain after 300 seconds".

(** The same world with other answers to the decimals call, or to the
    polls of a log filter. *)
Definition with_decimals (f : nat -> string -> result Z) (base : World) : World :=
  {| to_checksum_address := to_checksum_address base;
     decimals_call := f;
     getAmountsOut_call := getAmountsOut_call base;
     get_gas_price_call := get_gas_price_call base;
     eth_usd_feed := eth_usd_feed base;
     getPair_call := getPair_call base;
     new_filter_call := new_filter_call base;
     get_new_entries_call := get_new_entries_call base;
     get_transaction_count_call := get_transaction_count_call base;
     build_transaction_call := build_transaction_call base;
     sign_transaction := sign_transaction base;
     send_raw_transaction_call := send_raw_transaction_call base;
     wait_for_transaction_receipt_call := wait_for_transaction_receipt_call base;
     datetime_now := datetime_now base |}.

Definition with_polls (f : nat -> nat -> result (list Z)) (base : World) : World :=
  {| to_checksum_address := to_checksum_address base;
     decimals_call := decimals_call base;
     getAmountsOut_call := getAmountsOut_call base;
     get_gas_price_call := get_gas_price_call base;
     eth_usd_feed := eth_usd_feed base;
     getPair_call := getPair_call base;
     new_filter_call := new_filter_call base;
     get_new_entries_call := f;
     get_transaction_count_call := get_transaction_count_call base;
     build_transaction_call := build_transaction_call base;
     sign_transaction := sign_transaction base;
     send_raw_transaction_call := send_raw_transaction_call base;
     wait_for_transaction_receipt_call := wait_for_transaction_receipt_call base;
     datetime_now := datetime_now base |}.

End Demo.

(** ** Predicates used in the statements *)

(** [keeps f m]: running [m] does not change the component [f] of the
    monitor, whether [m] returns or raises. *)
Definition keeps {A B} (f : ArbitrageMonitor -> B) (m : M A) : Prop :=
  forall self, f (snd (m self)) = f self.

(** A world whose node fails the first remote call and answers the later
    ones. *)
Definition flaky_world : World :=
  Demo.with_decimals
    (fun t a => match t with
                | O => Raise Demo.no_node
                | S _ => if String.eqb a Demo.USDC then Ok 6 else Ok 18
                end)
    (Demo.world 0 (Ok 1) (Ok 1)).

(** A price the quote client lets through: strictly between 0 and 1e12. *)
Definition valid_price (p : float) : Prop :=
  PrimFloat.ltb 0 p = true /\ PrimFloat.ltb p 1e12 = true.

Definition cache_valid (cache : gmap string (gmap string float)) : Prop :=
  forall key dex p, cache_get cache key dex = Some p -> valid_price p.

(** A sequence of price-update attempts, each for a (token, stable, DEX). *)
Fixpoint updates (w : World) (reqs : list (Token * string * string))
  : M unit :=
  match reqs with
  | [] => ret tt
  | (token, st, dex) :: rest =>
      bind (update_price_for_dex w token st dex) (fun _ => updates w rest)
  end.

(** The error a node raises for a log filter it has dropped. *)
Definition filter_expired : exn :=
  Exception "ValueError" "{'code': -32000, 'message': 'filter not found'}".

(** A world in which every poll of a filter fails with [filter_expired]. *)
Definition expiring_world : World :=
  Demo.with_polls (fun _ _ => Raise filter_expired) (Demo.world 0 (Ok 1) (Ok 1)).

(** A watcher of the demo token on dexA that is polling filter 0 and has
    seen no error so far. *)
Definition polling_watcher : Watcher :=
  {| w_token := Demo.token; w_stable_token := "USDC"; w_dex_key := "dexA";
     w_pair_address := "0xPa1r"; w_phase := Polling 0; consecutive_errors := 0;
     w_logged := []; w_slept := []; w_spawned := [] |}.

(** A world in which the first remote call, a poll, fails with
    [filter_expired] and every later poll delivers one log entry. *)
Definition recovering_world : World :=
  Demo.with_polls
    (fun t _ => match t with
                | O => Raise filter_expired
                | S _ => Ok [1]
                end)
    (Demo.world (2 * 10 ^ 6) (Ok 1) (Ok 1)).

(** The coroutine run as the only task of a loop, for as many turns as
    [execute_arbitrage] has [await]s, plus one. *)
Definition run_alone (w : World) (c : coro unit) : Loop :=
  schedule w (repeat 0%nat 7) (fresh_loop [c]).

(** The last two entries of a history are the cooldown and the release. *)
Definition cooldown_then_release (hist : list (nat * event)) : bool :=
  match rev hist with
  | (_, Released) :: (_, Did (Sleep s) _) :: _ => s =? 60
  | _ => false
  end.

(** The contract parameters of the transactions built in a history. *)
Definition built_params (hist : list (nat * event)) : list params :=
  flat_map (fun ev => match snd ev with
                      | Did (BuildTransaction tx) _ => [tx_params tx]
                      | _ => []
                      end) hist.

Inductive task_state := IsCreated | IsSuspended | IsWaitingLock | IsFinished.

Definition state_of (t : task) : task_state :=
  match t with
  | Created _ => IsCreated
  | Suspended _ _ => IsSuspended
  | WaitingLock _ => IsWaitingLock
  | Finished _ => IsFinished
  end.

Definition is_warning_of (tid : nat) (ev : nat * event) : bool :=
  Nat.eqb (fst ev) tid &&
  match snd ev with
  | Did (Log WARNING _) _ => true
  | _ => false
  end.

(** Two opportunities found at the same moment, as two tasks. *)
Definition second_opportunity : ArbitrageOpportunity :=
  {| token_address := "0xDeF2"; token_symbol := "TK2"; stable_token := "USDC";
     amount := 5000000000; buy_dex := "dexB"; sell_dex := "dexA";
     buy_price := 10; sell_price := 11; expected_profit := 500;
     gas_cost := 10; net_profit := 490; timestamp := 3 |}.

Definition calm_world : World := Demo.world 0 (Ok 1) (Ok 1).

Definition two_trades : Loop :=
  fresh_loop [execute_arbitrage calm_world (Demo.monitor ∅) Demo.opportunity;
              execute_arbitrage calm_world (Demo.monitor ∅) second_opportunity].

(** *** The locking discipline of a coroutine

    [quiet c]: [c] never touches the lock.  [holding c]: [c] runs with the
    lock held, releases it once on every path and is quiet afterwards.
    [entering c]: [c] starts by acquiring the lock and is [holding] from
    then on. *)
Inductive quiet {A : Type} : coro A -> Prop :=
| quiet_return (a : A) : quiet (Return a)
| quiet_throw (e : exn) : quiet (Throw e)
| quiet_perform {R : Type} (e : io R) (k : R -> coro A) :
    (forall r, quiet (k r)) -> quiet (Perform e k).

Inductive holding {A : Type} : coro A -> Prop :=
| holding_release (k : result unit -> coro A) :
    quiet (k (Ok tt)) -> holding (Release k)
| holding_perform {R : Type} (e : io R) (k : R -> coro A) :
    (forall r, holding (k r)) -> holding (Perform e k).

Inductive entering {A : Type} : coro A -> Prop :=
| entering_acquire (k : bool -> coro A) : holding (k true) -> entering (Acquire k).

(** *** Who holds the lock, read off a history *)

Definition is_lock_op (ev : nat * event) : bool :=
  match snd ev with
  | Acquired | Released => true
  | _ => false
  end.

(** One entry of the history seen by an observer of the lock: [Some o] while
    all is well, with [o] the task in the critical section if any, and
    [None] once a task entered while another was inside, or a task left
    that was not inside. *)
Definition lock_step (o : option (option nat)) (ev : nat * event)
  : option (option nat) :=
  match o with
  | None => None
  | Some None =>
      match snd ev with
      | Acquired => Some (Some (fst ev))
      | Released => None
      | _ => o
      end
  | Some (Some t) =>
      match snd ev with
      | Acquired => None
      | Released => if Nat.eqb t (fst ev) then Some None else None
      | _ => o
      end
  end.

Definition owner (hist : list (nat * event)) : option (option nat) :=
  fold_left lock_step hist (Some None).

(** At no point of the history were two tasks in the critical section. *)
Definition exclusive (hist : list (nat * event)) : Prop := is_Some (owner hist).

Definition acquired_by (tid : nat) (ev : nat * event) : bool :=
  Nat.eqb (fst ev) tid && match snd ev with Acquired => true | _ => false end.

Definition released_by (tid : nat) (ev : nat * event) : bool :=
  Nat.eqb (fst ev) tid && match snd ev with Released => true | _ => false end.

(** An entry that task [tid] wrote and that does not concern the lock. *)
Definition own_quiet (tid : nat) (ev : nat * event) : Prop :=
  fst ev = tid /\ is_lock_op ev = false.

(** *** The invariant of a loop whose tasks follow the discipline *)

Definition quiet_task (t : task) : Prop :=
  match t with
  | Finished _ => True
  | Suspended _ k => forall r, quiet (k r)
  | _ => False
  end.

Definition task_ok (o : option nat) (hist : list (nat * event)) (i : nat) (t : task)
  : Prop :=
  match t with
  | Created c =>
      entering c /\ o <> Some i /\
      count (acquired_by i) hist = 0%nat /\ count (released_by i) hist = 0%nat
  | WaitingLock k =>
      holding (k true) /\ o <> Some i /\
      count (acquired_by i) hist = 0%nat /\ count (released_by i) hist = 0%nat
  | Suspended _ k =>
      (o = Some i /\ (forall r, holding (k r)) /\
       count (acquired_by i) hist = 1%nat /\ count (released_by i) hist = 0%nat)
      \/ (o <> Some i /\ (forall r, quiet (k r)) /\
          count (acquired_by i) hist = 1%nat /\ count (released_by i) hist = 1%nat)
  | Finished _ =>
      o <> Some i /\
      count (acquired_by i) hist = 1%nat /\ count (released_by i) hist = 1%nat
  end.

Definition unwoken (x : nat * bool) : Prop := snd x = false.

Definition lock_ok (lk : Lock) : Prop :=
  (locked lk = true -> Forall unwoken (waiters lk)) /\
  Forall unwoken (tail (waiters lk)).

Definition loop_inv (l : Loop) : Prop :=
  exists o,
    owner (history l) = Some o /\
    locked (trade_lock l) = match o with Some _ => true | None => false end /\
    lock_ok (trade_lock l) /\
    forall i t, tasks l !! i = Some t -> task_ok o (history l) i t.

(** Every quote the evaluator collects is a valid price. *)
Definition prices_valid (prices : list (string * float)) : Prop :=
  Forall (fun item => valid_price (snd item)) prices.

(** For a net profit of [n] whole stable units, is the minimum profit
    exactly [0.9 * n] in millionths of a unit? *)
Definition ninety_percent_exact (n : Z) : bool :=
  match Py.float_of_int n with
  | Some x =>
      match min_profit_of x with
      | Ok z => z =? 900000 * n
      | Raise _ => false
      end
  | None => false
  end.

(** ** Further predicates *)

(** DEX [dex] has a usable cached price [p] for the token stored under
    [key]: an entry that passes [if price:]. *)
Definition priced (cache : gmap string (gmap string float)) (key dex : string)
    (p : float) : Prop :=
  cache_get cache key dex = Some p /\ Py.truthy p = true.

(** [respects R m]: in whatever state [m] is run, and whether it returns or
    raises, the state it leaves is related by [R] to the one it found. *)
Definition respects {A} (R : ArbitrageMonitor -> ArbitrageMonitor -> Prop) (m : M A)
  : Prop :=
  forall self, R self (snd (m self)).

(** The attributes that [__init__] and the set-up dialogue fix: everything
    but the two caches (and the ghost call log). *)
Definition config (self : ArbitrageMonitor) :=
  (account self, private_key self, contract_address self, dexes self,
   stable_tokens self, selected_dexes self, is_monitoring self,
   min_profit_threshold self, max_flash_loan_amount self).

Definition same_config (self self' : ArbitrageMonitor) : Prop :=
  config self' = config self.

(** Every decimals entry of [self] is still there, unchanged, in [self']. *)
Definition decimals_kept (self self' : ArbitrageMonitor) : Prop :=
  forall k d, _decimals_cache self !! k = Some d -> _decimals_cache self' !! k = Some d.

(** Every cached decimals value is a [uint8]. *)
Definition decimals_in_range (self : ArbitrageMonitor) : Prop :=
  forall k d, _decimals_cache self !! k = Some d -> 0 <= d < 256.

(** [self'] is [self] after at most [n] more remote calls. *)
Definition calls_within (n : nat) (self self' : ArbitrageMonitor) : Prop :=
  exists new, rpc_calls self' = new ++ rpc_calls self /\ (List.length new <= n)%nat.

Definition spends {A} (n : nat) (m : M A) : Prop :=
  forall self, calls_within n self (snd (m self)).

(** The two remote calls of the watcher's own loops: creating a log filter
    and polling it. *)
Definition is_loop_call (c : rpc) : bool :=
  match c with
  | NewFilter _ | GetNewEntries _ => true
  | _ => false
  end.

(** A trade a watcher may hand to the coordinator: for the watcher's own
    token and stable token, between two different selected DEXes, with a
    net profit above the threshold. *)
Definition own_trade (self : ArbitrageMonitor) (wt : Watcher) (o : ArbitrageOpportunity)
  : Prop :=
  token_address o = address (w_token wt) /\
  token_symbol o = symbol (w_token wt) /\
  stable_token o = w_stable_token wt /\
  buy_dex o <> sell_dex o /\
  In (buy_dex o) (selected_dexes self) /\ In (sell_dex o) (selected_dexes self) /\
  Py.int_lt_float (min_profit_threshold self) (net_profit o) = true.

(** The watcher's DEX is in the DEX table, as it is for every subscription
    that found a pair; the log line of a swap reads the DEX's name. *)
Definition listed (self : ArbitrageMonitor) (wt : Watcher) : Prop :=
  is_Some (dexes self !! w_dex_key wt).

(** The sleeps of a watcher: 2 s after a poll that went well, and after an
    error a back-off of 5 s per error in a row, capped at 60 s. *)
Definition watcher_sleep (s : Z) : Prop :=
  s = 2 \/ (5 <= s <= 60 /\ s mod 5 = 0).

(** The polls of log filters among the remote calls issued so far. *)
Definition is_poll (c : rpc) : bool :=
  match c with
  | GetNewEntries _ => true
  | _ => false
  end.

Definition polls (self : ArbitrageMonitor) : nat :=
  List.length (List.filter is_poll (rpc_calls self)).

(** [wt'] is [wt] some turns later: the same subscription, with [logs],
    [sleeps] and [spawned] added to what it logged, slept and spawned. *)
Definition grows (wt wt' : Watcher) (logs : list (level * string)) (sleeps : list Z)
    (spawned : list ArbitrageOpportunity) : Prop :=
  w_token wt' = w_token wt /\ w_stable_token wt' = w_stable_token wt /\
  w_dex_key wt' = w_dex_key wt /\ w_pair_address wt' = w_pair_address wt /\
  w_logged wt' = w_logged wt ++ logs /\
  w_slept wt' = w_slept wt ++ sleeps /\
  w_spawned wt' = w_spawned wt ++ spawned.

(** *** The chain requests in a history *)

Inductive step_kind := Nonce | Gas | Build | Sign | Send | Receipt | Pause.

(** The requests other than log lines, in the order they were made. *)
Definition chain_steps (hist : list (nat * event)) : list step_kind :=
  flat_map (fun ev => match snd ev with
                      | Did (GetTransactionCount _) _ => [Nonce]
                      | Did GasPrice _ => [Gas]
                      | Did (BuildTransaction _) _ => [Build]
                      | Did (SignTransaction _ _) _ => [Sign]
                      | Did (SendRawTransaction _) _ => [Send]
                      | Did (WaitForTransactionReceipt _ _) _ => [Receipt]
                      | Did (Sleep _) _ => [Pause]
                      | _ => []
                      end) hist.

(** The steps of a trade that goes through. *)
Definition pipeline : list step_kind := [Nonce; Gas; Build; Sign; Send; Receipt; Pause].

(** A request with its answer, without the dependency of the answer's type
    on the request. *)
Inductive exchange :=
| AskedNonce (account : string) (answer : result Z)
| AskedGasPrice (answer : result Z)
| AskedBuild (tx : Tx) (answer : result Tx)
| AskedSign (tx : Tx) (key : string) (answer : result string)
| AskedSend (raw : string) (answer : result string)
| AskedReceipt (tx_hash : string) (timeout : Z) (answer : result Z)
| Slept (seconds : Z)
| Logged (lv : level) (line : string).

Definition exchange_of {R} (e : io R) : R -> exchange :=
  match e in io R return R -> exchange with
  | Log lv line => fun _ => Logged lv line
  | Sleep s => fun _ => Slept s
  | GetTransactionCount a => fun r => AskedNonce a r
  | GasPrice => fun r => AskedGasPrice r
  | BuildTransaction tx => fun r => AskedBuild tx r
  | SignTransaction tx key => fun r => AskedSign tx key r
  | SendRawTransaction raw => fun r => AskedSend raw r
  | WaitForTransactionReceipt h timeout => fun r => AskedReceipt h timeout r
  end.

Definition exchanges (hist : list (nat * event)) : list exchange :=
  flat_map (fun ev => match snd ev with
                      | Did e r => [exchange_of e r]
                      | _ => []
                      end) hist.

(** Each request of a trade uses what the requests before it answered:
    the transaction is built for the monitor's account with a gas limit of
    800000 and the nonce and gas price just fetched, the node's answer is
    signed with the monitor's key, the signed bytes are sent, and the
    receipt is awaited for the hash of that submission, for 300 s. *)
Fixpoint flows (self : ArbitrageMonitor) (nonce gas_price : option Z)
    (built : option Tx) (signed sent : option string) (xs : list exchange) : Prop :=
  match xs with
  | [] => True
  | AskedNonce a r :: rest =>
      a = account self /\
      flows self (match r with Ok n => Some n | Raise _ => None end)
            gas_price built signed sent rest
  | AskedGasPrice r :: rest =>
      flows self nonce (match r with Ok g => Some g | Raise _ => None end)
            built signed sent rest
  | AskedBuild tx r :: rest =>
      tx_from tx = account self /\ tx_gas tx = 800000 /\
      Some (tx_nonce tx) = nonce /\ Some (tx_gasPrice tx) = gas_price /\
      flows self nonce gas_price (match r with Ok t => Some t | Raise _ => None end)
            signed sent rest
  | AskedSign tx key r :: rest =>
      Some tx = built /\ key = private_key self /\
      flows self nonce gas_price built
            (match r with Ok s => Some s | Raise _ => None end) sent rest
  | AskedSend raw r :: rest =>
      Some raw = signed /\
      flows self nonce gas_price built signed
            (match r with Ok h => Some h | Raise _ => None end) rest
  | AskedReceipt h timeout r :: rest =>
      Some h = sent /\ timeout = 300 /\
      flows self nonce gas_price built signed sent rest
  | Slept s :: rest =>
      s = 60 /\ flows self nonce gas_price built signed sent rest
  | Logged _ _ :: rest => flows self nonce gas_price built signed sent rest
  end.

(** *** A task's own view of the lock

    [ended c]: [c] has nothing left to do.  [bracketed c]: [c] runs inside
    the critical section, asks for whatever it asks there, and ends with
    the release.  [bracketing c]: [c] starts by acquiring the lock and is
    [bracketed] from then on. *)
Inductive ended {A : Type} : coro A -> Prop :=
| ended_return (a : A) : ended (Return a)
| ended_throw (e : exn) : ended (Throw e).

Inductive bracketed {A : Type} : coro A -> Prop :=
| bracketed_release (k : result unit -> coro A) :
    (forall r, ended (k r)) -> bracketed (Release k)
| bracketed_perform {R : Type} (e : io R) (k : R -> coro A) :
    (forall r, bracketed (k r)) -> bracketed (Perform e k).

Inductive bracketing {A : Type} : coro A -> Prop :=
| bracketing_acquire (k : bool -> coro A) : bracketed (k true) -> bracketing (Acquire k).

(** The entries of a history that task [tid] wrote. *)
Definition own_events (tid : nat) (hist : list (nat * event)) : list event :=
  map snd (List.filter (fun ev => Nat.eqb (fst ev) tid) hist).

(** Where a task stands: it has not touched the lock, it waits in the
    lock's queue, it is inside the critical section, it has left it - or it
    went astray: it asked for something outside the critical section, took
    the lock twice, or released what it did not hold. *)
Inductive standing := Outside | InQueue | Inside | Left | Astray.

Definition stand (s : standing) (ev : event) : standing :=
  match s, ev with
  | Outside, Acquired => Inside
  | Outside, Queued => InQueue
  | InQueue, Acquired => Inside
  | Inside, Did _ _ => Inside
  | Inside, Released => Left
  | _, _ => Astray
  end.

Definition standing_of (evs : list event) : standing := fold_left stand evs Outside.

(** What the state of a task says about where it stands. *)
Definition task_standing (t : option task) (s : standing) : Prop :=
  match t with
  | None => s = Outside
  | Some (Created c) => bracketing c /\ s = Outside
  | Some (WaitingLock k) => bracketed (k true) /\ s = InQueue
  | Some (Suspended _ k) => (forall r, bracketed (k r)) /\ s = Inside
  | Some (Finished _) => s = Inside \/ s = Left
  end.

Definition loop_standing (l : Loop) : Prop :=
  forall i, task_standing (tasks l !! i) (standing_of (own_events i (history l))).

(** ** Python strings in the set-up dialogue

    A string is the sequence of its code points, one character each, so
    code points below 256. *)

Module PyStr.

(** [c.isspace()] *)
Definition isspace (c : ascii) : bool :=
  let n := nat_of_ascii c in
  (Nat.leb 9 n && Nat.leb n 13) || (Nat.leb 28 n && Nat.leb n 32)
  || Nat.eqb n 133 || Nat.eqb n 160.

Fixpoint lstrip (s : string) : string :=
  match s with
  | EmptyString => EmptyString
  | String c r => if isspace c then lstrip r else s
  end.

Fixpoint rstrip (s : string) : string :=
  match s with
  | EmptyString => EmptyString
  | String c r =>
      match rstrip r with
      | EmptyString => if isspace c then EmptyString else String c EmptyString
      | r' => String c r'
      end
  end.

(** [s.strip()] *)
Definition strip (s : string) : string := rstrip (lstrip s).

(** [s.split(sep)] for a separator of one character: one more piece than
    there are separators, empty pieces included. *)
Fixpoint split (sep : ascii) (s : string) : list string :=
  match s with
  | EmptyString => [EmptyString]
  | String c r =>
      if Ascii.eqb c sep then EmptyString :: split sep r
      else match split sep r with
           | piece :: pieces => String c piece :: pieces
           | [] => [String c EmptyString]
           end
  end.

Definition digit_of (c : ascii) : option Z :=
  let n := nat_of_ascii c in
  if Nat.leb 48 n && Nat.leb n 57 then Some (Z.of_nat (n - 48)) else None.

(** Decimal digits with single underscores between them: the value and
    the number of digits, or [None] where [int()] finds the literal
    invalid. *)
Fixpoint digits (value : Z) (count : nat) (after_digit : bool) (s : string)
  : option (Z * nat) :=
  match s with
  | EmptyString => if after_digit then Some (value, count) else None
  | String c r =>
      if Ascii.eqb c "_" then
        if after_digit then digits value count false r else None
      else
        match digit_of c with
        | Some d => digits (10 * value + d) (S count) true r
        | None => None
        end
  end.

(** [int(s)] for a string without white space at its ends: an optional
    sign and the digits; [None] is the [ValueError].  [max_str_digits] is
    [sys.get_int_max_str_digits()], 4300 unless configured otherwise and 0
    for no limit. *)
Definition int_of_stripped (max_str_digits : nat) (s : string) : option Z :=
  let '(negative, body) :=
    match s with
    | String "+" r => (false, r)
    | String "-" r => (true, r)
    | _ => (false, s)
    end in
  match digits 0 0 false body with
  | Some (n, count) =>
      if Nat.ltb 0 max_str_digits && Nat.ltb max_str_digits count then None
      else Some (if negative then - n else n)
  | None => None
  end.

End PyStr.

Definition EOFError : exn := Exception "EOFError" "EOF when reading a line".

(** ** The set-up dialogue

    [input()] takes the next line the user typed, without its line end,
    and raises [EOFError] when there is none.  Of what is printed, the two
    dialogues keep the complaints. *)

Section Dialogue.

Variable max_str_digits : nat.

(** [[int(x.strip()) - 1 for x in selection.split(',') if x.strip()]] on
    the pieces of the split. *)
Fixpoint indices_of (pieces : list string) : result (list Z) :=
  match pieces with
  | [] => Ok []
  | x :: rest =>
      match PyStr.strip x with
      | EmptyString => indices_of rest
      | stripped =>
          match PyStr.int_of_stripped max_str_digits stripped with
          | None => Raise (ValueError "invalid literal for int() with base 10")
          | Some n =>
              match indices_of rest with
              | Ok l => Ok (n - 1 :: l)
              | Raise e => Raise e
              end
          end
      end
  end.

(** [[items[i] for i in indices if 0 <= i < len(items)]] *)
Fixpoint pick {A} (items : list A) (indices : list Z) : result (list A) :=
  match indices with
  | [] => Ok []
  | i :: rest =>
      if (0 <=? i) && (i <? Z.of_nat (List.length items)) then
        match items !! Z.to_nat i with
        | None => Raise IndexError
        | Some item =>
            match pick items rest with
            | Ok l => Ok (item :: l)
            | Raise e => Raise e
            end
        end
      else pick items rest
  end.

(** The [try] body of both dialogues up to the list of chosen items. *)
Definition chosen_of {A} (items : list A) (selection : string) : result (list A) :=
  match indices_of (PyStr.split "," selection) with
  | Ok indices => pick items indices
  | Raise e => Raise e
  end.

(** [except (ValueError, IndexError)] *)
Definition is_bad_input (e : exn) : bool :=
  String.eqb (exn_class e) "ValueError" || String.eqb (exn_class e) "IndexError".

(** [select_dexes], with [dex_keys = list(self.dexes.keys())]: the value
    given to [self.selected_dexes], what was printed on the way, and the
    lines not read. *)
Fixpoint select_dexes (dex_keys : list string) (lines : list string)
  : result (list string) * list string * list string :=
  match lines with
  | [] => (Raise EOFError, [], [])
  | line :: rest =>
      let selection := PyStr.strip line in
      let again complaint :=
        let '(r, printed, unread) := select_dexes dex_keys rest in
        (r, complaint :: printed, unread) in
      match chosen_of dex_keys selection with
      | Ok chosen_dexes =>
          if (2 <=? List.length chosen_dexes)%nat then (Ok chosen_dexes, [], rest)
          else again "Please select at least 2 DEXes."
      | Raise e =>
          if is_bad_input e then again "Invalid input." else (Raise e, [], rest)
      end
  end.

(** The selection loop of [present_scraped_tokens]. *)
Fixpoint select_tokens (records : list Token) (lines : list string)
  : result (list Token) * list string * list string :=
  match lines with
  | [] => (Raise EOFError, [], [])
  | line :: rest =>
      let selection := PyStr.strip line in
      let again complaint :=
        let '(r, printed, unread) := select_tokens records rest in
        (r, complaint :: printed, unread) in
      if String.eqb (Py.lower selection) "all" then (Ok records, [], rest)
      else
        match chosen_of records selection with
        | Ok [] => again "No valid tokens selected."
        | Ok chosen => (Ok chosen, [], rest)
        | Raise e =>
            if is_bad_input e then again "Invalid selection." else (Raise e, [], rest)
        end
  end.

(** [present_scraped_tokens]: [scraped] is what the scraper returned or
    raised.  [Ok None] is [return False]; [Ok (Some tokens)] is
    [return True] with [self.selected_tokens = tokens].  The name
    [scrape_basescan_upward_tokens] is always bound to a function, the
    imported one or the fallback list, so the method's first test never
    fires. *)
Definition present_scraped_tokens (scraped : result (list Token)) (lines : list string)
  : result (option (list Token)) * list string * list string :=
  let records := match scraped with Ok records => records | Raise _ => [] end in
  match records with
  | [] => (Ok None, [], lines)
  | _ =>
      let '(r, printed, unread) := select_tokens records lines in
      (match r with Ok tokens => Ok (Some tokens) | Raise e => Raise e end,
       printed, unread)
  end.

End Dialogue.

(** [self.selected_dexes = chosen_dexes] *)
Definition set_selected_dexes (chosen_dexes : list string) (self : ArbitrageMonitor)
  : ArbitrageMonitor :=
  {| account := account self; private_key := private_key self;
     contract_address := contract_address self; dexes := dexes self;
     stable_tokens := stable_tokens self; selected_dexes := chosen_dexes;
     is_monitoring := is_monitoring self; price_cache := price_cache self;
     _decimals_cache := _decimals_cache self;
     min_profit_threshold := min_profit_threshold self;
     max_flash_loan_amount := max_flash_loan_amount self;
     rpc_calls := rpc_calls self |}.

(** The keys of [self.dexes] in the order [__init__] inserts them. *)
Definition dex_keys_of_init : list string :=
  ["uniswap_v2"; "pancake"; "baseswap"; "sushiswap_v2"].

(** ** Construction and start-up *)

Definition set_is_monitoring (b : bool) (self : ArbitrageMonitor) : ArbitrageMonitor :=
  {| account := account self; private_key := private_key self;
     contract_address := contract_address self; dexes := dexes self;
     stable_tokens := stable_tokens self; selected_dexes := selected_dexes self;
     is_monitoring := b; price_cache := price_cache self;
     _decimals_cache := _decimals_cache self;
     min_profit_threshold := min_profit_threshold self;
     max_flash_loan_amount := max_flash_loan_amount self;
     rpc_calls := rpc_calls self |}.

(** The DEX table of [__init__]. *)
Definition dexes_of_init : gmap string DEXInfo :=
  {[ "uniswap_v2" :=
       {| name := "Uniswap V2 (Base)";
          router_address := "0x4752ba5dbc23f44d87826276bf6fd6b1c372ad24";
          factory_address := "0x8909dc15e40173ff4699343b6eb8132c65e18ec6" |};
     "pancake" :=
       {| name := "PancakeSwap V2";
          router_address := "0x8cFe327CEc66d1C090Dd72bd0FF11d690C33a2Eb";
          factory_address := "0x02a84c1b3BBD7401a5f7fa98a384EBC70bB5749E" |};
     "baseswap" :=
       {| name := "BaseSwap";
          router_address := "0x327Df1E6de05895d2ab08513aaDD9313Fe505d86";
          factory_address := "0xFDa619b6d20975be80A10332cD39b9a4b0FAa8BB" |};
     "sushiswap_v2" :=
       {| name := "SushiSwap V2";
          router_address := "0x6BDED42c6DA8FBf0d2bA55B2fa120C5e0c8D7891";
          factory_address := "0x71524B4f93c58fcbF659783284E38825f0622859" |} ]}.

(** [not s] for a [str] or [None] *)
Definition falsy (s : option string) : bool :=
  match s with
  | Some (String _ _) => false
  | _ => true
  end.

(** The list [missing] of [main]. *)
Definition missing_config (rpc_url private_key contract_address : option string)
  : list string :=
  (if falsy rpc_url then ["RPC_URL"] else []) ++
  (if falsy private_key then ["PRIVATE_KEY"] else []) ++
  (if falsy contract_address then ["CONTRACT_ADDRESS"] else []).

Section Startup.

Variable w : World.
(** [self.w3.is_connected()] *)
Variable connected : bool.
(** The address of [self.w3.eth.account.from_key(private_key)]. *)
Variable from_key : string -> result string.
Variable max_str_digits : nat.

(** [ArbitrageMonitor.__init__] *)
Definition init (rpc_url private_key contract_address : option string)
  : result ArbitrageMonitor :=
  if falsy rpc_url then Raise (ValueError "RPC_URL is missing. Check your .env file.")
  else if falsy private_key
  then Raise (ValueError "PRIVATE_KEY is missing. Check your .env file.")
  else if falsy contract_address
  then Raise (ValueError "CONTRACT_ADDRESS is missing. Check your .env file.")
  else if negb connected
  then Raise (Exception "ConnectionError" "Failed to connect to the RPC provider.")
  else
    (do account <- from_key (default "" private_key) ;;
     do contract <- to_checksum_address w (default "" contract_address) ;;
     Ok {| account := account; private_key := default "" private_key;
           contract_address := contract;
           dexes := dexes_of_init;
           stable_tokens := {[ "USDC" := "0x833589fCD6eDb6E08f4c7C32D4f71b54bdA02913" ]};
           selected_dexes := [];
           is_monitoring := false;
           price_cache := ∅;
           _decimals_cache := ∅;
           min_profit_threshold := 10;
           max_flash_loan_amount := 5000;
           rpc_calls := [] |})%res.

(** [display_status], for what it reads: the name of every selected DEX. *)
Fixpoint display_status (self : ArbitrageMonitor) (selected : list string)
  : result (list string) :=
  match selected with
  | [] => Ok []
  | dex :: rest =>
      (do info <- getitem (dexes self) dex ;;
       do names <- display_status self rest ;;
       Ok (name info :: names))%res
  end.

(** How [main] ends.  [Monitoring] stands for the call of
    [monitor_opportunities] on the monitor and the selected tokens. *)
Inductive outcome :=
| MissingConfiguration (missing : list string)
| Failed (e : exn)
| TokenSelectionFailed
| NotConfirmed
| Monitoring (bot : ArbitrageMonitor) (selected_tokens : list Token).

(** [main]: the three settings as [os.getenv] returns them, what the
    scraper returns, and the lines typed.  Both [except] clauses log the
    exception and end. *)
Definition main (rpc_url private_key contract_address : option string)
    (scraped : result (list Token)) (lines : list string) : outcome :=
  match missing_config rpc_url private_key contract_address with
  | (_ :: _) as missing => MissingConfiguration missing
  | [] =>
      let attempt : result outcome :=
        (do bot <- init rpc_url private_key contract_address ;;
         let '(tokens, _, lines) := present_scraped_tokens max_str_digits scraped lines in
         do tokens <- tokens ;;
         match tokens with
         | None => Ok TokenSelectionFailed
         | Some selected_tokens =>
             let '(chosen, _, lines) :=
               select_dexes max_str_digits dex_keys_of_init lines in
             do chosen <- chosen ;;
             let bot := set_selected_dexes chosen bot in
             do _ <- display_status bot (selected_dexes bot) ;;
             match lines with
             | [] => Raise EOFError
             | line :: _ =>
                 let confirm := Py.lower (PyStr.strip line) in
                 if String.eqb confirm "y" then Ok (Monitoring bot selected_tokens)
                 else Ok NotConfirmed
             end
         end)%res in
      match attempt with
      | Ok o => o
      | Raise e => Failed e
      end
  end.

(** The pool check of [monitor_opportunities]: the two nested loops over
    the selected tokens and the selected DEXes. *)
Fixpoint verify_dexes (token : Token) (dex_keys : list string)
  : M (list (Token * string * string)) :=
  match dex_keys with
  | [] => ret []
  | dex_key :: rest =>
      (do usdc <- gets (fun self => getitem (stable_tokens self) "USDC") ;;
       do usdc <- lift usdc ;;
       do pair_address <- get_pair_address w (address token) usdc dex_key ;;
       (* both branches log [self.dexes[dex_key].name] *)
       do info <- gets (fun self => getitem (dexes self) dex_key) ;;
       do _ <- lift info ;;
       do more <- verify_dexes token rest ;;
       match pair_address with
       | Some (String c r) => ret ((token, dex_key, String c r) :: more)
       | _ => ret more
       end)%py
  end.

Fixpoint verify_pools (selected_tokens : list Token)
  : M (list (Token * string * string)) :=
  match selected_tokens with
  | [] => ret []
  | token :: rest =>
      (do dex_keys <- gets selected_dexes ;;
       do found <- verify_dexes token dex_keys ;;
       do more <- verify_pools rest ;;
       ret (found ++ more))%py
  end.

(** The initial price fetch. *)
Fixpoint fetch_prices (valid_pairs : list (Token * string * string)) : M unit :=
  match valid_pairs with
  | [] => ret tt
  | (token, dex_key, _) :: rest =>
      (do _ <- update_price_for_dex w token "USDC" dex_key ;;
       fetch_prices rest)%py
  end.

(** [monitor_opportunities] up to the creation of the listener tasks: the
    pairs for which a task [subscribe_to_swap(token, 'USDC', dex_key)] is
    created. *)
Definition monitor_opportunities (selected_tokens : list Token)
  : M (list (Token * string * string)) :=
  (do _ <- modify (set_is_monitoring true) ;;
   do valid_pairs <- verify_pools selected_tokens ;;
   match valid_pairs with
   | [] =>
       do _ <- modify (set_is_monitoring false) ;;
       ret []
   | _ =>
       do _ <- fetch_prices valid_pairs ;;
       ret valid_pairs
   end)%py.

End Startup.

(** A pair that passed the pool check of [monitor_opportunities]. *)
Definition verified_pair (selected_tokens : list Token) (dex_keys : list string)
    (pair : Token * string * string) : Prop :=
  let '(token, dex_key, pair_address) := pair in
  In token selected_tokens /\ In dex_key dex_keys /\
  pair_address <> "" /\ pair_address <> zero_address.

(** ** The scraper's records ([bot/scrapping.py]) *)

(** A record [{"address": ..., "name": ..., "symbol": ..., "trend": ...}]. *)
Record Scraped := {
  s_address : string;
  s_name : string;
  s_symbol : string;
  s_trend : string
}.

(** [x or default] for a [str] or [None] *)
Definition or_else (x : option string) (default : string) : string :=
  match x with
  | Some (String c r) => String c r
  | _ => default
  end.

(** The last loop of [scrape_basescan_upward_tokens]: the records built
    from the triples [(addr, name, sym)] found, the first of each address
    (compared in lower case), until there are [limit] of them. *)
Fixpoint build_records (limit : Z) (seen : list string) (records : list Scraped)
    (found : list (string * option string * option string)) : list Scraped :=
  match found with
  | [] => records
  | (addr, name, sym) :: rest =>
      let key := Py.lower addr in
      if existsb (String.eqb key) seen then build_records limit seen records rest
      else
        let records := records ++ [{| s_address := addr; s_name := or_else name "";
                                      s_symbol := or_else sym "UNKNOWN";
                                      s_trend := "+" |}] in
        if limit <=? Z.of_nat (List.length records) then records
        else build_records limit (key :: seen) records rest
  end.

(** The record as the bot reads it. *)
Definition token_of (r : Scraped) : Token :=
  {| address := s_address r; symbol := s_symbol r |}.

(** ** Further worlds for examples *)

(** A world with other answers of the routers, of the gas-price call and
    the price feed, of the factories, or of the address check. *)
Definition with_quotes (f : nat -> string -> Z -> list string -> result (list Z))
    (base : World) : World :=
  {| to_checksum_address := to_checksum_address base;
     decimals_call := decimals_call base;
     getAmountsOut_call := f;
     get_gas_price_call := get_gas_price_call base;
     eth_usd_feed := eth_usd_feed base;
     getPair_call := getPair_call base;
     new_filter_call := new_filter_call base;
     get_new_entries_call := get_new_entries_call base;
     get_transaction_count_call := get_transaction_count_call base;
     build_transaction_call := build_transaction_call base;
     sign_transaction := sign_transaction base;
     send_raw_transaction_call := send_raw_transaction_call base;
     wait_for_transaction_receipt_call := wait_for_transaction_receipt_call base;
     datetime_now := datetime_now base |}.

Definition with_gas_feed (gas : nat -> result Z) (feed : nat -> result float)
    (base : World) : World :=
  {| to_checksum_address := to_checksum_address base;
     decimals_call := decimals_call base;
     getAmountsOut_call := getAmountsOut_call base;
     get_gas_price_call := gas;
     eth_usd_feed := feed;
     getPair_call := getPair_call base;
     new_filter_call := new_filter_call base;
     get_new_entries_call := get_new_entries_call base;
     get_transaction_count_call := get_transaction_count_call base;
     build_transaction_call := build_transaction_call base;
     sign_transaction := sign_transaction base;
     send_raw_transaction_call := send_raw_transaction_call base;
     wait_for_transaction_receipt_call := wait_for_transaction_receipt_call base;
     datetime_now := datetime_now base |}.

Definition with_pairs (f : nat -> string -> string -> string -> result string)
    (base : World) : World :=
  {| to_checksum_address := to_checksum_address base;
     decimals_call := decimals_call base;
     getAmountsOut_call := getAmountsOut_call base;
     get_gas_price_call := get_gas_price_call base;
     eth_usd_feed := eth_usd_feed base;
     getPair_call := f;
     new_filter_call := new_filter_call base;
     get_new_entries_call := get_new_entries_call base;
     get_transaction_count_call := get_transaction_count_call base;
     build_transaction_call := build_transaction_call base;
     sign_transaction := sign_transaction base;
     send_raw_transaction_call := send_raw_transaction_call base;
     wait_for_transaction_receipt_call := wait_for_transaction_receipt_call base;
     datetime_now := datetime_now base |}.

Definition with_checksum (f : string -> result string) (base : World) : World :=
  {| to_checksum_address := f;
     decimals_call := decimals_call base;
     getAmountsOut_call := getAmountsOut_call base;
     get_gas_price_call := get_gas_price_call base;
     eth_usd_feed := eth_usd_feed base;
     getPair_call := getPair_call base;
     new_filter_call := new_filter_call base;
     get_new_entries_call := get_new_entries_call base;
     get_transaction_count_call := get_transaction_count_call base;
     build_transaction_call := build_transaction_call base;
     sign_transaction := sign_transaction base;
     send_raw_transaction_call := send_raw_transaction_call base;
     wait_for_transaction_receipt_call := wait_for_transaction_receipt_call base;
     datetime_now := datetime_now base |}.

(** A [w3.eth] that has no [get_gas_price], next to a price feed that
    answers 2000 USD. *)
Definition no_gas_price_method : exn :=
  AttributeError "'Eth' object has no attribute 'get_gas_price'".

Definition web3_world : World :=
  with_gas_feed (fun _ => Raise no_gas_price_method) (fun _ => Ok 2000%float)
                (Demo.world 0 (Ok 1) (Ok 1)).

(** A node that answers the gas price [gas], next to the same feed. *)
Definition gas_world (gas : Z) : World :=
  with_gas_feed (fun _ => Ok gas) (fun _ => Ok 2000%float)
                (Demo.world 0 (Ok 1) (Ok 1)).

(** The router of DEX A reverts (no liquidity pair) while the router of
    DEX B quotes 2 USDC for one whole token. *)
Definition patchy_world : World :=
  with_quotes
    (fun _ router amount_in _ =>
       if String.eqb router "0xA0"
       then Raise (Exception "ContractLogicError" "execution reverted")
       else Ok [amount_in; 2000000])
    (Demo.world 0 (Ok 1) (Ok 1)).

(** [fresh_lookup w a self]: a call for [a] on a monitor whose cache has no
    entry for it performs the look-up.  Where [a] has a checksum form, the
    chain is asked for the decimals of it, once; an answer that is a
    [uint8] is returned and cached under the lower-cased address, and
    after any other answer 18 is returned and the cache is left as it was.
    Where [a] has no checksum form, 18 is returned and nothing is asked or
    changed. *)
Definition fresh_lookup (w : World) (a : string) (self : ArbitrageMonitor) : Prop :=
  let r := fst (get_token_decimals w a self) in
  let self' := snd (get_token_decimals w a self) in
  (forall addr, to_checksum_address w a = Ok addr ->
     rpc_calls self' = Decimals addr :: rpc_calls self /\
     (forall z, decimals_call w (List.length (rpc_calls self)) addr = Ok z ->
                0 <= z < 256 ->
                r = Ok z /\ _decimals_cache self' !! Py.lower a = Some z) /\
     ((forall z, decimals_call w (List.length (rpc_calls self)) addr = Ok z ->
                 ~ 0 <= z < 256) ->
      r = Ok 18 /\ _decimals_cache self' = _decimals_cache self)) /\
  (forall e, to_checksum_address w a = Raise e -> r = Ok 18 /\ self' = self).

(** An address check that refuses every address. *)
Definition strict_world : World :=
  with_checksum (fun _ => Raise (ValueError "invalid address"))
                (Demo.world 0 (Ok 1) (Ok 1)).

(** What the pool check lists for one token on one DEX: the pair, when the
    pair locator returns an address and that address is not empty. *)
Definition listing (w : World) (self : ArbitrageMonitor) (usdc : string)
    (token : Token) (dex_key : string) : list (Token * string * string) :=
  match fst (get_pair_address w (address token) usdc dex_key self) with
  | Ok (Some (String c r)) => [(token, dex_key, String c r)]
  | _ => []
  end.

(** Factories whose answers do not change with time. *)
Definition steady_factories (w : World) : Prop :=
  forall t t' factory a b,
    getPair_call w t factory a b = getPair_call w t' factory a b.

(** The factory of DEX A has a pool for every pair and the factory of DEX B
    has none. *)
Definition one_pool_world : World :=
  with_pairs (fun _ factory _ _ =>
                if String.eqb factory "0xFA" then Ok "0xPa1r" else Ok zero_address)
             (Demo.world (2 * 10 ^ 6) (Ok 1) (Ok 1)).

(** * Properties *)

(** ** Comparisons of binary64 values *)

Lemma SFcompare_antisym (x y : spec_float) (c : comparison) :
  SFcompare x y = Some c -> SFcompare y x = Some (CompOpp c).
Proof.
  destruct x as [sx|sx| |sx mx ex], y as [sy|sy| |sy my ey]; cbn [SFcompare];
    try discriminate;
    try (destruct sx; intros [= <-]; reflexivity);
    try (destruct sy; intros [= <-]; reflexivity);
    try (destruct sx, sy; intros [= <-]; reflexivity).
  pose proof (Pos.compare_antisym mx my) as HA. unfold Pos.compare in HA.
  destruct sx, sy; intros [= <-]; try reflexivity;
    rewrite (Z.compare_antisym ex ey), HA;
    destruct (ex ?= ey); cbn [CompOpp]; try reflexivity;
    destruct (Pos.compare_cont Eq mx my); reflexivity.
Qed.

Lemma leb_not_ltb (x y : float) :
  PrimFloat.leb x y = true -> PrimFloat.ltb y x = false.
Proof.
  rewrite leb_spec, ltb_spec. unfold SFleb, SFltb.
  destruct (SFcompare (Prim2SF x) (Prim2SF y)) as [c|] eqn:E; [|discriminate].
  rewrite (SFcompare_antisym _ _ _ E). destruct c; cbn [CompOpp]; congruence.
Qed.

Lemma sane_Some (price p : float) :
  sane price = Some p ->
  p = price /\ PrimFloat.ltb 0 p = true /\ PrimFloat.ltb p 1e12 = true.
Proof.
  unfold sane. destruct (PrimFloat.ltb 0 price) eqn:E1; cbn [andb]; [|discriminate].
  destruct (PrimFloat.ltb price 1e12) eqn:E2; [|discriminate].
  intros [= <-]. auto.
Qed.

Lemma sane_rejects (price : float) :
  PrimFloat.leb price 0 = true \/ PrimFloat.leb 1e12 price = true ->
  sane price = None.
Proof.
  unfold sane. intros [H|H]; apply leb_not_ltb in H; rewrite H;
    [reflexivity | rewrite andb_false_r; reflexivity].
Qed.

(** ** What a method leaves untouched *)

Lemma keeps_ret {A B} (f : ArbitrageMonitor -> B) (a : A) : keeps f (ret a).
Proof. intros self. reflexivity. Qed.

Lemma keeps_raise {A B} (f : ArbitrageMonitor -> B) (e : exn) : keeps f (@raise A e).
Proof. intros self. reflexivity. Qed.

Lemma keeps_lift {A B} (f : ArbitrageMonitor -> B) (r : result A) : keeps f (lift r).
Proof. intros self. reflexivity. Qed.

Lemma keeps_gets {A B} (f : ArbitrageMonitor -> B) (g : ArbitrageMonitor -> A) :
  keeps f (gets g).
Proof. intros self. reflexivity. Qed.

Lemma keeps_bind {A B C} (f : ArbitrageMonitor -> C) (m : M A) (k : A -> M B) :
  keeps f m -> (forall a, keeps f (k a)) -> keeps f (bind m k).
Proof.
  intros Hm Hk self. unfold bind. specialize (Hm self).
  destruct (m self) as [[a|e] self']; cbn in *; [|exact Hm].
  rewrite (Hk a self'). exact Hm.
Qed.

Lemma keeps_try_except {A C} (f : ArbitrageMonitor -> C) (m : M A) (h : exn -> M A) :
  keeps f m -> (forall e, keeps f (h e)) -> keeps f (try_except m h).
Proof.
  intros Hm Hh self. unfold try_except. specialize (Hm self).
  destruct (m self) as [[a|e] self']; cbn in *; [exact Hm|].
  rewrite (Hh e self'). exact Hm.
Qed.

Lemma keeps_remote {A C} (f : ArbitrageMonitor -> C) (c : rpc) (ans : nat -> result A) :
  (forall self, f (record_call c self) = f self) -> keeps f (remote c ans).
Proof. intros H self. apply H. Qed.

Lemma keeps_modify {C} (f : ArbitrageMonitor -> C)
    (g : ArbitrageMonitor -> ArbitrageMonitor) :
  (forall self, f (g self) = f self) -> keeps f (modify g).
Proof. intros H self. apply H. Qed.

Ltac keeps_tac :=
  repeat first
    [ apply keeps_bind; [|intros ?]
    | apply keeps_try_except; [|intros ?]
    | apply keeps_ret | apply keeps_raise | apply keeps_lift | apply keeps_gets
    | apply keeps_remote; intros ?; reflexivity
    | apply keeps_modify; intros ?; reflexivity
    | match goal with |- keeps _ (match ?x with _ => _ end) => destruct x end
    | match goal with |- keeps _ (if ?x then _ else _) => destruct x end ].

Lemma get_token_decimals_keeps_prices w a : keeps price_cache (get_token_decimals w a).
Proof. unfold get_token_decimals. keeps_tac. Qed.

Lemma get_token_price_keeps_prices w a st dex :
  keeps price_cache (get_token_price w a st dex).
Proof.
  unfold get_token_price, quoted_price. keeps_tac;
    apply get_token_decimals_keeps_prices.
Qed.

(** ** Decimal normaliser *)

(** The method, case by case. *)
Lemma get_token_decimals_unfold w a self :
  get_token_decimals w a self =
  match _decimals_cache self !! Py.lower a with
  | Some d => (Ok d, self)
  | None =>
      match to_checksum_address w a with
      | Raise _ => (Ok 18, self)
      | Ok addr =>
          match decimals_call w (List.length (rpc_calls self)) addr with
          | Raise _ => (Ok 18, record_call (Decimals addr) self)
          | Ok z =>
              match decode_uint8 z with
              | Raise _ => (Ok 18, record_call (Decimals addr) self)
              | Ok d => (Ok d, set_decimals_cache (insert (Py.lower a) d)
                                 (record_call (Decimals addr) self))
              end
          end
      end
  end.
Proof.
  unfold get_token_decimals, bind, gets, try_except, lift, remote, modify, ret.
  destruct (_decimals_cache self !! Py.lower a); [reflexivity|].
  destruct (to_checksum_address w a); [|reflexivity].
  destruct (decimals_call w _ _); [|reflexivity].
  destruct (decode_uint8 _); reflexivity.
Qed.

Lemma get_token_decimals_hit w a self d :
  _decimals_cache self !! Py.lower a = Some d ->
  get_token_decimals w a self = (Ok d, self).
Proof. intros H. rewrite get_token_decimals_unfold, H. reflexivity. Qed.

Lemma decode_uint8_spec z :
  (0 <= z < 256 /\ decode_uint8 z = Ok z) \/
  (~ 0 <= z < 256 /\ exists e, decode_uint8 z = Raise e).
Proof.
  unfold decode_uint8.
  destruct ((0 <=? z) && (z <? 256)) eqn:E.
  - left. apply andb_true_iff in E. split; [lia|reflexivity].
  - right. apply andb_false_iff in E. split; [lia|eauto].
Qed.

(** A call that misses the cache performs the look-up. *)
Lemma miss_is_fresh_lookup w a self :
  _decimals_cache self !! Py.lower a = None -> fresh_lookup w a self.
Proof.
  intros Hc. unfold fresh_lookup. cbv zeta.
  rewrite get_token_decimals_unfold, Hc.
  destruct (to_checksum_address w a) as [addr|e].
  2:{ split; [intros ? [=]|]. intros _ _. split; reflexivity. }
  split; [|intros ? [=]]. intros addr' [= <-].
  destruct (decimals_call w _ addr) as [z|e].
  2:{ cbn. split; [reflexivity|]. split; [intros ? [=]|auto]. }
  destruct (decode_uint8_spec z) as [[Hz ->]|[Hz [e ->]]]; cbn [fst snd].
  - split; [reflexivity|]. split.
    + intros z' [= <-] _. split; [reflexivity|]. cbn. apply lookup_insert_eq.
    + intros H. destruct (H z eq_refl Hz).
  - split; [reflexivity|]. split; [|auto].
    intros z' [= <-] Hz'. contradiction.
Qed.

(** C7, as stated, fails: when the first lookup fails, the fallback 18 is
    returned but not cached, and the second call for the same address goes
    to the chain again (two on-chain calls, and a different answer). *)
Lemma decimals_failure_not_cached :
  let '(r1, s1) := get_token_decimals flaky_world Demo.USDC (Demo.monitor ∅) in
  let '(r2, s2) := get_token_decimals flaky_world Demo.USDC s1 in
  r1 = Ok 18 /\ r2 = Ok 6 /\
  rpc_calls s2 = [Decimals Demo.USDC; Decimals Demo.USDC].
Proof. vm_compute. auto. Qed.

(** An address without a checksum form: both calls return 18, nothing is
    cached and the chain is not asked at all. *)
Lemma decimals_without_checksum_form :
  let '(r1, s1) := get_token_decimals strict_world Demo.USDC (Demo.monitor ∅) in
  let '(r2, s2) := get_token_decimals strict_world Demo.USDC s1 in
  r1 = Ok 18 /\ r2 = Ok 18 /\ s2 = Demo.monitor ∅.
Proof. vm_compute. auto. Qed.

(** C7 (amended): a call never raises and issues at most one on-chain call.
    A call that finds the address in the cache returns the cached value
    and changes nothing; any other call performs the look-up
    ([fresh_lookup]): it asks the chain once if the address has a checksum
    form and not at all otherwise.  Afterwards, either the returned value
    is cached under the lower-cased address, and then every later call for
    that address, in any letter case and whatever the chain does, returns
    the same value with no on-chain call and no change of state; or the
    look-up failed, 18 is returned and the cache is left as it was, without
    an entry for the address, and then every later call for that address
    performs the look-up anew: the chain is asked again if the address has
    a checksum form, and is not asked if it has none. *)
Theorem decimals_cached_after_success (w : World) (self : ArbitrageMonitor) (a : string) :
  let '(r, self') := get_token_decimals w a self in
  (exists d, r = Ok d /\
     ((_decimals_cache self' !! Py.lower a = Some d /\
       forall w' a', Py.lower a' = Py.lower a ->
                     get_token_decimals w' a' self' = (Ok d, self'))
      \/ (d = 18 /\ _decimals_cache self' = _decimals_cache self /\
          _decimals_cache self !! Py.lower a = None /\
          forall w' a', Py.lower a' = Py.lower a -> fresh_lookup w' a' self')))
  /\ (List.length (rpc_calls self') <= S (List.length (rpc_calls self)))%nat
  /\ (forall d, _decimals_cache self !! Py.lower a = Some d ->
                r = Ok d /\ self' = self)
  /\ (_decimals_cache self !! Py.lower a = None -> fresh_lookup w a self).
Proof.
  assert (Hfresh : forall s' w' a', _decimals_cache s' !! Py.lower a = None ->
                     Py.lower a' = Py.lower a -> fresh_lookup w' a' s').
  { intros s' w' a' Hn Ha. apply miss_is_fresh_lookup. rewrite Ha. exact Hn. }
  pose proof (miss_is_fresh_lookup w a self) as Hmiss.
  rewrite get_token_decimals_unfold.
  destruct (_decimals_cache self !! Py.lower a) as [d|] eqn:Hc.
  - split; [|split; [lia|split; [|discriminate]]].
    + exists d. split; [reflexivity|]. left. split; [exact Hc|].
      intros w' a' Ha. apply get_token_decimals_hit. rewrite Ha. exact Hc.
    + intros d' [= <-]. auto.
  - specialize (Hmiss eq_refl).
    destruct (to_checksum_address w a) as [addr|e].
    + destruct (decimals_call w _ addr) as [z|e].
      * destruct (decode_uint8 z) as [d|e].
        -- assert (Hin : _decimals_cache
                           (set_decimals_cache (insert (Py.lower a) d)
                              (record_call (Decimals addr) self)) !! Py.lower a = Some d)
             by (cbn; apply lookup_insert_eq).
           split; [|split; [cbn; lia|split; [discriminate|]]].
           ++ exists d. split; [reflexivity|]. left.
              split; [exact Hin|].
              intros w' a' Ha. apply get_token_decimals_hit. rewrite Ha. exact Hin.
           ++ intros _. exact Hmiss.
        -- split; [|split; [cbn; lia|split; [discriminate|]]].
           ++ exists 18. split; [reflexivity|]. right.
              split; [auto|split; [auto|split; [auto|]]].
              intros w' a' Ha. apply Hfresh; [exact Hc|exact Ha].
           ++ intros _. exact Hmiss.
      * split; [|split; [cbn; lia|split; [discriminate|]]].
        -- exists 18. split; [reflexivity|]. right.
           split; [auto|split; [auto|split; [auto|]]].
              intros w' a' Ha. apply Hfresh; [exact Hc|exact Ha].
        -- intros _. exact Hmiss.
    + split; [|split; [lia|split; [discriminate|]]].
      * exists 18. split; [reflexivity|]. right.
        split; [auto|split; [auto|split; [auto|]]].
              intros w' a' Ha. apply Hfresh; [exact Hc|exact Ha].
      * intros _. exact Hmiss.
Qed.

(** ** Quote client *)

Lemma get_token_price_unfold w a st dex self :
  get_token_price w a st dex self =
  match quoted_price w a st dex self with
  | (Ok price, self') => (Ok (sane price), self')
  | (Raise _, self') => (Ok None, self')
  end.
Proof.
  unfold get_token_price, try_except, bind, ret.
  destruct (quoted_price w a st dex self) as [[price|e] self']; reflexivity.
Qed.

Lemma quoted_price_reverts w a st dex self :
  (forall t r i p, exists e, getAmountsOut_call w t r i p = Raise e) ->
  exists e, fst (quoted_price w a st dex self) = Raise e.
Proof.
  intros Hrev.
  unfold quoted_price, bind, gets, lift, remote.
  destruct (getitem (dexes self) dex) as [d|e]; [|eauto].
  destruct (to_checksum_address w (router_address d)) as [router|e]; [|eauto].
  destruct (get_token_decimals w a self) as [[td|e] s1]; [|eauto].
  destruct (getitem (stable_tokens s1) st) as [stable|e]; [|eauto].
  destruct (get_token_decimals w stable s1) as [[sd|e] s2]; [|eauto].
  destruct (to_checksum_address w a) as [p0|e]; [|eauto].
  destruct (to_checksum_address w stable) as [p1|e]; [|eauto].
  destruct (abi_uint256 td (10 ^ td)) as [[]|e]; [|eauto].
  destruct (Hrev (List.length (rpc_calls s2)) router (10 ^ td) [p0; p1]) as [e He].
  rewrite He. eauto.
Qed.

Lemma get_token_decimals_keeps_stables w a :
  keeps stable_tokens (get_token_decimals w a).
Proof. unfold get_token_decimals. keeps_tac. Qed.

(** Once the request is prepared, the quote client issues one quoting call
    and its outcome is decided by the answer to that call. *)
Lemma quoted_price_at_router w a st dex self di router td s1 stable sd s2 ta tb :
  dexes self !! dex = Some di ->
  to_checksum_address w (router_address di) = Ok router ->
  get_token_decimals w a self = (Ok td, s1) ->
  stable_tokens self !! st = Some stable ->
  get_token_decimals w stable s1 = (Ok sd, s2) ->
  to_checksum_address w a = Ok ta ->
  to_checksum_address w stable = Ok tb ->
  0 <= td -> 10 ^ td < 2 ^ 256 ->
  quoted_price w a st dex self =
  (match getAmountsOut_call w (List.length (rpc_calls s2)) router (10 ^ td) [ta; tb] with
   | Raise e => Raise e
   | Ok outs =>
       if forallb is_uint256 outs then
         match outs !! 1%nat with
         | Some out => of_option ZeroDivisionError (Py.truediv out (10 ^ sd))
         | None => Raise IndexError
         end
       else Raise (ValueError "uint256[]")
   end,
   record_call (GetAmountsOut router (10 ^ td) [ta; tb]) s2).
Proof.
  intros H1 H2 H3 H4 H5 H6 H7 H8 H9.
  pose proof (get_token_decimals_keeps_stables w a self) as K.
  rewrite H3 in K. cbn [snd] in K.
  unfold quoted_price, bind, gets, lift, getitem, remote.
  rewrite H1, H2, H3, K, H4, H5, H6, H7.
  unfold abi_uint256, is_uint256.
  replace ((0 <=? td) && ((0 <=? 10 ^ td) && (10 ^ td <? 2 ^ 256))) with true.
  2:{ symmetry. rewrite !andb_true_iff.
      pose proof (Z.pow_nonneg 10 td ltac:(lia)).
      repeat split; [apply Z.leb_le|apply Z.leb_le|apply Z.ltb_lt]; lia. }
  destruct (getAmountsOut_call w _ router (10 ^ td) [ta; tb]) as [outs|e];
    [|reflexivity].
  unfold decode_uint256_array, is_uint256.
  destruct (forallb _ outs); [|reflexivity].
  destruct (outs !! 1%nat) as [out|]; reflexivity.
Qed.

(** An amount of one whole token that is no [uint256] is not sent. *)
Lemma quoted_price_unencodable w a st dex self di router td s1 stable sd s2 ta tb :
  dexes self !! dex = Some di ->
  to_checksum_address w (router_address di) = Ok router ->
  get_token_decimals w a self = (Ok td, s1) ->
  stable_tokens self !! st = Some stable ->
  get_token_decimals w stable s1 = (Ok sd, s2) ->
  to_checksum_address w a = Ok ta ->
  to_checksum_address w stable = Ok tb ->
  ~ (0 <= td /\ 10 ^ td < 2 ^ 256) ->
  quoted_price w a st dex self = (Raise (ValidationError "getAmountsOut"), s2).
Proof.
  intros H1 H2 H3 H4 H5 H6 H7 H8.
  pose proof (get_token_decimals_keeps_stables w a self) as K.
  rewrite H3 in K. cbn [snd] in K.
  unfold quoted_price, bind, gets, lift, getitem, remote.
  rewrite H1, H2, H3, K, H4, H5, H6, H7.
  unfold abi_uint256, is_uint256.
  replace ((0 <=? td) && ((0 <=? 10 ^ td) && (10 ^ td <? 2 ^ 256))) with false;
    [reflexivity|].
  symmetry. apply andb_false_iff.
  destruct (Z.leb_spec 0 td) as [Hpos|Hneg]; [right|left; reflexivity].
  apply andb_false_iff. right. apply Z.ltb_ge. lia.
Qed.

(** C5: the quote client never raises.  When the quoting call it issues
    reverts, it answers [None], and that call was its last: it issues
    exactly one quoting call, for one whole token along the path from the
    token to the stable token, and does not ask again.  A quoting call that
    answers gives the normalised price, the second amount divided by one
    whole stable unit; the client answers [None] when that price is at most
    0 and when it is at least 1e12, and the price itself when it lies
    strictly between the two.  An amount of one whole token that does not
    fit a [uint256] is refused before anything is sent, and the answer is
    [None] as well.  In a world where the router of one DEX reverts and
    that of another one quotes, the first quote is [None] and the second
    the price.  A quote that normalises to 2e12 is rejected and one that
    normalises to 2e11 is returned. *)
Theorem quote_none_on_revert_or_insane_price :
  (forall (w : World) (self : ArbitrageMonitor) (a st dex : string),
     (exists r, fst (get_token_price w a st dex self) = Ok r) /\
     (forall di router td s1 stable sd s2 ta tb,
        dexes self !! dex = Some di ->
        to_checksum_address w (router_address di) = Ok router ->
        get_token_decimals w a self = (Ok td, s1) ->
        stable_tokens self !! st = Some stable ->
        get_token_decimals w stable s1 = (Ok sd, s2) ->
        to_checksum_address w a = Ok ta ->
        to_checksum_address w stable = Ok tb ->
        let request := GetAmountsOut router (10 ^ td) [ta; tb] in
        let answer := getAmountsOut_call w (List.length (rpc_calls s2))
                                         router (10 ^ td) [ta; tb] in
        (0 <= td -> 10 ^ td < 2 ^ 256 ->
         snd (get_token_price w a st dex self) = record_call request s2 /\
         (forall e, answer = Raise e ->
                    get_token_price w a st dex self
                    = (Ok None, record_call request s2)) /\
         (forall outs out, answer = Ok outs -> forallb is_uint256 outs = true ->
                           outs !! 1%nat = Some out -> 0 <= sd ->
                           fst (quoted_price w a st dex self)
                           = of_option ZeroDivisionError (Py.truediv out (10 ^ sd)))) /\
        (~ (0 <= td /\ 10 ^ td < 2 ^ 256) ->
         get_token_price w a st dex self = (Ok None, s2))) /\
     ((forall t r i p, exists e, getAmountsOut_call w t r i p = Raise e) ->
      fst (get_token_price w a st dex self) = Ok None) /\
     (forall price, fst (quoted_price w a st dex self) = Ok price ->
        (PrimFloat.leb price 0 = true \/ PrimFloat.leb 1e12 price = true ->
         fst (get_token_price w a st dex self) = Ok None) /\
        (PrimFloat.ltb 0 price = true -> PrimFloat.ltb price 1e12 = true ->
         fst (get_token_price w a st dex self) = Ok (Some price)))) /\
  (fst (get_token_price patchy_world "0xAbC1" "USDC" "dexA" (Demo.monitor ∅))
   = Ok None /\
   rpc_calls (snd (get_token_price patchy_world "0xAbC1" "USDC" "dexA" (Demo.monitor ∅)))
   = [GetAmountsOut "0xA0" (10 ^ 18) ["0xAbC1"; Demo.USDC];
      Decimals Demo.USDC; Decimals "0xAbC1"] /\
   fst (get_token_price patchy_world "0xAbC1" "USDC" "dexB" (Demo.monitor ∅))
   = Ok (Some 2%float)) /\
  (let w := Demo.world (2 * 10 ^ 18) (Ok 1) (Ok 1) in
   fst (quoted_price w "0xAbC1" "USDC" "dexA" (Demo.monitor ∅)) = Ok 2e12%float /\
   fst (get_token_price w "0xAbC1" "USDC" "dexA" (Demo.monitor ∅)) = Ok None) /\
  (let w := Demo.world (2 * 10 ^ 17) (Ok 1) (Ok 1) in
   fst (quoted_price w "0xAbC1" "USDC" "dexA" (Demo.monitor ∅)) = Ok 2e11%float /\
   fst (get_token_price w "0xAbC1" "USDC" "dexA" (Demo.monitor ∅)) = Ok (Some 2e11%float)).
Proof.
  split; [|split; [|split; vm_compute; auto]].
  2:{ repeat split; vm_compute; reflexivity. }
  intros w self a st dex. rewrite get_token_price_unfold.
  split; [|split; [|split]].
  - destruct (quoted_price w a st dex self) as [[price|e] self']; eauto.
  - intros di router td s1 stable sd s2 ta tb H1 H2 H3 H4 H5 H6 H7. cbv zeta. split.
    + intros H8 H9.
      rewrite (quoted_price_at_router w a st dex self di router td s1 stable sd s2 ta tb)
        by assumption.
      split; [|split].
      * destruct (getAmountsOut_call w _ router (10 ^ td) [ta; tb]) as [outs|e];
          [|reflexivity].
        destruct (forallb is_uint256 outs); [|reflexivity].
        destruct (outs !! 1%nat) as [out|]; [|reflexivity].
        destruct (of_option _ _); reflexivity.
      * intros e He. rewrite He. reflexivity.
      * intros outs out Ha Hu Ho _. cbn [fst]. rewrite Ha, Hu, Ho. reflexivity.
    + intros Hbad.
      rewrite (quoted_price_unencodable w a st dex self di router td s1 stable sd s2 ta tb)
        by assumption.
      reflexivity.
  - intros Hrev. destruct (quoted_price_reverts w a st dex self Hrev) as [e He].
    destruct (quoted_price w a st dex self) as [[price|e'] self']; cbn in *;
      [discriminate|reflexivity].
  - intros price H.
    destruct (quoted_price w a st dex self) as [[p|e'] self']; cbn in *;
      [|discriminate].
    injection H as ->. split.
    + intros Hbad. f_equal. apply sane_rejects. exact Hbad.
    + intros H0 H1. unfold sane. rewrite H0, H1. reflexivity.
Qed.


(** ** Price cache *)

Lemma cache_get_put key dex p cache key' dex' :
  cache_get (cache_put key dex p cache) key' dex' =
  if decide (key = key' /\ dex = dex') then Some p else cache_get cache key' dex'.
Proof.
  unfold cache_get, cache_put.
  destruct (decide (key = key')) as [->|Hk].
  - rewrite lookup_insert_eq. cbn.
    destruct (decide (dex = dex')) as [->|Hd].
    + rewrite lookup_insert_eq. rewrite decide_True by auto. reflexivity.
    + rewrite lookup_insert_ne by exact Hd.
      rewrite decide_False by (intros [_ ?]; contradiction). reflexivity.
  - rewrite lookup_insert_ne by exact Hk.
    rewrite decide_False by (intros [? _]; contradiction). reflexivity.
Qed.

Lemma get_token_price_valid w a st dex self p :
  fst (get_token_price w a st dex self) = Ok (Some p) -> valid_price p.
Proof.
  rewrite get_token_price_unfold.
  destruct (quoted_price w a st dex self) as [[price|e] self']; cbn;
    [|discriminate].
  intros [= H]. apply sane_Some in H. destruct H as (_ & H0 & H1). split; assumption.
Qed.

(** [update_price_for_dex], case by case on what the quote client said. *)
Lemma update_price_for_dex_unfold w token st dex self :
  update_price_for_dex w token st dex self =
  match get_token_price w (address token) st dex self with
  | (Ok (Some p), self') =>
      if Py.truthy p
      then (Ok (Some p),
            set_price_cache (cache_put (Py.lower (address token)) dex p) self')
      else (Ok None, self')
  | (Ok None, self') => (Ok None, self')
  | (Raise e, self') => (Raise e, self')
  end.
Proof.
  unfold update_price_for_dex, bind.
  destruct (get_token_price w (address token) st dex self) as [[[p|]|e] self'];
    try reflexivity.
  destruct (Py.truthy p); reflexivity.
Qed.

Lemma update_price_step w token st dex self :
  cache_valid (price_cache self) ->
  let self' := snd (update_price_for_dex w token st dex self) in
  cache_valid (price_cache self') /\
  (forall key d, is_Some (cache_get (price_cache self) key d) ->
                 is_Some (cache_get (price_cache self') key d)) /\
  (fst (get_token_price w (address token) st dex self) = Ok None ->
   price_cache self' = price_cache self).
Proof.
  intros Hv. cbv zeta. rewrite update_price_for_dex_unfold.
  pose proof (get_token_price_keeps_prices w (address token) st dex self) as Hk.
  pose proof (get_token_price_valid w (address token) st dex self) as Hp.
  destruct (get_token_price w (address token) st dex self) as [[[p|]|e] self'];
    cbn in Hk, Hp |- *.
  - destruct (Py.truthy p); cbn.
    + rewrite Hk. split; [|split].
      * intros key d q. rewrite cache_get_put.
        case_decide; [intros [= <-]; apply Hp; reflexivity | apply Hv].
      * intros key d Hs. rewrite cache_get_put. case_decide; [eauto|exact Hs].
      * discriminate.
    + rewrite Hk. split; [exact Hv|]. split; [auto|reflexivity].
  - rewrite Hk. split; [exact Hv|]. split; [auto|reflexivity].
  - rewrite Hk. split; [exact Hv|]. split; [auto|discriminate].
Qed.


(** ** Spread evaluator *)

Lemma check_and_execute_unfold w token st self :
  check_and_execute_opportunity w token st self =
  match price_spread self token with
  | Raise e => (Raise e, self)
  | Ok None => (Ok None, self)
  | Ok (Some (low, high, s)) =>
      if in_band s then profit_check w token st low high s self else (Ok None, self)
  end.
Proof.
  unfold check_and_execute_opportunity, bind.
  destruct (price_spread self token) as [[[[low high] s]|]|e]; try reflexivity.
  destruct (in_band s); reflexivity.
Qed.

(** C4: the band check is strict at both ends.  A computed spread outside
    the band ends the evaluation with no opportunity and no further action;
    one inside it goes on to the profit check.  0.8 and 50 are outside,
    0.81 and 49.9 inside.  Prices 125 and 126 give the spread 0.8 and no
    opportunity, 1 and 1.5 give 50 and none, 5 and 7.495 give 49.9 and an
    opportunity, and 10000 and 10081 give a spread inside the band and an
    opportunity. *)
Theorem spread_band_is_strict :
  (forall (w : World) (self : ArbitrageMonitor) (token : Token) (st : string)
          (low high : string * float) (s : float),
     price_spread self token = Ok (Some (low, high, s)) ->
     (in_band s = false ->
      check_and_execute_opportunity w token st self = (Ok None, self)) /\
     (in_band s = true ->
      check_and_execute_opportunity w token st self =
      profit_check w token st low high s self)) /\
  (in_band 0.8 = false /\ in_band 0.81 = true /\
   in_band 50 = false /\ in_band 49.9 = true) /\
  (let w := Demo.world 0 (Raise Demo.no_node) (Ok 1) in
   let run a b :=
     (price_spread (Demo.monitor (Demo.cache_of a b)) Demo.token,
      fst (check_and_execute_opportunity w Demo.token "USDC"
             (Demo.monitor (Demo.cache_of a b)))) in
   run 125%float 126%float =
     (Ok (Some (("dexA", 125%float), ("dexB", 126%float), 0.8%float)), Ok None) /\
   run 1%float 1.5%float =
     (Ok (Some (("dexA", 1%float), ("dexB", 1.5%float), 50%float)), Ok None) /\
   (exists o, run 5%float 7.495%float =
     (Ok (Some (("dexA", 5%float), ("dexB", 7.495%float), 49.9%float)), Ok (Some o))) /\
   (exists o, run 10000%float 10081%float =
     (Ok (Some (("dexA", 10000%float), ("dexB", 10081%float),
                0.8099999999999999%float)), Ok (Some o)))).
Proof.
  split; [|split].
  - intros w self token st low high s Hs. rewrite check_and_execute_unfold, Hs.
    split; intros ->; reflexivity.
  - vm_compute. auto.
  - cbv zeta. repeat split; try (vm_compute; reflexivity);
      eexists; vm_compute; reflexivity.
Qed.

Lemma get_token_decimals_keeps {B} (f : ArbitrageMonitor -> B) w a :
  (forall c self, f (record_call c self) = f self) ->
  (forall g self, f (set_decimals_cache g self) = f self) ->
  keeps f (get_token_decimals w a).
Proof.
  intros H1 H2. unfold get_token_decimals.
  repeat first
    [ apply keeps_bind; [|intros ?]
    | apply keeps_try_except; [|intros ?]
    | apply keeps_ret | apply keeps_lift | apply keeps_gets
    | apply keeps_remote; intros ?; apply H1
    | apply keeps_modify; intros ?; apply H2
    | match goal with |- keeps _ (match ?x with _ => _ end) => destruct x end ].
Qed.

Lemma eth_get_gas_price_keeps {B} (f : ArbitrageMonitor -> B) w :
  (forall c self, f (record_call c self) = f self) ->
  keeps f (eth_get_gas_price w).
Proof.
  intros H1 self. unfold eth_get_gas_price.
  destruct (get_gas_price_call w _) as [z|e]; cbn [snd]; [apply H1|].
  destruct (is_attribute_error e); cbn [snd]; [reflexivity|apply H1].
Qed.

Lemma estimate_gas_cost_keeps {B} (f : ArbitrageMonitor -> B) w :
  (forall c self, f (record_call c self) = f self) ->
  keeps f (estimate_gas_cost w).
Proof.
  intros H1. unfold estimate_gas_cost.
  repeat first
    [ apply eth_get_gas_price_keeps; exact H1
    | apply keeps_bind; [|intros ?]
    | apply keeps_try_except; [|intros ?]
    | apply keeps_ret | apply keeps_lift | apply keeps_gets
    | apply keeps_remote; intros ?; apply H1 ].
Qed.

(** The spread of the quotes 100 and 102, in either order of collection. *)
Lemma price_spread_100_102 self token dexA dexB :
  dexA <> dexB ->
  (collect_prices (price_cache self) (Py.lower (address token)) (selected_dexes self)
     = [(dexA, 100%float); (dexB, 102%float)] \/
   collect_prices (price_cache self) (Py.lower (address token)) (selected_dexes self)
     = [(dexB, 102%float); (dexA, 100%float)]) ->
  price_spread self token =
  Ok (Some ((dexA, 100%float), (dexB, 102%float), 2%float)).
Proof.
  intros Hne [Hc|Hc]; unfold price_spread; rewrite Hc;
    cbv [min_by_price max_by_price fold_left snd];
    [ change (PrimFloat.ltb 102 100) with false;
      change (PrimFloat.ltb 100 102) with true
    | change (PrimFloat.ltb 100 102) with true;
      change (PrimFloat.ltb 102 100) with false ];
    cbv iota;
    (replace (String.eqb dexA dexB) with false
       by (symmetry; apply String.eqb_neq; exact Hne));
    reflexivity.
Qed.

Lemma get_token_decimals_total w a self :
  exists d, fst (get_token_decimals w a self) = Ok d.
Proof.
  rewrite get_token_decimals_unfold.
  destruct (_decimals_cache self !! Py.lower a); [eauto|].
  destruct (to_checksum_address w a); [|eauto].
  destruct (decimals_call w _ _); [|eauto].
  destruct (decode_uint8 _); eauto.
Qed.

(** C3: with the quotes 100.0 on dexA and 102.0 on dexB as the cached prices
    of the selected DEXes, a threshold of 10, a notional of 5000 and a gas
    estimate of 10, the spread is 2.0, the gross profit 100.0 and the net
    profit 90.0, and the opportunity buys on dexA and sells on dexB. *)
Theorem spread_example_100_102
    (w : World) (self : ArbitrageMonitor) (token : Token)
    (st stable dexA dexB : string) :
  dexA <> dexB ->
  (collect_prices (price_cache self) (Py.lower (address token)) (selected_dexes self)
     = [(dexA, 100%float); (dexB, 102%float)] \/
   collect_prices (price_cache self) (Py.lower (address token)) (selected_dexes self)
     = [(dexB, 102%float); (dexA, 100%float)]) ->
  min_profit_threshold self = 10 ->
  max_flash_loan_amount self = 5000 ->
  (forall s, fst (estimate_gas_cost w s) = Ok 10%float) ->
  stable_tokens self !! st = Some stable ->
  is_Some (dexes self !! dexA) ->
  is_Some (dexes self !! dexB) ->
  price_spread self token = Ok (Some ((dexA, 100%float), (dexB, 102%float), 2%float)) /\
  exists o,
    fst (check_and_execute_opportunity w token st self) = Ok (Some o) /\
    buy_dex o = dexA /\ sell_dex o = dexB /\
    buy_price o = 100%float /\ sell_price o = 102%float /\
    expected_profit o = 100%float /\ gas_cost o = 10%float /\
    net_profit o = 90%float.
Proof.
  intros Hne Hc Hthr Hmax Hgas Hst [da Hda] [db Hdb].
  pose proof (price_spread_100_102 self token dexA dexB Hne Hc) as Hs.
  split; [exact Hs|].
  rewrite check_and_execute_unfold, Hs.
  change (in_band 2) with true. cbv iota.
  unfold profit_check, bind, gets, lift, getitem. rewrite Hst, Hmax. cbv iota beta.
  destruct (get_token_decimals_total w stable self) as [d Hd].
  pose proof (get_token_decimals_keeps min_profit_threshold w stable
                ltac:(reflexivity) ltac:(reflexivity) self) as K1.
  pose proof (get_token_decimals_keeps dexes w stable
                ltac:(reflexivity) ltac:(reflexivity) self) as K2.
  destruct (get_token_decimals w stable self) as [r1 s1]. cbn in Hd, K1, K2. subst r1.
  change (Py.float_of_int 5000) with (Some 5000%float). cbv [of_option].
  pose proof (Hgas s1) as Hg.
  pose proof (estimate_gas_cost_keeps min_profit_threshold w ltac:(reflexivity) s1) as K3.
  pose proof (estimate_gas_cost_keeps dexes w ltac:(reflexivity) s1) as K4.
  destruct (estimate_gas_cost w s1) as [r2 s2]. cbn in Hg, K3, K4. subst r2.
  rewrite K3, K1, Hthr.
  change (Py.int_lt_float 10 (5000 * (2 / 100) - 10)%float) with true.
  cbv beta iota.
  rewrite K4, K2, Hda, Hdb. cbv [ret fst].
  eexists. split; [reflexivity|]. cbn [buy_dex sell_dex buy_price sell_price
                                       expected_profit gas_cost net_profit].
  repeat split; vm_compute; reflexivity.
Qed.

Lemma spread_example_100_102_witness :
  price_spread (Demo.monitor (Demo.cache_of 100 102)) Demo.token =
    Ok (Some (("dexA", 100%float), ("dexB", 102%float), 2%float)) /\
  exists o,
    fst (check_and_execute_opportunity (Demo.world 0 (Raise Demo.no_node) (Ok 1))
           Demo.token "USDC" (Demo.monitor (Demo.cache_of 100 102))) = Ok (Some o) /\
    buy_dex o = "dexA" /\ sell_dex o = "dexB" /\
    buy_price o = 100%float /\ sell_price o = 102%float /\
    expected_profit o = 100%float /\ gas_cost o = 10%float /\
    net_profit o = 90%float.
Proof.
  apply (spread_example_100_102 (Demo.world 0 (Raise Demo.no_node) (Ok 1))
           (Demo.monitor (Demo.cache_of 100 102)) Demo.token
           "USDC" Demo.USDC "dexA" "dexB").
  - discriminate.
  - left. vm_compute. reflexivity.
  - reflexivity.
  - reflexivity.
  - intros s. reflexivity.
  - vm_compute. reflexivity.
  - eexists. vm_compute. reflexivity.
  - eexists. vm_compute. reflexivity.
Defined.

(** ** The price cache under the watcher and the evaluator *)

Lemma profit_check_keeps_prices w token st low high s :
  keeps price_cache (profit_check w token st low high s).
Proof.
  destruct low as [d1 p1], high as [d2 p2]. unfold profit_check.
  repeat first
    [ apply get_token_decimals_keeps_prices
    | apply estimate_gas_cost_keeps; intros ? ?; reflexivity
    | apply keeps_bind; [|intros ?]
    | apply keeps_ret | apply keeps_lift | apply keeps_gets
    | match goal with |- keeps _ (if ?x then _ else _) => destruct x end ].
Qed.

Lemma check_and_execute_keeps_prices w token st :
  keeps price_cache (check_and_execute_opportunity w token st).
Proof.
  intros self. rewrite check_and_execute_unfold.
  destruct (price_spread self token) as [[[[low high] s]|]|e]; try reflexivity.
  destruct (in_band s); [apply profit_check_keeps_prices|reflexivity].
Qed.

Lemma process_entries_valid w wt entries self :
  cache_valid (price_cache self) ->
  cache_valid (price_cache (snd (process_entries w wt entries self))).
Proof.
  revert self. induction entries as [|entry rest IH]; intros self Hv; [exact Hv|].
  cbn [process_entries]. unfold bind at 1. unfold try_except, bind at 1.
  destruct (update_price_step w (w_token wt) (w_stable_token wt) (w_dex_key wt) self Hv)
    as (Hv1 & _ & _).
  destruct (update_price_for_dex w (w_token wt) (w_stable_token wt) (w_dex_key wt) self)
    as [[r|e] s1]; cbn [snd] in Hv1; [|exact Hv1].
  unfold bind at 1.
  pose proof (check_and_execute_keeps_prices w (w_token wt) (w_stable_token wt) s1) as Hk.
  destruct (check_and_execute_opportunity w (w_token wt) (w_stable_token wt) s1)
    as [[task|e] s2]; cbn [snd] in Hk; cbn [ret].
  - unfold bind. specialize (IH s2). rewrite Hk in IH. specialize (IH Hv1).
    destruct (process_entries w wt rest s2) as [[[[logs tasks] err]|e] s3];
      cbn [snd] in *; exact IH.
  - unfold ret. cbn [snd]. rewrite Hk. exact Hv1.
Qed.

Lemma watcher_step_valid w wt self :
  cache_valid (price_cache self) ->
  cache_valid (price_cache (snd (watcher_step w wt self))).
Proof.
  intros Hv. unfold watcher_step, bind at 1, gets.
  destruct (w_phase wt) as [|f|]; [| |exact Hv].
  - destruct (negb (is_monitoring self)); [exact Hv|].
    unfold try_except, bind, remote.
    destruct (new_filter_call w _ _); exact Hv.
  - destruct (negb (is_monitoring self)); [exact Hv|].
    unfold bind at 1, remote.
    destruct (get_new_entries_call w _ f) as [entries|e]; [|exact Hv].
    unfold bind.
    pose proof (process_entries_valid w wt entries
                  (record_call (GetNewEntries f) self) Hv) as Hp.
    destruct (process_entries w wt entries (record_call (GetNewEntries f) self))
      as [[[[logs tasks] [err|]]|e] s1]; cbn [snd] in *; exact Hp.
Qed.

Lemma watcher_run_valid w fuel wt self :
  cache_valid (price_cache self) ->
  cache_valid (price_cache (snd (watcher_run w fuel wt self))).
Proof.
  revert wt self. induction fuel as [|n IH]; intros wt self Hv; [exact Hv|].
  cbn [watcher_run]. unfold bind.
  pose proof (watcher_step_valid w wt self Hv) as H1.
  destruct (watcher_step w wt self) as [[wt'|e] s1]; cbn [snd] in *;
    [apply IH; exact H1|exact H1].
Qed.

Lemma dict_set_valid prices dex p :
  prices_valid prices -> valid_price p -> prices_valid (dict_set prices dex p).
Proof.
  intros Hps Hp. induction Hps as [|[k v] r Hv Hr IH]; cbn [dict_set].
  - constructor; [exact Hp|constructor].
  - destruct (String.eqb k dex); constructor; assumption.
Qed.

Lemma collect_prices_valid cache key selected :
  cache_valid cache -> prices_valid (collect_prices cache key selected).
Proof.
  intros Hv. unfold collect_prices.
  assert (H : forall acc, prices_valid acc ->
            prices_valid
              (fold_left
                 (fun prices dex =>
                    match cache_get cache key dex with
                    | Some price =>
                        if Py.truthy price then dict_set prices dex price else prices
                    | None => prices
                    end) selected acc)).
  { induction selected as [|dex rest IH]; intros acc Hacc; [exact Hacc|].
    cbn [fold_left]. apply IH.
    destruct (cache_get cache key dex) as [p|] eqn:E; [|exact Hacc].
    destruct (Py.truthy p); [|exact Hacc].
    apply dict_set_valid; [exact Hacc|exact (Hv key dex p E)]. }
  apply H. constructor.
Qed.

(** C10: the price cache starts empty, hence valid, and each update attempt
    keeps every stored price strictly between 0 and 1e12, removes no entry,
    and changes nothing at all when the quote client answers [None]; so the
    cache is valid after any sequence of update attempts and after any
    number of turns of a watcher, and every price the evaluator collects
    from it is valid. *)
Theorem price_cache_always_valid :
  cache_valid ∅ /\
  (forall (w : World) (token : Token) (st dex : string) (self : ArbitrageMonitor),
     cache_valid (price_cache self) ->
     let self' := snd (update_price_for_dex w token st dex self) in
     cache_valid (price_cache self') /\
     (forall key d, is_Some (cache_get (price_cache self) key d) ->
                    is_Some (cache_get (price_cache self') key d)) /\
     (fst (get_token_price w (address token) st dex self) = Ok None ->
      price_cache self' = price_cache self)) /\
  (forall (w : World) (reqs : list (Token * string * string)) (self : ArbitrageMonitor),
     cache_valid (price_cache self) ->
     let self' := snd (updates w reqs self) in
     cache_valid (price_cache self') /\
     (forall key d, is_Some (cache_get (price_cache self) key d) ->
                    is_Some (cache_get (price_cache self') key d))) /\
  (forall (w : World) (fuel : nat) (wt : Watcher) (self : ArbitrageMonitor),
     cache_valid (price_cache self) ->
     cache_valid (price_cache (snd (watcher_run w fuel wt self)))) /\
  (forall (self : ArbitrageMonitor) (token : Token),
     cache_valid (price_cache self) ->
     prices_valid (collect_prices (price_cache self) (Py.lower (address token))
                                  (selected_dexes self))).
Proof.
  split; [|split; [|split; [|split]]].
  - intros key dex p. unfold cache_get. rewrite lookup_empty. cbn.
    rewrite lookup_empty. discriminate.
  - exact update_price_step.
  - intros w reqs. induction reqs as [|[[token st] dex] rest IH]; intros self Hv.
    + cbn. auto.
    + cbn [updates]. unfold bind.
      destruct (update_price_step w token st dex self Hv) as (Hv1 & Hkeep1 & _).
      destruct (update_price_for_dex w token st dex self) as [[r|e] self1];
        cbn in Hv1, Hkeep1 |- *.
      * destruct (IH self1 Hv1) as (Hv2 & Hkeep2). split; [exact Hv2|].
        intros key d Hs. apply Hkeep2, Hkeep1, Hs.
      * split; [exact Hv1|exact Hkeep1].
  - intros w fuel wt self. apply watcher_run_valid.
  - intros self token Hv. apply collect_prices_valid. exact Hv.
Qed.

(** ** Swap event watcher *)

Lemma poll_error_step w wt self f e :
  is_monitoring self = true ->
  w_phase wt = Polling f ->
  get_new_entries_call w (List.length (rpc_calls self)) f = Raise e ->
  watcher_step w wt self =
  (Ok (on_error wt (consecutive_errors wt) [] e), record_call (GetNewEntries f) self).
Proof.
  intros Hm Hp He. unfold watcher_step, bind, gets, remote, ret.
  rewrite Hm, Hp. cbn [negb]. rewrite He. reflexivity.
Qed.

Lemma create_filter_step w wt self f :
  is_monitoring self = true ->
  w_phase wt = CreatingFilter ->
  new_filter_call w (List.length (rpc_calls self)) (w_pair_address wt) = Ok f ->
  watcher_step w wt self =
  (Ok (step_to (Polling f) (consecutive_errors wt) [] [] [] wt),
   record_call (NewFilter (w_pair_address wt)) self).
Proof.
  intros Hm Hp Hf. unfold watcher_step, bind, gets, remote, ret, try_except.
  rewrite Hm, Hp. cbn [negb]. rewrite Hf. reflexivity.
Qed.

Lemma poll_ok_step w wt self f entries :
  is_monitoring self = true ->
  w_phase wt = Polling f ->
  get_new_entries_call w (List.length (rpc_calls self)) f = Ok entries ->
  forall logs tasks self',
    process_entries w wt entries (record_call (GetNewEntries f) self)
      = (Ok (logs, tasks, None), self') ->
    watcher_step w wt self = (Ok (step_to (Polling f) 0 logs [2] tasks wt), self').
Proof.
  intros Hm Hp He logs tasks self' Hproc.
  unfold watcher_step, bind, gets, remote, ret.
  rewrite Hm, Hp. cbn [negb]. rewrite He.
  unfold remote in Hproc. rewrite Hproc. reflexivity.
Qed.

(** C6, as stated, fails: a poll that fails with "filter not found" moves
    the consecutive-error counter from 0 to 1 and the watcher sleeps the
    5 seconds of the first backoff step. *)
Lemma filter_expiry_is_counted :
  is_filter_not_found filter_expired = true /\
  consecutive_errors polling_watcher = 0 /\
  exists wt',
    fst (watcher_step expiring_world polling_watcher (Demo.monitor ∅)) = Ok wt' /\
    consecutive_errors wt' = 1 /\ w_slept wt' = [5].
Proof.
  split; [vm_compute; reflexivity|]. split; [reflexivity|].
  eexists. split; [vm_compute; reflexivity|]. split; reflexivity.
Qed.

(** C6 (amended): when a poll fails with a "filter not found" error the
    watcher logs it at debug level instead of error level and otherwise
    treats it like any other error: the counter goes up by one and the
    watcher sleeps [min(5 * counter, 60)] seconds; no price is touched and
    no task is created.  It then stands at the head of the outer loop, where
    the next turn creates a new filter and returns to polling with the
    counter unchanged; a later poll that succeeds sets the counter to 0 and
    handles its entries.  With a node that fails the first poll in this way
    and then delivers one entry, three turns end in polling on a new
    filter, counter 0, having slept 5 and then 2 seconds. *)
Theorem filter_expiry_counted_then_recovers :
  (forall (w : World) (self : ArbitrageMonitor) (wt : Watcher) (f : nat) (e : exn),
     is_monitoring self = true ->
     w_phase wt = Polling f ->
     get_new_entries_call w (List.length (rpc_calls self)) f = Raise e ->
     is_filter_not_found e = true ->
     exists wt' self',
       watcher_step w wt self = (Ok wt', self') /\
       w_phase wt' = CreatingFilter /\
       consecutive_errors wt' = consecutive_errors wt + 1 /\
       w_slept wt' = w_slept wt ++ [Z.min (5 * (consecutive_errors wt + 1)) 60] /\
       w_logged wt' = w_logged wt ++
                      (DEBUG, "Filter expired. Recreating...") ::
                      (if 1 <? consecutive_errors wt + 1
                       then [(INFO, "Connection unstable. Retrying")] else []) /\
       w_spawned wt' = w_spawned wt /\
       price_cache self' = price_cache self /\
       is_monitoring self' = true /\
       (forall f',
          new_filter_call w (List.length (rpc_calls self')) (w_pair_address wt') = Ok f' ->
          exists wt'' self'',
            watcher_step w wt' self' = (Ok wt'', self'') /\
            w_phase wt'' = Polling f' /\
            consecutive_errors wt'' = consecutive_errors wt' /\
            w_slept wt'' = w_slept wt')) /\
  (forall (w : World) (self : ArbitrageMonitor) (wt : Watcher) (f : nat)
          (entries : list Z) logs tasks self',
     is_monitoring self = true ->
     w_phase wt = Polling f ->
     get_new_entries_call w (List.length (rpc_calls self)) f = Ok entries ->
     process_entries w wt entries (record_call (GetNewEntries f) self)
       = (Ok (logs, tasks, None), self') ->
     exists wt',
       watcher_step w wt self = (Ok wt', self') /\
       w_phase wt' = Polling f /\ consecutive_errors wt' = 0 /\
       w_spawned wt' = w_spawned wt ++ tasks /\
       w_slept wt' = w_slept wt ++ [2]) /\
  (exists wt' f',
     fst (watcher_run recovering_world 3 polling_watcher (Demo.monitor ∅)) = Ok wt' /\
     w_phase wt' = Polling f' /\ f' <> 0%nat /\ consecutive_errors wt' = 0 /\
     w_slept wt' = [5; 2] /\
     w_logged wt' = [(DEBUG, "Filter expired. Recreating..."); (INFO, "SWAP DETECTED")]).
Proof.
  split; [|split].
  - intros w self wt f e Hm Hp He Hfnf.
    rewrite (poll_error_step w wt self f e Hm Hp He).
    eexists _, _. split; [reflexivity|].
    assert (Hphase : w_phase (on_error wt (consecutive_errors wt) [] e) = CreatingFilter)
      by reflexivity.
    split; [exact Hphase|]. split; [reflexivity|]. split; [reflexivity|].
    split; [unfold on_error; rewrite Hfnf; reflexivity|].
    split; [apply app_nil_r|]. split; [reflexivity|]. split; [exact Hm|].
    intros f' Hf'.
    rewrite (create_filter_step w _ (record_call (GetNewEntries f) self) f'
               Hm Hphase Hf').
    eexists _, _. split; [reflexivity|]. split; [reflexivity|].
    split; [reflexivity|]. apply app_nil_r.
  - intros w self wt f entries logs tasks self' Hm Hp He Hproc.
    rewrite (poll_ok_step w wt self f entries Hm Hp He logs tasks self' Hproc).
    eexists. split; [reflexivity|]. repeat split.
  - eexists _, _. split; [vm_compute; reflexivity|].
    repeat (split; [first [reflexivity | discriminate]|]). reflexivity.
Qed.

(** ** Execution coordinator *)

Ltac answer_step :=
  match goal with
  | |- context [params_tuple ?w ?s ?o] => destruct (params_tuple w s o) eqn:?
  | |- context [get_transaction_count_call ?w ?t ?a] =>
      destruct (get_transaction_count_call w t a) eqn:?
  | |- context [get_gas_price_call ?w ?t] => destruct (get_gas_price_call w t) eqn:?
  | |- context [build_transaction_call ?w ?t ?x] =>
      destruct (build_transaction_call w t x) eqn:?
  | |- context [sign_transaction ?w ?x ?k] => destruct (sign_transaction w x k) eqn:?
  | |- context [send_raw_transaction_call ?w ?t ?x] =>
      destruct (send_raw_transaction_call w t x) eqn:?
  | |- context [wait_for_transaction_receipt_call ?w ?t ?h ?x] =>
      destruct (wait_for_transaction_receipt_call w t h x) eqn:?
  | |- context [?z =? 1] => destruct (z =? 1) eqn:?
  end.

(** Every path through [execute_arbitrage], one goal per outcome. *)
Ltac all_outcomes :=
  cbv zeta; unfold run_alone, fresh_loop, execute_arbitrage;
  cbn -[params_tuple]; repeat (answer_step; cbn -[params_tuple]).

(** An invocation that finds the lock free takes it at once. *)
Lemma acquire_when_free w self opp tid hist :
  exists t lk h,
    advance w tid (execute_arbitrage w self opp)
            {| locked := false; waiters := [] |} hist
      = (t, lk, hist ++ (tid, Acquired) :: h).
Proof.
  unfold execute_arbitrage. cbn -[params_tuple].
  destruct (params_tuple w self opp); cbn; eexists _, _, _.
  - rewrite <- !app_assoc. cbn. reflexivity.
  - rewrite <- !app_assoc. cbn. reflexivity.
Qed.


(** C9, as stated, fails: when no receipt arrives within the timeout the
    transaction has been built, signed and sent, the error is logged and
    the lock released, and no cooldown has been slept; the same holds when
    the gas-price call fails before anything is sent. *)
Lemma no_cooldown_after_timeout :
  (let w := Demo.world 0 (Ok 1) (Raise Demo.time_exhausted) in
   let l := run_alone w (execute_arbitrage w (Demo.monitor ∅) Demo.opportunity) in
   tasks l = [Finished (Ok tt)] /\
   count (is_submission_of 0) (history l) = 3%nat /\
   count is_released (history l) = 1%nat /\
   count is_cooldown (history l) = 0%nat) /\
  (let w := Demo.world 0 (Raise Demo.no_node) (Ok 1) in
   let l := run_alone w (execute_arbitrage w (Demo.monitor ∅) Demo.opportunity) in
   tasks l = [Finished (Ok tt)] /\
   count is_released (history l) = 1%nat /\
   count is_cooldown (history l) = 0%nat).
Proof. split; vm_compute; auto. Qed.

(** C9 (amended): the 60-second cooldown is slept exactly when a receipt
    was obtained, whatever its status, and then it is the last thing done
    before the lock is released; when the receipt times out or an earlier
    step raises, the lock is released without any cooldown. *)
Theorem cooldown_iff_receipt
    (w : World) (self : ArbitrageMonitor) (opp : ArbitrageOpportunity) :
  let h := history (run_alone w (execute_arbitrage w self opp)) in
  count is_cooldown h = count is_receipt h /\
  (count is_receipt h <= 1)%nat /\
  cooldown_then_release h = Nat.eqb (count is_receipt h) 1 /\
  count is_released h = 1%nat.
Proof. all_outcomes; auto. Qed.

(** Both kinds of receipt, and the cooldown after each. *)
Lemma cooldown_after_receipt :
  (let w := Demo.world 0 (Ok 1) (Ok 1) in
   let h := history (run_alone w (execute_arbitrage w (Demo.monitor ∅)
                                                    Demo.opportunity)) in
   count is_receipt h = 1%nat /\ cooldown_then_release h = true) /\
  (let w := Demo.world 0 (Ok 1) (Ok 0) in
   let h := history (run_alone w (execute_arbitrage w (Demo.monitor ∅)
                                                    Demo.opportunity)) in
   count is_receipt h = 1%nat /\ cooldown_then_release h = true).
Proof. split; vm_compute; auto. Qed.

(** An invocation that finds the lock taken joins the queue: it does not
    return, and it logs nothing. *)
Lemma acquire_when_held w self opp tid lk hist :
  locked lk = true ->
  exists k,
    advance w tid (execute_arbitrage w self opp) lk hist =
    (WaitingLock k,
     {| locked := true; waiters := waiters lk ++ [(tid, false)] |},
     hist ++ [(tid, Queued)]).
Proof.
  intros Hl. unfold execute_arbitrage. cbn -[params_tuple]. rewrite Hl.
  eexists. reflexivity.
Qed.

(** C2 at its failing input.  An invocation that finds the lock taken
    never returns at that point: it joins the lock's queue, without logging
    a warning.  With two opportunities as two tasks, the first takes the
    lock and is suspended in its first remote call; the second then finds
    the lock taken and is queued.  Once the first task has released the
    lock, the second takes it and builds, signs and sends its own
    transaction. *)
Theorem second_trade_is_queued_not_dropped :
  (forall (w : World) (self : ArbitrageMonitor) (opp : ArbitrageOpportunity)
          (tid : nat) (lk : Lock) (hist : list (nat * event)),
     locked lk = true ->
     exists k,
       advance w tid (execute_arbitrage w self opp) lk hist =
       (WaitingLock k,
        {| locked := true; waiters := waiters lk ++ [(tid, false)] |},
        hist ++ [(tid, Queued)])) /\
  (let l1 := schedule calm_world [0; 1]%nat two_trades in
   let l2 := schedule calm_world [0; 0; 0; 0; 0; 0; 1; 1; 1; 1; 1; 1; 1]%nat l1 in
   (locked (trade_lock l1) = true /\
    map state_of (tasks l1) = [IsSuspended; IsWaitingLock] /\
    waiters (trade_lock l1) = [(1%nat, false)] /\
    count (is_warning_of 1) (history l1) = 0%nat /\
    count (is_submission_of 1) (history l1) = 0%nat) /\
   (map state_of (tasks l2) = [IsFinished; IsFinished] /\
    count (is_warning_of 1) (history l2) = 0%nat /\
    count (is_submission_of 1) (history l2) = 3%nat /\
    built_params (history l2) =
      [("0xAbC1", Demo.USDC, 5000000000, "0xA0", "0xB0", "0xAcc0", 81000000);
       ("0xDeF2", Demo.USDC, 5000000000, "0xB0", "0xA0", "0xAcc0", 441000000)])).
Proof.
  split.
  - intros w self opp tid lk hist Hl. apply acquire_when_held. exact Hl.
  - vm_compute. repeat split.
Qed.

Lemma min_profit_of_unfold (net : float) :
  min_profit_of net =
  of_option (ValueError "cannot convert float to integer")
            (Py.int_of_float (net * 1000000 * 0.9)%float).
Proof. reflexivity. Qed.

(** What the evaluator puts into an opportunity. *)
Lemma profit_check_opportunity w token st low high s self o :
  fst (profit_check w token st low high s self) = Ok (Some o) ->
  exists stable d,
    stable_tokens self !! st = Some stable /\
    fst (get_token_decimals w stable self) = Ok d /\
    amount o = max_flash_loan_amount self * 10 ^ d /\
    token_address o = address token /\ stable_token o = st /\
    buy_dex o = fst low /\ sell_dex o = fst high.
Proof.
  destruct low as [min_price_dex min_price], high as [max_price_dex max_price].
  unfold profit_check, bind, gets, lift, getitem.
  destruct (stable_tokens self !! st) as [stable|]; [|discriminate].
  destruct (get_token_decimals w stable self) as [[d|e] s1] eqn:Hd; [|discriminate].
  destruct (Py.float_of_int (max_flash_loan_amount self)) as [notional|];
    [|discriminate].
  cbv [of_option].
  destruct (estimate_gas_cost w s1) as [[g|e] s2]; [|discriminate].
  destruct (Py.int_lt_float _ _); [|discriminate].
  cbv beta.
  destruct (dexes s2 !! min_price_dex); [|discriminate].
  destruct (dexes s2 !! max_price_dex); [|discriminate].
  cbv [ret fst]. intros [= <-]. exists stable, d. rewrite Hd.
  repeat (split; [reflexivity|]). reflexivity.
Qed.

(** What the evaluator puts into an opportunity, down to the chain's
    answer: the amount is the notional times 10 to the power of the
    decimals of the stable asset where these are cached or where the chain
    answers them, and the notional times [10 ** 18] where the look-up
    fails. *)
Lemma profit_check_amount w token st low high s self o :
  fst (profit_check w token st low high s self) = Ok (Some o) ->
  exists stable,
    stable_tokens self !! st = Some stable /\
    token_address o = address token /\ stable_token o = st /\
    buy_dex o = fst low /\ sell_dex o = fst high /\
    (forall d, _decimals_cache self !! Py.lower stable = Some d -> 0 <= d ->
               amount o = max_flash_loan_amount self * 10 ^ d) /\
    (_decimals_cache self !! Py.lower stable = None ->
     (forall addr z,
        to_checksum_address w stable = Ok addr ->
        decimals_call w (List.length (rpc_calls self)) addr = Ok z ->
        0 <= z < 256 ->
        amount o = max_flash_loan_amount self * 10 ^ z) /\
     ((forall addr z,
         to_checksum_address w stable = Ok addr ->
         decimals_call w (List.length (rpc_calls self)) addr = Ok z ->
         ~ 0 <= z < 256) ->
      amount o = max_flash_loan_amount self * 10 ^ 18)).
Proof.
  intros Ho.
  destruct (profit_check_opportunity _ _ _ _ _ _ _ _ Ho)
    as (stable & d & H1 & H2 & H3 & H4 & H5 & H6 & H7).
  exists stable. repeat (split; [assumption|]). split.
  - intros d' Hc _. rewrite (get_token_decimals_hit _ _ _ _ Hc) in H2.
    cbn in H2. injection H2 as <-. exact H3.
  - intros Hc. destruct (miss_is_fresh_lookup w stable self Hc) as [Hok Hbad].
    cbv zeta in Hok, Hbad. split.
    + intros addr z Ha Hz Hr.
      destruct (Hok addr Ha) as (_ & Hgood & _).
      destruct (Hgood z Hz Hr) as [E _]. rewrite E in H2.
      injection H2 as <-. exact H3.
    + intros Hfail.
      destruct (to_checksum_address w stable) as [addr|e] eqn:Ha.
      * destruct (Hok addr eq_refl) as (_ & _ & Hfb).
        destruct Hfb as [E _]; [intros z Hz; apply (Hfail addr z eq_refl Hz)|].
        rewrite E in H2. injection H2 as <-. exact H3.
      * destruct (Hbad e eq_refl) as [E _]. rewrite E in H2.
        injection H2 as <-. exact H3.
Qed.

Lemma ninety_percent_on_whole_units (n : Z) :
  0 <= n <= 2500 -> ninety_percent_exact n = true.
Proof.
  intros Hn.
  assert (H : forallb ninety_percent_exact (map Z.of_nat (seq 0 2501)) = true)
    by (vm_compute; reflexivity).
  rewrite forallb_forall in H. apply H.
  apply in_map_iff. exists (Z.to_nat n). split; [lia|].
  apply in_seq. lia.
Qed.

(** C8: when the parameters can be built they are the 7-tuple, in this
    order, of: the checksummed token address, the checksummed address of
    the stable asset, the opportunity's amount, the checksummed router
    addresses of the buy DEX and of the sell DEX, the account address, and
    [int(net_profit * 10**6 * 0.9)], that is 90% of the net profit in
    millionths of a stable unit, truncated; and the only transaction
    [execute_arbitrage] builds carries exactly this tuple.  The amount is
    what the evaluator stored for the token, the stable asset and the two
    DEXes of the opportunity: the notional times [10 ** d], where [d] is
    the cached number of decimals of the stable asset or, without a cached
    one, the [uint8] that the chain answers to [decimals()] - the amount
    then is in the smallest unit of the stable asset.  But where that
    look-up fails, the amount is the notional times [10 ** 18], whatever
    the decimals of the stable asset are.  So with USDC (6 decimals, as
    the chain says at every later call) and a node that fails the one
    [decimals()] call, the evaluator stores 5000 * 10**18 instead of
    5000 * 10**6, and the transaction built carries that amount next to a
    minimum profit of 81000000 millionths; with a node that answers, the
    amount is 5000 * 10**6.  For every net profit of a whole number of
    units up to 2500 (the notional of 5000 at the band's ceiling of 50%)
    the last component is exactly 900000 times that number; for 90.0 it is
    81000000. *)
Theorem call_parameters_in_order
    (w : World) (self : ArbitrageMonitor) (opp : ArbitrageOpportunity) (p : params) :
  params_tuple w self opp = Ok p ->
  (exists tokenA stable tokenB buy low sell high minProfit,
     to_checksum_address w (token_address opp) = Ok tokenA /\
     stable_tokens self !! stable_token opp = Some stable /\
     to_checksum_address w stable = Ok tokenB /\
     dexes self !! buy_dex opp = Some buy /\
     to_checksum_address w (router_address buy) = Ok low /\
     dexes self !! sell_dex opp = Some sell /\
     to_checksum_address w (router_address sell) = Ok high /\
     Py.int_of_float (net_profit opp * 1000000 * 0.9)%float = Some minProfit /\
     p = (tokenA, tokenB, amount opp, low, high, account self, minProfit)) /\
  (let built := built_params (history (run_alone w (execute_arbitrage w self opp))) in
   built = [] \/ built = [p]) /\
  (forall w' token st lo hi s self',
     fst (profit_check w' token st lo hi s self') = Ok (Some opp) ->
     exists stable,
       stable_tokens self' !! st = Some stable /\
       token_address opp = address token /\ stable_token opp = st /\
       buy_dex opp = fst lo /\ sell_dex opp = fst hi /\
       (forall d, _decimals_cache self' !! Py.lower stable = Some d -> 0 <= d ->
                  amount opp = max_flash_loan_amount self' * 10 ^ d) /\
       (_decimals_cache self' !! Py.lower stable = None ->
        (forall addr z,
           to_checksum_address w' stable = Ok addr ->
           decimals_call w' (List.length (rpc_calls self')) addr = Ok z ->
           0 <= z < 256 ->
           amount opp = max_flash_loan_amount self' * 10 ^ z) /\
        ((forall addr z,
            to_checksum_address w' stable = Ok addr ->
            decimals_call w' (List.length (rpc_calls self')) addr = Ok z ->
            ~ 0 <= z < 256) ->
         amount opp = max_flash_loan_amount self' * 10 ^ 18))) /\
  (let start := Demo.monitor (Demo.cache_of 100 102) in
   (forall t, decimals_call flaky_world (S t) Demo.USDC = Ok 6) /\
   match fst (check_and_execute_opportunity flaky_world Demo.token "USDC" start) with
   | Ok (Some o) =>
       amount o = 5000 * 10 ^ 18 /\
       built_params (history (run_alone flaky_world
                                (execute_arbitrage flaky_world start o)))
       = [("0xAbC1", Demo.USDC, 5000 * 10 ^ 18, "0xA0", "0xB0", "0xAcc0", 81000000)]
   | _ => False
   end /\
   match fst (check_and_execute_opportunity calm_world Demo.token "USDC" start) with
   | Ok (Some o) =>
       amount o = 5000 * 10 ^ 6 /\
       built_params (history (run_alone calm_world
                                (execute_arbitrage calm_world start o)))
       = [("0xAbC1", Demo.USDC, 5000 * 10 ^ 6, "0xA0", "0xB0", "0xAcc0", 81000000)]
   | _ => False
   end) /\
  (forall n : Z, 0 <= n <= 2500 ->
     exists x, Py.float_of_int n = Some x /\ min_profit_of x = Ok (900000 * n)) /\
  min_profit_of 90 = Ok 81000000.
Proof.
  intros Hp. split; [|split; [|split; [|split; [|split]]]].
  - revert Hp. unfold params_tuple, rbind, getitem.
    destruct (to_checksum_address w (token_address opp)) as [tokenA|]; [|discriminate].
    destruct (stable_tokens self !! stable_token opp) as [stable|]; [|discriminate].
    destruct (to_checksum_address w stable) as [tokenB|] eqn:E1; [|discriminate].
    destruct (dexes self !! buy_dex opp) as [buy|]; [|discriminate].
    destruct (to_checksum_address w (router_address buy)) as [low|] eqn:E2;
      [|discriminate].
    destruct (dexes self !! sell_dex opp) as [sell|]; [|discriminate].
    destruct (to_checksum_address w (router_address sell)) as [high|] eqn:E3;
      [|discriminate].
    rewrite min_profit_of_unfold.
    destruct (Py.int_of_float _) as [minProfit|]; [|discriminate].
    cbv [of_option]. intros [= <-].
    exists tokenA, stable, tokenB, buy, low, sell, high, minProfit.
    repeat split; assumption.
  - cbv zeta. unfold run_alone, fresh_loop, execute_arbitrage.
    cbn -[params_tuple]. rewrite Hp. cbn -[params_tuple].
    repeat (answer_step; cbn -[params_tuple]); auto.
  - intros w' token st lo hi s self' Ho.
    exact (profit_check_amount _ _ _ _ _ _ _ _ Ho).
  - cbv zeta. split; [intros t; reflexivity|].
    split; vm_compute; split; reflexivity.
  - intros n Hn. pose proof (ninety_percent_on_whole_units n Hn) as H.
    unfold ninety_percent_exact in H.
    destruct (Py.float_of_int n) as [x|]; [|discriminate].
    exists x. split; [reflexivity|].
    destruct (min_profit_of x) as [z|e]; [|discriminate].
    apply Z.eqb_eq in H. rewrite H. reflexivity.
  - vm_compute. reflexivity.
Qed.

Lemma call_parameters_in_order_witness :
  exists p,
    params_tuple calm_world (Demo.monitor ∅) Demo.opportunity = Ok p /\
    p = ("0xAbC1", Demo.USDC, 5000000000, "0xA0", "0xB0", "0xAcc0", 81000000) /\
    built_params (history (run_alone calm_world
                             (execute_arbitrage calm_world (Demo.monitor ∅)
                                                Demo.opportunity))) = [p].
Proof.
  eexists. split; [vm_compute; reflexivity|]. split; [reflexivity|].
  destruct (call_parameters_in_order calm_world (Demo.monitor ∅) Demo.opportunity
              ("0xAbC1", Demo.USDC, 5000000000, "0xA0", "0xB0", "0xAcc0", 81000000)
              ltac:(vm_compute; reflexivity))
    as (_ & [H|H] & _).
  - vm_compute in H. discriminate.
  - exact H.
Defined.

(** ** Mutual exclusion on the trade lock *)

Lemma quiet_cbind {A B} (m : coro A) (f : A -> coro B) :
  quiet m -> (forall a, quiet (f a)) -> quiet (cbind m f).
Proof.
  intros Hm Hf. induction Hm; cbn [cbind]; auto; constructor; auto.
Qed.

Lemma quiet_ctry {A} (m : coro A) (h : exn -> coro A) :
  quiet m -> (forall e, quiet (h e)) -> quiet (ctry m h).
Proof.
  intros Hm Hh. induction Hm; cbn [ctry]; auto; constructor; auto.
Qed.

Lemma quiet_perform_return {R} (e : io R) : quiet (perform e).
Proof. constructor. intros r. constructor. Qed.

Lemma quiet_call {A} (e : io (result A)) : quiet (call e).
Proof. constructor. intros [a|x]; constructor. Qed.

Lemma quiet_clift {A} (r : result A) : quiet (clift r).
Proof. destruct r; constructor. Qed.

Lemma holding_cfinally_release (body : coro unit) :
  quiet body -> holding (cfinally body release).
Proof.
  induction 1; cbn [cfinally cbind release].
  - constructor. cbn. constructor.
  - constructor. cbn. constructor.
  - constructor. auto.
Qed.

Lemma execute_arbitrage_entering w self opp : entering (execute_arbitrage w self opp).
Proof.
  unfold execute_arbitrage, acquire. cbn [cbind]. constructor. cbn [negb].
  apply holding_cfinally_release.
  apply quiet_ctry; [|intros e; apply quiet_perform_return].
  repeat first
    [ apply quiet_cbind; [|intros ?]
    | apply quiet_perform_return | apply quiet_call | apply quiet_clift
    | match goal with |- quiet (if ?b then _ else _) => destruct b end ].
Qed.

Lemma advance_quiet w tid (c : coro unit) :
  quiet c ->
  forall lk hist,
  exists t evs,
    advance w tid c lk hist = (t, lk, hist ++ evs) /\
    quiet_task t /\ Forall (own_quiet tid) evs.
Proof.
  induction 1 as [a|e|R e k Hk IH]; intros lk hist; cbn [advance].
  - exists (Finished (Ok a)), []. rewrite app_nil_r. repeat split. constructor.
  - exists (Finished (Raise e)), []. rewrite app_nil_r. repeat split. constructor.
  - destruct (awaited e).
    + exists (Suspended e k), []. rewrite app_nil_r. repeat split; [exact Hk|constructor].
    + destruct (IH (io_answer w (List.length hist) e) lk
                   (hist ++ [(tid, Did e (io_answer w (List.length hist) e))]))
        as (t & evs & Hadv & Hq & Hevs).
      exists t, ((tid, Did e (io_answer w (List.length hist) e)) :: evs).
      rewrite Hadv, <- app_assoc. repeat split; [exact Hq|].
      constructor; [split; reflexivity | exact Hevs].
Qed.

Lemma advance_holding w tid (c : coro unit) :
  holding c ->
  forall lk hist,
  locked lk = true ->
  exists t lk' evs,
    advance w tid c lk hist = (t, lk', hist ++ evs) /\
    ((exists R (e : io R) k,
        t = Suspended e k /\ (forall r, holding (k r)) /\ lk' = lk /\
        Forall (own_quiet tid) evs)
     \/ (quiet_task t /\
         lk' = {| locked := false; waiters := wake_up_first (waiters lk) |} /\
         exists ev1 ev2,
           evs = ev1 ++ (tid, Released) :: ev2 /\
           Forall (own_quiet tid) ev1 /\ Forall (own_quiet tid) ev2)).
Proof.
  induction 1 as [k Hq|R e k Hk IH]; intros lk hist Hl; cbn [advance].
  - rewrite Hl.
    destruct (advance_quiet w tid (k (Ok tt)) Hq
                {| locked := false; waiters := wake_up_first (waiters lk) |}
                (hist ++ [(tid, Released)])) as (t & evs & Hadv & Hqt & Hevs).
    exists t, {| locked := false; waiters := wake_up_first (waiters lk) |},
           ((tid, Released) :: evs).
    rewrite Hadv, <- app_assoc. split; [reflexivity|]. right.
    split; [exact Hqt|]. split; [reflexivity|].
    exists [], evs. repeat split; [constructor|exact Hevs].
  - destruct (awaited e).
    + exists (Suspended e k), lk, []. rewrite app_nil_r. split; [reflexivity|].
      left. exists R, e, k. repeat split; [exact Hk|constructor].
    + set (r := io_answer w (List.length hist) e).
      destruct (IH r lk (hist ++ [(tid, Did e r)]) Hl)
        as (t & lk' & evs & Hadv & Hcases).
      exists t, lk', ((tid, Did e r) :: evs).
      rewrite Hadv, <- app_assoc. split; [reflexivity|].
      destruct Hcases as [(R' & e' & k' & -> & Hh & -> & Hevs)
                         |(Hqt & -> & ev1 & ev2 & -> & H1 & H2)].
      * left. exists R', e', k'. repeat split; [exact Hh|].
        constructor; [split; reflexivity | exact Hevs].
      * right. split; [exact Hqt|]. split; [reflexivity|].
        exists ((tid, Did e r) :: ev1), ev2. repeat split; [|exact H2].
        constructor; [split; reflexivity | exact H1].
Qed.

(** *** Histories *)

Lemma owner_app hist evs :
  owner (hist ++ evs) = fold_left lock_step evs (owner hist).
Proof. unfold owner. apply fold_left_app. Qed.

Lemma lock_step_quiet tid evs o :
  Forall (own_quiet tid) evs -> fold_left lock_step evs o = o.
Proof.
  intros H. revert o. induction H as [|ev evs [_ Hev] _ IH]; intros o; [reflexivity|].
  cbn [fold_left]. rewrite <- (IH o) at 2. f_equal.
  unfold lock_step, is_lock_op in *.
  destruct o as [[t|]|]; destruct (snd ev); try reflexivity; discriminate.
Qed.

Lemma count_app p (h1 h2 : list (nat * event)) :
  count p (h1 ++ h2) = (count p h1 + count p h2)%nat.
Proof. unfold count. rewrite List.filter_app, List.length_app. reflexivity. Qed.

Lemma count_other_task p tid j evs :
  (forall ev, p ev = true -> fst ev = j) ->
  Forall (fun ev => fst ev = tid) evs ->
  j <> tid ->
  count p evs = 0%nat.
Proof.
  intros Hp H Hne. unfold count.
  induction H as [|ev evs Hev _ IH]; [reflexivity|].
  cbn [List.filter]. destruct (p ev) eqn:E; [|exact IH].
  apply Hp in E. congruence.
Qed.

Lemma count_quiet p tid evs :
  (forall ev, p ev = true -> is_lock_op ev = true) ->
  Forall (own_quiet tid) evs ->
  count p evs = 0%nat.
Proof.
  intros Hp H. unfold count.
  induction H as [|ev evs [_ Hev] _ IH]; [reflexivity|].
  cbn [List.filter]. destruct (p ev) eqn:E; [|exact IH].
  apply Hp in E. congruence.
Qed.

Lemma acquired_by_task i ev : acquired_by i ev = true -> fst ev = i.
Proof.
  unfold acquired_by. intros H. apply andb_prop in H. destruct H as [H _].
  apply Nat.eqb_eq in H. exact H.
Qed.

Lemma released_by_task i ev : released_by i ev = true -> fst ev = i.
Proof.
  unfold released_by. intros H. apply andb_prop in H. destruct H as [H _].
  apply Nat.eqb_eq in H. exact H.
Qed.

Lemma acquired_by_lock_op i ev : acquired_by i ev = true -> is_lock_op ev = true.
Proof.
  unfold acquired_by, is_lock_op. intros H. apply andb_prop in H. destruct H as [_ H].
  destruct (snd ev); try discriminate; reflexivity.
Qed.

Lemma released_by_lock_op i ev : released_by i ev = true -> is_lock_op ev = true.
Proof.
  unfold released_by, is_lock_op. intros H. apply andb_prop in H. destruct H as [_ H].
  destruct (snd ev); try discriminate; reflexivity.
Qed.

Lemma own_quiet_own tid evs :
  Forall (own_quiet tid) evs -> Forall (fun ev => fst ev = tid) evs.
Proof. induction 1 as [|ev evs [H _] _ IH]; constructor; assumption. Qed.

(** *** One turn keeps the invariant *)

Lemma task_ok_other o o' hist evs tid i t :
  i <> tid ->
  Forall (fun ev => fst ev = tid) evs ->
  (o = Some i <-> o' = Some i) ->
  task_ok o hist i t -> task_ok o' (hist ++ evs) i t.
Proof.
  intros Hne Hevs Hoo.
  assert (Ha : count (acquired_by i) (hist ++ evs) = count (acquired_by i) hist).
  { rewrite count_app,
      (count_other_task _ tid i evs (acquired_by_task i) Hevs Hne). lia. }
  assert (Hr : count (released_by i) (hist ++ evs) = count (released_by i) hist).
  { rewrite count_app,
      (count_other_task _ tid i evs (released_by_task i) Hevs Hne). lia. }
  destruct t as [c|R e k|k|r]; cbn [task_ok]; rewrite Ha, Hr; tauto.
Qed.

Lemma lock_ok_released lk :
  lock_ok lk ->
  lock_ok {| locked := false; waiters := wake_up_first (waiters lk) |}.
Proof.
  intros [_ Htail]. split; cbn [locked waiters]; [discriminate|].
  destruct (waiters lk) as [|[t b] r]; [constructor|exact Htail].
Qed.

Lemma count_one_quiet p tid (hist evs : list (nat * event)) n :
  (forall ev, p ev = true -> is_lock_op ev = true) ->
  Forall (own_quiet tid) evs ->
  count p hist = n -> count p (hist ++ evs) = n.
Proof.
  intros Hp Hevs Hn. rewrite count_app, (count_quiet p tid evs Hp Hevs). lia.
Qed.

(** A turn of the task that holds the lock. *)
Lemma holding_turn w tid (c : coro unit) lk hist ts :
  holding c ->
  locked lk = true -> lock_ok lk ->
  owner hist = Some (Some tid) ->
  count (acquired_by tid) hist = 1%nat ->
  count (released_by tid) hist = 0%nat ->
  (forall i t, i <> tid -> ts !! i = Some t -> task_ok (Some tid) hist i t) ->
  (tid < List.length ts)%nat ->
  loop_inv (let '(t, lk', hist') := advance w tid c lk hist in
            {| trade_lock := lk'; tasks := set_task tid t ts; history := hist' |}).
Proof.
  intros Hc Hl Hlk Ho Ha Hr Hothers Hlen.
  destruct (advance_holding w tid c Hc lk hist Hl) as (t & lk' & evs & Hadv & Hcases).
  rewrite Hadv. unfold loop_inv, set_task. cbn [trade_lock tasks history].
  destruct Hcases as [(R & e & k & -> & Hh & -> & Hevs)
                     |(Hqt & -> & ev1 & ev2 & -> & H1 & H2)].
  - exists (Some tid). split; [|split; [|split]].
    + rewrite owner_app, Ho. apply (lock_step_quiet tid). exact Hevs.
    + exact Hl.
    + exact Hlk.
    + intros i t Hi. destruct (decide (i = tid)) as [->|Hne].
      * rewrite list_lookup_insert_eq in Hi by exact Hlen. injection Hi as <-.
        cbn [task_ok]. left. split; [reflexivity|]. split; [exact Hh|]. split.
        -- apply (count_one_quiet _ tid); [apply acquired_by_lock_op|exact Hevs|exact Ha].
        -- apply (count_one_quiet _ tid); [apply released_by_lock_op|exact Hevs|exact Hr].
      * rewrite list_lookup_insert_ne in Hi by congruence.
        apply (task_ok_other (Some tid) (Some tid) hist evs tid);
          [exact Hne|apply own_quiet_own; exact Hevs|tauto|].
        apply Hothers; assumption.
  - exists None. split; [|split; [|split]].
    + rewrite owner_app, Ho, fold_left_app, (lock_step_quiet tid ev1) by exact H1.
      cbn [fold_left lock_step snd fst]. rewrite Nat.eqb_refl.
      apply (lock_step_quiet tid). exact H2.
    + reflexivity.
    + apply lock_ok_released. exact Hlk.
    + assert (Hown : Forall (fun ev => fst ev = tid) (ev1 ++ (tid, Released) :: ev2)).
      { apply Forall_app. split; [apply own_quiet_own; exact H1|].
        constructor; [reflexivity|apply own_quiet_own; exact H2]. }
      intros i t' Hi. destruct (decide (i = tid)) as [->|Hne].
      * rewrite list_lookup_insert_eq in Hi by exact Hlen. injection Hi as <-.
        assert (Ha' : count (acquired_by tid)
                        (hist ++ ev1 ++ (tid, Released) :: ev2) = 1%nat).
        { rewrite !count_app, Ha,
            (count_quiet _ tid ev1 (acquired_by_lock_op tid) H1).
          change ((tid, Released) :: ev2) with ([(tid, Released)] ++ ev2).
          rewrite count_app, (count_quiet _ tid ev2 (acquired_by_lock_op tid) H2).
          unfold count, acquired_by. cbn [List.filter fst snd].
          rewrite Nat.eqb_refl. reflexivity. }
        assert (Hr' : count (released_by tid)
                        (hist ++ ev1 ++ (tid, Released) :: ev2) = 1%nat).
        { rewrite !count_app, Hr,
            (count_quiet _ tid ev1 (released_by_lock_op tid) H1).
          change ((tid, Released) :: ev2) with ([(tid, Released)] ++ ev2).
          rewrite count_app, (count_quiet _ tid ev2 (released_by_lock_op tid) H2).
          unfold count, released_by. cbn [List.filter fst snd].
          rewrite Nat.eqb_refl. reflexivity. }
        destruct t as [c'|R e k|k|r]; cbn [quiet_task] in Hqt; try contradiction;
          cbn [task_ok].
        -- right. repeat split; [discriminate|exact Hqt|exact Ha'|exact Hr'].
        -- repeat split; [discriminate|exact Ha'|exact Hr'].
      * rewrite list_lookup_insert_ne in Hi by congruence.
        apply (task_ok_other (Some tid) None hist _ tid);
          [exact Hne|exact Hown| |apply Hothers; assumption].
        split; [intros [= ?]; congruence|discriminate].
Qed.

Lemma woken_unwoken tid ws : Forall unwoken ws -> woken tid ws = false.
Proof.
  induction 1 as [|[t b] ws Hb _ IH]; [reflexivity|].
  unfold woken in *. cbn [existsb]. unfold unwoken in Hb. cbn in Hb. subst b.
  rewrite andb_false_r. exact IH.
Qed.

Lemma leave_queue_unwoken tid ws :
  Forall unwoken ws -> Forall unwoken (leave_queue tid ws).
Proof.
  induction 1 as [|[t b] ws Hb _ IH]; [constructor|].
  unfold leave_queue in *. cbn [List.filter].
  destruct (negb (t =? tid)%nat); [constructor; assumption|assumption].
Qed.

(** When a waiter is woken it is the head of the queue, and nobody is
    woken once it has left. *)
Lemma leave_queue_woken tid ws :
  Forall unwoken (tail ws) -> woken tid ws = true ->
  Forall unwoken (leave_queue tid ws).
Proof.
  destruct ws as [|[t b] r]; [discriminate|]. cbn [tail]. intros Htail Hw.
  unfold woken in Hw. cbn [existsb] in Hw.
  change (existsb _ r) with (woken tid r) in Hw.
  rewrite (woken_unwoken tid r Htail), orb_false_r in Hw.
  apply andb_prop in Hw. destruct Hw as [Ht _].
  unfold leave_queue. cbn [List.filter]. rewrite Ht. cbn [negb].
  apply leave_queue_unwoken. exact Htail.
Qed.

Lemma lock_ok_all_unwoken b ws : Forall unwoken ws -> lock_ok {| locked := b; waiters := ws |}.
Proof.
  intros H. split; cbn [locked waiters]; [intros _; exact H|].
  destruct H; [constructor|assumption].
Qed.

Lemma resume_inv w tid l : loop_inv l -> loop_inv (resume w tid l).
Proof.
  intros (o & Ho & Hl & Hlk & Ht). unfold resume.
  destruct (tasks l !! tid) as [t|] eqn:Et; [|exists o; auto].
  pose proof (Ht tid t Et) as Htid.
  pose proof (lookup_lt_Some _ _ _ Et) as Hlen.
  destruct t as [c|R e k|k|r]; [| | |exists o; auto].
  - (* not started: it reaches [acquire()] *)
    destruct Htid as (Hent & Hno & Ha & Hr). destruct Hent as [k Hh].
    cbn [advance].
    assert (Hqueue :
      loop_inv {| trade_lock := {| locked := locked (trade_lock l);
                                   waiters := waiters (trade_lock l) ++ [(tid, false)] |};
                  tasks := set_task tid (WaitingLock k) (tasks l);
                  history := history l ++ [(tid, Queued)] |}).
    { assert (Hq : Forall (own_quiet tid) [(tid, Queued)])
        by (constructor; [split; reflexivity|constructor]).
      exists o. cbn [trade_lock tasks history locked waiters]. split; [|split; [|split]].
      - rewrite owner_app, Ho. apply (lock_step_quiet tid). exact Hq.
      - exact Hl.
      - destruct Hlk as [H1 H2]. split; cbn [locked waiters].
        + intros Hlocked. apply Forall_app. split; [auto|].
          constructor; [reflexivity|constructor].
        + destruct (waiters (trade_lock l)) as [|x r]; [constructor|].
          cbn [tail app] in *. apply Forall_app. split; [exact H2|].
          constructor; [reflexivity|constructor].
      - intros i t Hi. unfold set_task in Hi.
        destruct (decide (i = tid)) as [->|Hne].
        + rewrite list_lookup_insert_eq in Hi by exact Hlen. injection Hi as <-.
          cbn [task_ok]. repeat split; [exact Hh|exact Hno| |].
          * apply (count_one_quiet _ tid); [apply acquired_by_lock_op|exact Hq|exact Ha].
          * apply (count_one_quiet _ tid); [apply released_by_lock_op|exact Hq|exact Hr].
        + rewrite list_lookup_insert_ne in Hi by congruence.
          apply (task_ok_other o o (history l) _ tid);
            [exact Hne|apply own_quiet_own; exact Hq|tauto|apply Ht; exact Hi]. }
    destruct (locked (trade_lock l)) eqn:El; [exact Hqueue|].
    destruct (waiters (trade_lock l)) as [|x r] eqn:Ew; [|exact Hqueue].
    destruct o as [j|]; [discriminate|].
    apply holding_turn; try assumption; try reflexivity.
    + apply lock_ok_all_unwoken. constructor.
    + rewrite owner_app, Ho. reflexivity.
    + rewrite count_app, Ha. unfold count, acquired_by. cbn [List.filter fst snd].
      rewrite Nat.eqb_refl. reflexivity.
    + rewrite count_app, Hr. unfold count, released_by. cbn [List.filter fst snd].
      rewrite Nat.eqb_refl. reflexivity.
    + intros i t Hne Hi.
      apply (task_ok_other None (Some tid) (history l) _ tid);
        [exact Hne|constructor; [reflexivity|constructor]| |apply Ht; exact Hi].
      split; [discriminate|intros [= ?]; congruence].
  - (* suspended in a remote call or a sleep *)
    set (r := io_answer w (List.length (history l)) e).
    assert (Hq : Forall (own_quiet tid) [(tid, Did e r)])
      by (constructor; [split; reflexivity|constructor]).
    destruct Htid as [(-> & Hh & Ha & Hr)|(Hno & Hquiet & Ha & Hr)].
    + apply holding_turn; try assumption.
      * apply Hh.
      * rewrite owner_app, Ho. apply (lock_step_quiet tid). exact Hq.
      * apply (count_one_quiet _ tid); [apply acquired_by_lock_op|exact Hq|exact Ha].
      * apply (count_one_quiet _ tid); [apply released_by_lock_op|exact Hq|exact Hr].
      * intros i t Hne Hi.
        apply (task_ok_other (Some tid) (Some tid) (history l) _ tid);
          [exact Hne|apply own_quiet_own; exact Hq|tauto|apply Ht; exact Hi].
    + destruct (advance_quiet w tid (k r) (Hquiet r) (trade_lock l)
                  (history l ++ [(tid, Did e r)])) as (t & evs & Hadv & Hqt & Hevs).
      rewrite Hadv. rewrite <- app_assoc.
      assert (Hall : Forall (own_quiet tid) ([(tid, Did e r)] ++ evs))
        by (apply Forall_app; split; assumption).
      exists o. cbn [trade_lock tasks history]. split; [|split; [|split]].
      * rewrite owner_app, Ho. apply (lock_step_quiet tid). exact Hall.
      * exact Hl.
      * exact Hlk.
      * intros i t' Hi. unfold set_task in Hi.
        destruct (decide (i = tid)) as [->|Hne].
        -- rewrite list_lookup_insert_eq in Hi by exact Hlen. injection Hi as <-.
           assert (Ha' : count (acquired_by tid) (history l ++ [(tid, Did e r)] ++ evs)
                         = 1%nat)
             by (apply (count_one_quiet _ tid);
                 [apply acquired_by_lock_op|exact Hall|exact Ha]).
           assert (Hr' : count (released_by tid) (history l ++ [(tid, Did e r)] ++ evs)
                         = 1%nat)
             by (apply (count_one_quiet _ tid);
                 [apply released_by_lock_op|exact Hall|exact Hr]).
           destruct t as [c'|R' e' k'|k'|r']; cbn [quiet_task] in Hqt;
             try contradiction; cbn [task_ok].
           ++ right. repeat split; assumption.
           ++ repeat split; assumption.
        -- rewrite list_lookup_insert_ne in Hi by congruence.
           apply (task_ok_other o o (history l) _ tid);
             [exact Hne|apply own_quiet_own; exact Hall|tauto|apply Ht; exact Hi].
  - (* waiting for the lock *)
    destruct Htid as (Hh & Hno & Ha & Hr).
    destruct (woken tid (waiters (trade_lock l))) eqn:Ew; [|exists o; auto].
    destruct Hlk as [Hlocked Htail].
    destruct (locked (trade_lock l)) eqn:El.
    { rewrite (woken_unwoken tid _ (Hlocked eq_refl)) in Ew. discriminate. }
    destruct o as [j|]; [discriminate|].
    apply holding_turn; try assumption; try reflexivity.
    + apply lock_ok_all_unwoken. apply leave_queue_woken; assumption.
    + rewrite owner_app, Ho. reflexivity.
    + rewrite count_app, Ha. unfold count, acquired_by. cbn [List.filter fst snd].
      rewrite Nat.eqb_refl. reflexivity.
    + rewrite count_app, Hr. unfold count, released_by. cbn [List.filter fst snd].
      rewrite Nat.eqb_refl. reflexivity.
    + intros i t Hne Hi.
      apply (task_ok_other None (Some tid) (history l) _ tid);
        [exact Hne|constructor; [reflexivity|constructor]| |apply Ht; exact Hi].
      split; [discriminate|intros [= ?]; congruence].
Qed.

Lemma schedule_inv w tids l : loop_inv l -> loop_inv (schedule w tids l).
Proof.
  revert l. induction tids as [|tid tids IH]; intros l Hl; [exact Hl|].
  cbn [schedule fold_left]. apply IH, resume_inv, Hl.
Qed.

Lemma fresh_loop_inv (cs : list (coro unit)) :
  Forall entering cs -> loop_inv (fresh_loop cs).
Proof.
  intros Hcs. exists None. unfold fresh_loop. cbn [trade_lock tasks history locked].
  split; [reflexivity|]. split; [reflexivity|].
  split; [apply lock_ok_all_unwoken; constructor|].
  intros i t Hi. rewrite list_lookup_fmap in Hi.
  destruct (cs !! i) as [c|] eqn:Ec; [|discriminate]. injection Hi as <-.
  cbn [task_ok]. repeat split; [|discriminate].
  rewrite Forall_forall in Hcs. apply Hcs. apply list_elem_of_lookup. eauto.
Qed.

(** The observer does reject an overlap: a second task entering while the
    first is inside. *)
Example overlap_is_detected : owner [(0%nat, Acquired); (1%nat, Acquired)] = None.
Proof. reflexivity. Qed.

(** X21: however many opportunities are handed to [execute_arbitrage] and
    however the loop interleaves the tasks, no two of them are ever in the
    critical section together, and the lock is taken exactly while one of
    them is. *)
Theorem critical_sections_never_overlap
    (w : World) (self : ArbitrageMonitor)
    (opps : list ArbitrageOpportunity) (tids : list nat) :
  let l := schedule w tids (fresh_loop (map (execute_arbitrage w self) opps)) in
  exclusive (history l) /\
  (locked (trade_lock l) = true <-> exists i, owner (history l) = Some (Some i)).
Proof.
  cbv zeta.
  destruct (schedule_inv w tids _
              (fresh_loop_inv (map (execute_arbitrage w self) opps)
                 ltac:(apply Forall_map, Forall_forall; intros;
                       apply execute_arbitrage_entering)))
    as (o & Ho & Hl & _ & _).
  unfold exclusive. split; [rewrite Ho; eauto|]. rewrite Ho, Hl.
  destruct o as [i|]; split; eauto; try discriminate.
  intros [i [=]].
Qed.

Lemma solo_run_outcomes w self opp :
  let l := run_alone w (execute_arbitrage w self opp) in
  tasks l = [Finished (Ok tt)] /\
  trade_lock l = {| locked := false; waiters := [] |} /\
  count is_released (history l) = 1%nat /\
  count (acquired_by 0) (history l) = 1%nat.
Proof. all_outcomes; auto. Qed.

(** C1: whatever the chain answers (receipt with status 1, receipt with
    another status, no receipt in time, or an exception while the
    parameters are built or the transaction is signed or sent),
    [execute_arbitrage] returns, the lock has been taken once and released
    exactly once and is free with nobody waiting, so that the next
    invocation takes it at once.  With any number of invocations running
    as tasks under any interleaving, no task releases more often than it
    acquired, none acquires twice, and every task that has returned has
    released the lock exactly once. *)
Theorem lock_released_exactly_once
    (w : World) (self : ArbitrageMonitor) (opp : ArbitrageOpportunity) :
  (let l := run_alone w (execute_arbitrage w self opp) in
   tasks l = [Finished (Ok tt)] /\
   trade_lock l = {| locked := false; waiters := [] |} /\
   count is_released (history l) = 1%nat /\
   count (acquired_by 0) (history l) = 1%nat /\
   forall next tid,
   exists t lk h,
     advance w tid (execute_arbitrage w self next) (trade_lock l) (history l)
       = (t, lk, history l ++ (tid, Acquired) :: h)) /\
  (forall (opps : list ArbitrageOpportunity) (tids : list nat),
     let l := schedule w tids (fresh_loop (map (execute_arbitrage w self) opps)) in
     forall i t,
       tasks l !! i = Some t ->
       (count (released_by i) (history l) <= count (acquired_by i) (history l))%nat /\
       (count (acquired_by i) (history l) <= 1)%nat /\
       (state_of t = IsFinished -> count (released_by i) (history l) = 1%nat)).
Proof.
  split.
  - pose proof (solo_run_outcomes w self opp) as H. cbv zeta in *.
    destruct H as (H1 & H2 & H3 & H4).
    repeat (split; [assumption|]).
    intros next tid. rewrite H2. apply acquire_when_free.
  - intros opps tids. cbv zeta.
    destruct (schedule_inv w tids _
                (fresh_loop_inv (map (execute_arbitrage w self) opps)
                   ltac:(apply Forall_map, Forall_forall; intros;
                         apply execute_arbitrage_entering)))
      as (o & _ & _ & _ & Ht).
    intros i t Hi. specialize (Ht i t Hi).
    destruct t as [c|R e k|k|r]; cbn [task_ok state_of] in *.
    + destruct Ht as (_ & _ & -> & ->). split; [lia|split; [lia|discriminate]].
    + destruct Ht as [(_ & _ & -> & ->)|(_ & _ & -> & ->)];
        (split; [lia|split; [lia|discriminate]]).
    + destruct Ht as (_ & _ & -> & ->). split; [lia|split; [lia|discriminate]].
    + destruct Ht as (_ & -> & ->). split; [lia|split; [lia|reflexivity]].
Qed.

(** * Further properties of the code *)

(** ** Order of binary64 values *)

Lemma SFltb_trans (x y z : spec_float) :
  SFltb x y = true -> SFltb y z = true -> SFltb x z = true.
Proof.
  unfold SFltb.
  destruct x as [sx|sx| |sx mx ex], y as [sy|sy| |sy my ey], z as [sz|sz| |sz mz ez];
    cbn [SFcompare]; try discriminate;
    repeat match goal with s : bool |- _ => destruct s end;
    try discriminate; try reflexivity.
  - destruct (Z.compare_spec ex ey), (Z.compare_spec ey ez), (Z.compare_spec ex ez);
      try discriminate; try reflexivity; try lia; subst.
    all: rewrite ?Pos.compare_cont_spec; cbn [Pos.switch_Eq CompOpp].
    all: destruct (Pos.compare_spec mx my), (Pos.compare_spec my mz),
           (Pos.compare_spec mx mz);
         cbn [CompOpp]; try discriminate; try reflexivity; try lia.
  - destruct (Z.compare_spec ex ey), (Z.compare_spec ey ez), (Z.compare_spec ex ez);
      try discriminate; try reflexivity; try lia; subst.
    all: rewrite ?Pos.compare_cont_spec; cbn [Pos.switch_Eq CompOpp].
    all: destruct (Pos.compare_spec mx my), (Pos.compare_spec my mz),
           (Pos.compare_spec mx mz);
         cbn [CompOpp]; try discriminate; try reflexivity; try lia.
Qed.

Lemma SFltb_irrefl (x : spec_float) : SFltb x x = false.
Proof.
  unfold SFltb. destruct x as [s|s| |s m e]; cbn [SFcompare]; try reflexivity.
  - destruct s; reflexivity.
  - rewrite Z.compare_refl, Pos.compare_cont_refl. destruct s; reflexivity.
Qed.

Lemma ltb_trans (x y z : float) :
  PrimFloat.ltb x y = true -> PrimFloat.ltb y z = true -> PrimFloat.ltb x z = true.
Proof. rewrite !ltb_spec. apply SFltb_trans. Qed.

Lemma ltb_irrefl (x : float) : PrimFloat.ltb x x = false.
Proof. rewrite ltb_spec. apply SFltb_irrefl. Qed.

(** ** The prices the evaluator collects *)

Lemma dict_set_keys d k v k' :
  In k' (map fst (dict_set d k v)) <-> In k' (map fst d) \/ k' = k.
Proof.
  induction d as [|[k0 v0] r IH]; cbn [dict_set map fst In].
  - intuition congruence.
  - destruct (String.eqb_spec k0 k) as [->|Hne]; cbn [map fst In].
    + intuition congruence.
    + rewrite IH. tauto.
Qed.

Lemma dict_set_entries d k v k' v' :
  In (k', v') (dict_set d k v) -> In (k', v') d \/ (k' = k /\ v' = v).
Proof.
  induction d as [|[k0 v0] r IH]; cbn [dict_set In].
  - intros [[= <- <-]|[]]. auto.
  - destruct (String.eqb_spec k0 k) as [->|Hne]; cbn [In].
    + intros [[= <- <-]|H]; auto.
    + intros [H|H]; [auto|]. destruct (IH H); auto.
Qed.

Lemma dict_set_NoDup d k v :
  List.NoDup (map fst d) -> List.NoDup (map fst (dict_set d k v)).
Proof.
  induction d as [|[k0 v0] r IH]; cbn [dict_set map fst]; intros Hd.
  - constructor; [intros []|constructor].
  - inversion Hd as [|x l Hnin Hr]; subst.
    destruct (String.eqb_spec k0 k) as [->|Hne]; cbn [map fst].
    + constructor; assumption.
    + constructor; [|apply IH; exact Hr].
      rewrite dict_set_keys. intros [H|H]; [contradiction|congruence].
Qed.

(** The collected prices are the cached, usable prices of selected DEXes,
    one entry per DEX. *)
Lemma collect_prices_sound cache key selected :
  let prices := collect_prices cache key selected in
  List.NoDup (map fst prices) /\
  forall dex p, In (dex, p) prices -> In dex selected /\ priced cache key dex p.
Proof.
  cbv zeta. unfold collect_prices.
  assert (H : forall acc,
            (List.NoDup (map fst acc) /\
             forall dex p, In (dex, p) acc -> In dex selected /\ priced cache key dex p) ->
            forall sel, (forall d, In d sel -> In d selected) ->
            let prices :=
              fold_left
                (fun prices dex =>
                   match cache_get cache key dex with
                   | Some price =>
                       if Py.truthy price then dict_set prices dex price else prices
                   | None => prices
                   end) sel acc in
            List.NoDup (map fst prices) /\
            forall dex p, In (dex, p) prices -> In dex selected /\ priced cache key dex p).
  { intros acc Hacc sel. revert acc Hacc.
    induction sel as [|d rest IH]; intros acc Hacc Hsel; [exact Hacc|].
    cbn [fold_left]. apply IH; [|intros d' Hd'; apply Hsel; right; exact Hd'].
    destruct (cache_get cache key d) as [p|] eqn:E; [|exact Hacc].
    destruct (Py.truthy p) eqn:Et; [|exact Hacc].
    destruct Hacc as [Hnd Hin]. split; [apply dict_set_NoDup; exact Hnd|].
    intros dex q Hq. apply dict_set_entries in Hq. destruct Hq as [Hq|[-> ->]].
    - apply Hin. exact Hq.
    - split; [apply Hsel; left; reflexivity|split; assumption]. }
  apply (H [] ); [|auto].
  split; [constructor|intros dex p []].
Qed.

(** Every usable cached price of a selected DEX is collected. *)
Lemma collect_prices_complete cache key selected dex p :
  In dex selected -> priced cache key dex p ->
  In (dex, p) (collect_prices cache key selected).
Proof.
  intros Hsel [Hc Ht]. unfold collect_prices.
  assert (Hset : forall d, In (dex, p) (dict_set d dex p)).
  { induction d as [|[k0 v0] r IH]; cbn [dict_set]; [left; reflexivity|].
    destruct (String.eqb_spec k0 dex) as [->|Hne]; [left; reflexivity|right; exact IH]. }
  assert (Hkeep : forall d k v, In (dex, p) d -> cache_get cache key k = Some v ->
                                In (dex, p) (dict_set d k v)).
  { induction d as [|[k0 v0] r IH]; cbn [dict_set]; intros k v Hin Hk; [destruct Hin|].
    destruct (String.eqb_spec k0 k) as [->|Hne].
    - destruct Hin as [[= -> ->]|Hin]; [|right; exact Hin].
      left. f_equal. congruence.
    - destruct Hin as [Hin|Hin]; [left; exact Hin|right; apply IH; assumption]. }
  assert (Hstay : forall sel acc, In (dex, p) acc ->
            In (dex, p)
              (fold_left
                 (fun prices d =>
                    match cache_get cache key d with
                    | Some price =>
                        if Py.truthy price then dict_set prices d price else prices
                    | None => prices
                    end) sel acc)).
  { induction sel as [|d rest IH]; intros acc Hacc; [exact Hacc|].
    cbn [fold_left]. apply IH.
    destruct (cache_get cache key d) as [q|] eqn:E; [|exact Hacc].
    destruct (Py.truthy q); [|exact Hacc]. apply Hkeep; assumption. }
  revert Hsel. generalize (@nil (string * float)).
  induction selected as [|d rest IH]; intros acc [].
  - subst d. cbn [fold_left]. rewrite Hc, Ht. apply Hstay, Hset.
  - cbn [fold_left]. apply IH. assumption.
Qed.

(** The results of [min] and [max] are items of the list, and no item is
    below the minimum or above the maximum. *)
Lemma min_by_price_spec first rest :
  In (min_by_price first rest) (first :: rest) /\
  forall item : string * float, In item (first :: rest) ->
               PrimFloat.ltb (snd item) (snd (min_by_price first rest)) = false.
Proof.
  unfold min_by_price.
  assert (H : forall l best seen,
            In best seen ->
            (forall item : string * float, In item seen -> PrimFloat.ltb (snd item) (snd best) = false) ->
            let r := fold_left
                       (fun best item =>
                          if PrimFloat.ltb (snd item) (snd best) then item else best)
                       l best in
            In r (seen ++ l) /\
            forall item : string * float, In item (seen ++ l) -> PrimFloat.ltb (snd item) (snd r) = false).
  { induction l as [|y l IH]; intros best seen Hb Hmin; cbn [fold_left].
    - rewrite app_nil_r. auto.
    - replace (seen ++ y :: l) with ((seen ++ [y]) ++ l)
        by (rewrite <- app_assoc; reflexivity).
      destruct (PrimFloat.ltb (snd y) (snd best)) eqn:E; apply IH.
      + apply in_or_app. right. left. reflexivity.
      + intros item Hi. apply in_app_or in Hi. destruct Hi as [Hi|[<-|[]]].
        * destruct (PrimFloat.ltb (snd item) (snd y)) eqn:E2; [|reflexivity].
          rewrite <- (Hmin item Hi). symmetry. apply (ltb_trans _ (snd y)); assumption.
        * apply ltb_irrefl.
      + apply in_or_app. left. exact Hb.
      + intros item Hi. apply in_app_or in Hi. destruct Hi as [Hi|[<-|[]]];
          [apply Hmin; exact Hi|exact E]. }
  apply (H rest first [first]).
  - left. reflexivity.
  - intros item [<-|[]]. apply ltb_irrefl.
Qed.

Lemma max_by_price_spec first rest :
  In (max_by_price first rest) (first :: rest) /\
  forall item : string * float, In item (first :: rest) ->
               PrimFloat.ltb (snd (max_by_price first rest)) (snd item) = false.
Proof.
  unfold max_by_price.
  assert (H : forall l best seen,
            In best seen ->
            (forall item : string * float, In item seen -> PrimFloat.ltb (snd best) (snd item) = false) ->
            let r := fold_left
                       (fun best item =>
                          if PrimFloat.ltb (snd best) (snd item) then item else best)
                       l best in
            In r (seen ++ l) /\
            forall item : string * float, In item (seen ++ l) -> PrimFloat.ltb (snd r) (snd item) = false).
  { induction l as [|y l IH]; intros best seen Hb Hmax; cbn [fold_left].
    - rewrite app_nil_r. auto.
    - replace (seen ++ y :: l) with ((seen ++ [y]) ++ l)
        by (rewrite <- app_assoc; reflexivity).
      destruct (PrimFloat.ltb (snd best) (snd y)) eqn:E; apply IH.
      + apply in_or_app. right. left. reflexivity.
      + intros item Hi. apply in_app_or in Hi. destruct Hi as [Hi|[<-|[]]].
        * destruct (PrimFloat.ltb (snd y) (snd item)) eqn:E2; [|reflexivity].
          rewrite <- (Hmax item Hi). symmetry. apply (ltb_trans _ (snd y)); assumption.
        * apply ltb_irrefl.
      + apply in_or_app. left. exact Hb.
      + intros item Hi. apply in_app_or in Hi. destruct Hi as [Hi|[<-|[]]];
          [apply Hmax; exact Hi|exact E]. }
  apply (H rest first [first]).
  - left. reflexivity.
  - intros item [<-|[]]. apply ltb_irrefl.
Qed.

(** ** The opportunity the evaluator reports *)

Lemma truthy_fdiv (x y : float) :
  Py.truthy y = true -> Py.fdiv x y = Some (x / y)%float.
Proof.
  unfold Py.truthy, Py.fdiv. destruct (PrimFloat.eqb y 0); [discriminate|reflexivity].
Qed.

(** What the first part of the evaluator hands to the band check. *)
Lemma price_spread_Some self token low high s :
  price_spread self token = Ok (Some (low, high, s)) ->
  fst low <> fst high /\
  In (fst low) (selected_dexes self) /\ In (fst high) (selected_dexes self) /\
  priced (price_cache self) (Py.lower (address token)) (fst low) (snd low) /\
  priced (price_cache self) (Py.lower (address token)) (fst high) (snd high) /\
  (forall dex p,
      In dex (selected_dexes self) ->
      priced (price_cache self) (Py.lower (address token)) dex p ->
      PrimFloat.ltb p (snd low) = false /\ PrimFloat.ltb (snd high) p = false) /\
  s = ((snd high - snd low) / snd low * 100)%float.
Proof.
  unfold price_spread.
  pose proof (collect_prices_sound (price_cache self) (Py.lower (address token))
                (selected_dexes self)) as [_ Hsound].
  pose proof (collect_prices_complete (price_cache self) (Py.lower (address token))
                (selected_dexes self)) as Hcomplete.
  destruct (collect_prices _ _ _) as [|first [|second rest]]; try discriminate.
  pose proof (min_by_price_spec first (second :: rest)) as [Hmin_in Hmin].
  pose proof (max_by_price_spec first (second :: rest)) as [Hmax_in Hmax].
  destruct (min_by_price first (second :: rest)) as [min_price_dex min_price].
  destruct (max_by_price first (second :: rest)) as [max_price_dex max_price].
  destruct (String.eqb_spec min_price_dex max_price_dex) as [|Hne]; [discriminate|].
  destruct (Hsound _ _ Hmin_in) as [Hs1 Hp1].
  destruct (Hsound _ _ Hmax_in) as [Hs2 Hp2].
  rewrite (truthy_fdiv _ _ (proj2 Hp1)).
  intros [= <- <- <-]. cbn [fst snd].
  repeat (split; [assumption|]).
  split; [|reflexivity].
  intros dex p Hsel Hp. pose proof (Hcomplete dex p Hsel Hp) as Hin.
  split; [apply (Hmin (dex, p) Hin)|apply (Hmax (dex, p) Hin)].
Qed.

(** What the second part of the evaluator puts into the opportunity. *)
Lemma profit_check_fields w token st low high s self o self' :
  profit_check w token st low high s self = (Ok (Some o), self') ->
  token_address o = address token /\ token_symbol o = symbol token /\
  stable_token o = st /\
  buy_dex o = fst low /\ sell_dex o = fst high /\
  buy_price o = snd low /\ sell_price o = snd high /\
  (exists notional,
      Py.float_of_int (max_flash_loan_amount self) = Some notional /\
      expected_profit o = (notional * (s / 100))%float) /\
  net_profit o = (expected_profit o - gas_cost o)%float /\
  Py.int_lt_float (min_profit_threshold self) (net_profit o) = true /\
  is_Some (dexes self !! fst low) /\ is_Some (dexes self !! fst high).
Proof.
  destruct low as [min_price_dex min_price], high as [max_price_dex max_price].
  unfold profit_check, bind, gets, lift, getitem.
  destruct (stable_tokens self !! st) as [stable|]; [|discriminate].
  pose proof (get_token_decimals_keeps min_profit_threshold w stable
                ltac:(reflexivity) ltac:(reflexivity) self) as K1.
  pose proof (get_token_decimals_keeps dexes w stable
                ltac:(reflexivity) ltac:(reflexivity) self) as K2.
  destruct (get_token_decimals w stable self) as [[d|e] s1]; [|discriminate].
  cbn [snd] in K1, K2.
  destruct (Py.float_of_int (max_flash_loan_amount self)) as [notional|];
    [|discriminate].
  cbv [of_option].
  pose proof (estimate_gas_cost_keeps min_profit_threshold w ltac:(reflexivity) s1) as K3.
  pose proof (estimate_gas_cost_keeps dexes w ltac:(reflexivity) s1) as K4.
  destruct (estimate_gas_cost w s1) as [[g|e] s2]; [|discriminate].
  cbn [snd] in K3, K4. rewrite K3, K1.
  destruct (Py.int_lt_float _ _) eqn:Hlt; [|discriminate].
  cbv beta. rewrite K4, K2.
  destruct (dexes self !! min_price_dex) eqn:D1; [|discriminate].
  destruct (dexes self !! max_price_dex) eqn:D2; [|discriminate].
  cbv [ret]. intros [= <- <-].
  cbn [token_address token_symbol stable_token buy_dex sell_dex buy_price sell_price
       expected_profit gas_cost net_profit fst snd].
  repeat (split; [reflexivity|]).
  split; [exists notional; split; reflexivity|].
  split; [reflexivity|]. split; [exact Hlt|]. split; eauto.
Qed.

(** X1: the evaluator buys where the token is cheapest and sells where it is
    dearest.  An opportunity names two different selected DEXes; its buy and
    sell prices are the cached prices of these two; and no selected DEX with
    a usable cached price is cheaper than the buy price or dearer than the
    sell price. *)
Theorem opportunity_buys_lowest_sells_highest
    (w : World) (self self' : ArbitrageMonitor) (token : Token) (st : string)
    (o : ArbitrageOpportunity) :
  check_and_execute_opportunity w token st self = (Ok (Some o), self') ->
  buy_dex o <> sell_dex o /\
  In (buy_dex o) (selected_dexes self) /\ In (sell_dex o) (selected_dexes self) /\
  priced (price_cache self) (Py.lower (address token)) (buy_dex o) (buy_price o) /\
  priced (price_cache self) (Py.lower (address token)) (sell_dex o) (sell_price o) /\
  forall dex p,
    In dex (selected_dexes self) ->
    priced (price_cache self) (Py.lower (address token)) dex p ->
    PrimFloat.ltb p (buy_price o) = false /\ PrimFloat.ltb (sell_price o) p = false.
Proof.
  rewrite check_and_execute_unfold.
  destruct (price_spread self token) as [[[[low high] s]|]|e] eqn:Hs; try discriminate.
  destruct (in_band s); [|discriminate].
  intros Hp. apply profit_check_fields in Hp.
  destruct Hp as (_ & _ & _ & -> & -> & -> & -> & _).
  apply price_spread_Some in Hs.
  destruct Hs as (H1 & H2 & H3 & H4 & H5 & H6 & _).
  repeat (split; [assumption|]). exact H6.
Qed.

Lemma opportunity_buys_lowest_sells_highest_witness :
  let o := Demo.opportunity in
  buy_dex o <> sell_dex o /\
  In (buy_dex o) ["dexA"; "dexB"] /\ In (sell_dex o) ["dexA"; "dexB"] /\
  priced (Demo.cache_of 100 102) (Py.lower (address Demo.token))
         (buy_dex o) (buy_price o) /\
  priced (Demo.cache_of 100 102) (Py.lower (address Demo.token))
         (sell_dex o) (sell_price o) /\
  forall dex p,
    In dex ["dexA"; "dexB"] ->
    priced (Demo.cache_of 100 102) (Py.lower (address Demo.token)) dex p ->
    PrimFloat.ltb p (buy_price o) = false /\ PrimFloat.ltb (sell_price o) p = false.
Proof.
  apply (opportunity_buys_lowest_sells_highest
           (Demo.world 0 (Raise Demo.no_node) (Ok 1))
           (Demo.monitor (Demo.cache_of 100 102))
           (snd (check_and_execute_opportunity
                   (Demo.world 0 (Raise Demo.no_node) (Ok 1)) Demo.token "USDC"
                   (Demo.monitor (Demo.cache_of 100 102))))
           Demo.token "USDC" Demo.opportunity).
  vm_compute. reflexivity.
Defined.

(** X2: the figures of an opportunity agree with each other.  The spread
    computed from its two prices lies strictly inside the band, the expected
    profit is the notional times that spread, the net profit is the expected
    profit less the gas cost and exceeds the profit threshold, and both DEX
    keys are entries of the DEX table. *)
Theorem opportunity_figures_are_consistent
    (w : World) (self self' : ArbitrageMonitor) (token : Token) (st : string)
    (o : ArbitrageOpportunity) :
  check_and_execute_opportunity w token st self = (Ok (Some o), self') ->
  let spread := ((sell_price o - buy_price o) / buy_price o * 100)%float in
  in_band spread = true /\
  (exists notional,
      Py.float_of_int (max_flash_loan_amount self) = Some notional /\
      expected_profit o = (notional * (spread / 100))%float) /\
  net_profit o = (expected_profit o - gas_cost o)%float /\
  Py.int_lt_float (min_profit_threshold self) (net_profit o) = true /\
  is_Some (dexes self !! buy_dex o) /\ is_Some (dexes self !! sell_dex o) /\
  token_address o = address token /\ token_symbol o = symbol token /\
  stable_token o = st.
Proof.
  rewrite check_and_execute_unfold.
  destruct (price_spread self token) as [[[[low high] s]|]|e] eqn:Hs; try discriminate.
  destruct (in_band s) eqn:Hband; [|discriminate].
  intros Hp. apply profit_check_fields in Hp.
  destruct Hp as (Ha & Hsym & Hst & Hb & Hsd & Hbp & Hsp & Hn & Hnet & Hthr & D1 & D2).
  apply price_spread_Some in Hs.
  destruct Hs as (_ & _ & _ & _ & _ & _ & ->).
  cbv zeta. rewrite Hb, Hsd, Hbp, Hsp.
  repeat (split; [assumption|]). assumption.
Qed.

Lemma opportunity_figures_are_consistent_witness :
  let o := Demo.opportunity in
  let spread := ((sell_price o - buy_price o) / buy_price o * 100)%float in
  in_band spread = true /\
  (exists notional,
      Py.float_of_int 5000 = Some notional /\
      expected_profit o = (notional * (spread / 100))%float) /\
  net_profit o = (expected_profit o - gas_cost o)%float /\
  Py.int_lt_float 10 (net_profit o) = true /\
  is_Some (dexes (Demo.monitor (Demo.cache_of 100 102)) !! buy_dex o) /\
  is_Some (dexes (Demo.monitor (Demo.cache_of 100 102)) !! sell_dex o) /\
  token_address o = address Demo.token /\ token_symbol o = symbol Demo.token /\
  stable_token o = "USDC".
Proof.
  apply (opportunity_figures_are_consistent
           (Demo.world 0 (Raise Demo.no_node) (Ok 1))
           (Demo.monitor (Demo.cache_of 100 102))
           (snd (check_and_execute_opportunity
                   (Demo.world 0 (Raise Demo.no_node) (Ok 1)) Demo.token "USDC"
                   (Demo.monitor (Demo.cache_of 100 102))))
           Demo.token "USDC" Demo.opportunity).
  vm_compute. reflexivity.
Defined.

Lemma price_spread_needs_two self token :
  (forall d1 p1 d2 p2,
      In d1 (selected_dexes self) -> In d2 (selected_dexes self) ->
      priced (price_cache self) (Py.lower (address token)) d1 p1 ->
      priced (price_cache self) (Py.lower (address token)) d2 p2 -> d1 = d2) ->
  price_spread self token = Ok None.
Proof.
  intros Hone. unfold price_spread.
  pose proof (collect_prices_sound (price_cache self) (Py.lower (address token))
                (selected_dexes self)) as [Hnd Hsound].
  destruct (collect_prices _ _ _) as [|[d1 p1] [|[d2 p2] rest]]; try reflexivity.
  exfalso.
  destruct (Hsound d1 p1 ltac:(left; reflexivity)) as [S1 P1].
  destruct (Hsound d2 p2 ltac:(right; left; reflexivity)) as [S2 P2].
  pose proof (Hone d1 p1 d2 p2 S1 S2 P1 P2) as ->.
  cbn [map fst] in Hnd. inversion Hnd as [|x l Hnin _]; subst.
  apply Hnin. left. reflexivity.
Qed.

(** X3: the evaluator needs two different priced DEXes.  When at most one
    selected DEX has a usable cached price for the token - none, one, or
    the same DEX selected several times - the evaluator returns nothing and
    does nothing: no remote call, no change of the monitor. *)
Theorem evaluator_needs_two_priced_dexes
    (w : World) (self : ArbitrageMonitor) (token : Token) (st : string) :
  (forall d1 p1 d2 p2,
      In d1 (selected_dexes self) -> In d2 (selected_dexes self) ->
      priced (price_cache self) (Py.lower (address token)) d1 p1 ->
      priced (price_cache self) (Py.lower (address token)) d2 p2 -> d1 = d2) ->
  check_and_execute_opportunity w token st self = (Ok None, self).
Proof.
  intros Hone. rewrite check_and_execute_unfold.
  rewrite (price_spread_needs_two self token Hone). reflexivity.
Qed.

Lemma evaluator_needs_two_priced_dexes_witness :
  let self := Demo.monitor {[ Py.lower (address Demo.token) := {[ "dexA" := 100%float ]} ]} in
  check_and_execute_opportunity (Demo.world 0 (Ok 1) (Ok 1)) Demo.token "USDC" self
  = (Ok None, self).
Proof.
  cbv zeta.
  apply (evaluator_needs_two_priced_dexes (Demo.world 0 (Ok 1) (Ok 1))
           (Demo.monitor {[ Py.lower (address Demo.token) := {[ "dexA" := 100%float ]} ]})
           Demo.token "USDC").
  intros d1 p1 d2 p2 H1 H2 [C1 _] [C2 _].
  cbn [selected_dexes Demo.monitor In] in H1, H2.
  destruct H1 as [<-|[<-|[]]], H2 as [<-|[<-|[]]]; try reflexivity;
    vm_compute in C1, C2; discriminate.
Defined.

Lemma check_and_execute_total
    (w : World) (self : ArbitrageMonitor) (token : Token) (st stable : string) :
  stable_tokens self !! st = Some stable ->
  (forall dex, In dex (selected_dexes self) -> is_Some (dexes self !! dex)) ->
  is_Some (Py.float_of_int (max_flash_loan_amount self)) ->
  (exists r, price_spread self token = Ok r) /\
  exists r, fst (check_and_execute_opportunity w token st self) = Ok r.
Proof.
  intros Hst Hdex [notional Hn].
  assert (Hspread : exists r, price_spread self token = Ok r).
  { unfold price_spread.
    pose proof (collect_prices_sound (price_cache self) (Py.lower (address token))
                  (selected_dexes self)) as [_ Hsound].
    destruct (collect_prices _ _ _) as [|first [|second rest]]; eauto.
    pose proof (min_by_price_spec first (second :: rest)) as [Hmin_in _].
    destruct (min_by_price first (second :: rest)) as [min_price_dex min_price].
    destruct (max_by_price first (second :: rest)) as [max_price_dex max_price].
    destruct (String.eqb min_price_dex max_price_dex); eauto.
    destruct (Hsound _ _ Hmin_in) as [_ [_ Ht]].
    rewrite (truthy_fdiv _ _ Ht). eauto. }
  split; [exact Hspread|].
  rewrite check_and_execute_unfold.
  destruct (price_spread self token) as [[[[low high] s]|]|e] eqn:Hs;
    [| eauto | destruct Hspread; discriminate].
  destruct (in_band s); [|eauto].
  apply price_spread_Some in Hs. destruct Hs as (_ & S1 & S2 & _).
  destruct (Hdex _ S1) as [i1 D1], (Hdex _ S2) as [i2 D2].
  destruct low as [min_price_dex min_price], high as [max_price_dex max_price].
  cbn [fst] in D1, D2.
  unfold profit_check, bind, gets, lift, getitem. rewrite Hst, Hn. cbv iota beta.
  destruct (get_token_decimals_total w stable self) as [d Hd].
  pose proof (get_token_decimals_keeps dexes w stable
                ltac:(reflexivity) ltac:(reflexivity) self) as K2.
  destruct (get_token_decimals w stable self) as [r1 s1]. cbn [fst snd] in Hd, K2.
  subst r1. cbv [of_option].
  pose proof (estimate_gas_cost_keeps dexes w ltac:(reflexivity) s1) as K4.
  assert (Hg : exists g, fst (estimate_gas_cost w s1) = Ok g).
  { unfold estimate_gas_cost, try_except, ret.
    match goal with |- context [bind ?m ?k s1] => destruct (bind m k s1) as [[g|e] s2] end;
      eauto. }
  destruct Hg as [g Hg].
  destruct (estimate_gas_cost w s1) as [r2 s2]. cbn [fst snd] in Hg, K4. subst r2.
  destruct (Py.int_lt_float _ _); [|eauto].
  cbv beta. rewrite K4, K2, D1, D2. eauto.
Qed.

(** X4: the evaluator never divides by zero: every collected price passed
    [if price:], so the least of them is not zero.  With a known stable
    token, every selected DEX in the DEX table and a notional that fits a
    float, an evaluation returns and raises nothing. *)
Theorem evaluator_does_not_raise
    (w : World) (self : ArbitrageMonitor) (token : Token) (st stable : string) :
  stable_tokens self !! st = Some stable ->
  (forall dex, In dex (selected_dexes self) -> is_Some (dexes self !! dex)) ->
  is_Some (Py.float_of_int (max_flash_loan_amount self)) ->
  (exists r, price_spread self token = Ok r) /\
  exists r, fst (check_and_execute_opportunity w token st self) = Ok r.
Proof. apply check_and_execute_total. Qed.

Lemma evaluator_does_not_raise_witness :
  (exists r, price_spread (Demo.monitor (Demo.cache_of 100 102)) Demo.token = Ok r) /\
  exists r, fst (check_and_execute_opportunity (Demo.world 0 (Ok 1) (Ok 1)) Demo.token
                   "USDC" (Demo.monitor (Demo.cache_of 100 102))) = Ok r.
Proof.
  apply (evaluator_does_not_raise (Demo.world 0 (Ok 1) (Ok 1))
           (Demo.monitor (Demo.cache_of 100 102)) Demo.token "USDC" Demo.USDC).
  - vm_compute. reflexivity.
  - intros dex [<-|[<-|[]]]; eexists; vm_compute; reflexivity.
  - eexists. vm_compute. reflexivity.
Defined.

(** ** Relations between the state before and after a method *)

Section Respects.

Variable R : ArbitrageMonitor -> ArbitrageMonitor -> Prop.
Hypothesis R_refl : forall self, R self self.
Hypothesis R_trans : forall s1 s2 s3, R s1 s2 -> R s2 s3 -> R s1 s3.

Lemma respects_ret {A} (a : A) : respects R (ret a).
Proof. intros self. apply R_refl. Qed.

Lemma respects_lift {A} (r : result A) : respects R (lift r).
Proof. intros self. apply R_refl. Qed.

Lemma respects_gets {A} (g : ArbitrageMonitor -> A) : respects R (gets g).
Proof. intros self. apply R_refl. Qed.

Lemma respects_bind {A B} (m : M A) (k : A -> M B) :
  respects R m -> (forall a, respects R (k a)) -> respects R (bind m k).
Proof.
  intros Hm Hk self. unfold bind. specialize (Hm self).
  destruct (m self) as [[a|e] self']; cbn [snd] in *; [|exact Hm].
  apply (R_trans _ _ _ Hm). apply Hk.
Qed.

Lemma respects_try_except {A} (m : M A) (h : exn -> M A) :
  respects R m -> (forall e, respects R (h e)) -> respects R (try_except m h).
Proof.
  intros Hm Hh self. unfold try_except. specialize (Hm self).
  destruct (m self) as [[a|e] self']; cbn [snd] in *; [exact Hm|].
  apply (R_trans _ _ _ Hm). apply Hh.
Qed.

Hypothesis R_call :
  forall c self, is_loop_call c = false -> R self (record_call c self).
Hypothesis R_price : forall g self, R self (set_price_cache g self).

Lemma respects_remote {A} (c : rpc) (ans : nat -> result A) :
  is_loop_call c = false -> respects R (remote c ans).
Proof. intros Hc self. apply R_call, Hc. Qed.

Hypothesis R_decimals : forall w a, respects R (get_token_decimals w a).

Ltac respects_tac :=
  repeat first
    [ apply R_decimals
    | apply respects_bind; [|intros ?]
    | apply respects_try_except; [|intros ?]
    | apply respects_ret | apply respects_lift | apply respects_gets
    | apply respects_remote; reflexivity
    | match goal with |- respects _ (match ?x with _ => _ end) => destruct x end
    | match goal with |- respects _ (if ?x then _ else _) => destruct x end ].

Lemma respects_get_token_price w a st dex : respects R (get_token_price w a st dex).
Proof. unfold get_token_price, quoted_price. respects_tac. Qed.

Lemma respects_update_price_for_dex w token st dex :
  respects R (update_price_for_dex w token st dex).
Proof.
  unfold update_price_for_dex.
  apply respects_bind; [apply respects_get_token_price|].
  intros [p|]; [|apply respects_ret].
  destruct (Py.truthy p); [|apply respects_ret].
  apply respects_bind; [|intros ?; apply respects_ret].
  intros self. apply R_price.
Qed.

Lemma respects_eth_get_gas_price w : respects R (eth_get_gas_price w).
Proof.
  intros self. unfold eth_get_gas_price.
  destruct (get_gas_price_call w _) as [z|e]; cbn [snd];
    [apply R_call; reflexivity|].
  destruct (is_attribute_error e); cbn [snd];
    [apply R_refl|apply R_call; reflexivity].
Qed.

Lemma respects_estimate_gas_cost w : respects R (estimate_gas_cost w).
Proof.
  unfold estimate_gas_cost.
  apply respects_try_except; [|intros ?; apply respects_ret].
  apply respects_bind; [apply respects_eth_get_gas_price|intros ?].
  respects_tac.
Qed.

Lemma respects_get_pair_address w a b dex : respects R (get_pair_address w a b dex).
Proof. unfold get_pair_address. respects_tac. Qed.

Lemma respects_check_and_execute w token st :
  respects R (check_and_execute_opportunity w token st).
Proof.
  unfold check_and_execute_opportunity.
  apply respects_bind; [intros self; apply R_refl|].
  intros [[[[d1 p1] [d2 p2]] s]|]; [|apply respects_ret].
  destruct (negb (in_band s)); [apply respects_ret|].
  unfold profit_check.
  repeat first
    [ apply R_decimals
    | apply respects_estimate_gas_cost
    | apply respects_bind; [|intros ?]
    | apply respects_ret | apply respects_lift | apply respects_gets
    | match goal with |- respects _ (if ?x then _ else _) => destruct x end ].
Qed.

Lemma respects_subscribe_to_swap w token st dex :
  respects R (subscribe_to_swap w token st dex).
Proof.
  unfold subscribe_to_swap.
  apply respects_bind; [apply respects_gets|intros ?].
  apply respects_bind; [apply respects_lift|intros ?].
  apply respects_bind; [apply respects_get_pair_address|].
  intros [pa|]; apply respects_ret.
Qed.

Lemma respects_process_entries w wt entries : respects R (process_entries w wt entries).
Proof.
  induction entries as [|entry rest IH]; cbn [process_entries]; [apply respects_ret|].
  apply respects_bind.
  - apply respects_try_except; [|intros ?; apply respects_ret].
    apply respects_bind; [apply respects_update_price_for_dex|intros ?].
    apply respects_bind; [apply respects_check_and_execute|intros ?].
    apply respects_ret.
  - intros [task|e]; [|apply respects_ret].
    apply respects_bind; [exact IH|].
    intros [[logs tasks] err]. apply respects_ret.
Qed.

(** The two calls of the watcher's own loops. *)
Hypothesis R_loop :
  forall c self, is_loop_call c = true -> R self (record_call c self).

Lemma respects_watcher_step w wt : respects R (watcher_step w wt).
Proof.
  unfold watcher_step.
  apply respects_bind; [apply respects_gets|intros monitoring].
  destruct (w_phase wt) as [|f|]; [| |apply respects_ret].
  - destruct (negb monitoring); [apply respects_ret|].
    apply respects_try_except; [|intros ?; apply respects_ret].
    apply respects_bind; [|intros ?; apply respects_ret].
    intros self. apply R_loop. reflexivity.
  - destruct (negb monitoring); [apply respects_ret|].
    apply respects_bind.
    + intros self. unfold remote. cbn [snd]. apply R_loop. reflexivity.
    + intros [entries|e]; [|apply respects_ret].
      apply respects_bind; [apply respects_process_entries|].
      intros [[logs tasks] [e|]]; apply respects_ret.
Qed.

Lemma respects_watcher_run w fuel wt : respects R (watcher_run w fuel wt).
Proof.
  revert wt. induction fuel as [|n IH]; intros wt; cbn [watcher_run];
    [apply respects_ret|].
  apply respects_bind; [apply respects_watcher_step|exact IH].
Qed.

End Respects.

(** ** What the watcher never writes *)

(** X5: the watcher (of a DEX that is in the DEX table), the subscription
    set-up, the price update and the evaluator write nothing but the two
    caches: the account, the key, the contract address, the DEX and
    stable-token tables, the selection, the monitoring flag and the two
    limits are the same after any number of turns, whatever the chain
    answers. *)
Theorem watcher_writes_only_the_caches
    (w : World) (token : Token) (st dex : string) (fuel : nat) (wt : Watcher)
    (self : ArbitrageMonitor) :
  (listed self wt -> same_config self (snd (watcher_run w fuel wt self))) /\
  same_config self (snd (subscribe_to_swap w token st dex self)) /\
  same_config self (snd (update_price_for_dex w token st dex self)) /\
  same_config self (snd (check_and_execute_opportunity w token st self)).
Proof.
  assert (Hd : forall w' a, respects same_config (get_token_decimals w' a)).
  { intros w' a s. apply (get_token_decimals_keeps config w' a); reflexivity. }
  assert (Ht : forall s1 s2 s3 : ArbitrageMonitor,
             same_config s1 s2 -> same_config s2 s3 -> same_config s1 s3).
  { unfold same_config. intros s1 s2 s3 H1 H2. congruence. }
  split; [|split; [|split]].
  - intros _.
    apply (respects_watcher_run same_config); try (intros; reflexivity); assumption.
  - apply (respects_subscribe_to_swap same_config); try (intros; reflexivity); assumption.
  - apply (respects_update_price_for_dex same_config);
      try (intros; reflexivity); assumption.
  - apply (respects_check_and_execute same_config);
      try (intros; reflexivity); assumption.
Qed.

(** ** The decimals cache over time *)

Lemma decimals_kept_get_token_decimals w a :
  respects decimals_kept (get_token_decimals w a).
Proof.
  intros self k d Hk. rewrite get_token_decimals_unfold.
  destruct (_decimals_cache self !! Py.lower a) eqn:Hc; [exact Hk|].
  destruct (to_checksum_address w a); [|exact Hk].
  destruct (decimals_call w _ _); [|exact Hk].
  destruct (decode_uint8 _); [|exact Hk].
  cbn [snd set_decimals_cache _decimals_cache record_call].
  rewrite lookup_insert_ne; [exact Hk|]. intros <-. congruence.
Qed.

Lemma decimals_kept_watcher_run w fuel wt : respects decimals_kept (watcher_run w fuel wt).
Proof.
  apply (respects_watcher_run decimals_kept).
  - intros self k d H. exact H.
  - intros s1 s2 s3 H1 H2 k d H. apply H2, H1, H.
  - intros c self _ k d H. exact H.
  - intros g self k d H. exact H.
  - apply decimals_kept_get_token_decimals.
  - intros c self _ k d H. exact H.
Qed.

(** X6: a cached decimals value is final.  Once an address has an entry
    in the decimals cache, no number of turns of a watcher (of a DEX that is
    in the DEX table) removes or changes it, and a later lookup of the
    address - in any letter case - returns that value without a remote
    call, whatever the chain would answer by then. *)
Theorem cached_decimals_are_final
    (w w' : World) (fuel : nat) (wt : Watcher) (self : ArbitrageMonitor)
    (a a' : string) (d : Z) :
  listed self wt ->
  _decimals_cache self !! Py.lower a = Some d ->
  Py.lower a' = Py.lower a ->
  let later := snd (watcher_run w fuel wt self) in
  _decimals_cache later !! Py.lower a = Some d /\
  get_token_decimals w' a' later = (Ok d, later).
Proof.
  intros _ Hc Hcase. cbv zeta.
  pose proof (decimals_kept_watcher_run w fuel wt self _ _ Hc) as Hk.
  split; [exact Hk|].
  apply get_token_decimals_hit. rewrite Hcase. exact Hk.
Qed.

Lemma cached_decimals_are_final_witness :
  let self := snd (get_token_decimals calm_world Demo.USDC (Demo.monitor ∅)) in
  let later := snd (watcher_run recovering_world 3 polling_watcher self) in
  _decimals_cache later !! Py.lower Demo.USDC = Some 6 /\
  get_token_decimals flaky_world "0x833589FCD6EDB6E08F4C7C32D4F71B54BDA02913" later
  = (Ok 6, later).
Proof.
  apply (cached_decimals_are_final recovering_world flaky_world 3 polling_watcher
           (snd (get_token_decimals calm_world Demo.USDC (Demo.monitor ∅)))
           Demo.USDC "0x833589FCD6EDB6E08F4C7C32D4F71B54BDA02913" 6).
  - eexists. vm_compute. reflexivity.
  - vm_compute. reflexivity.
  - vm_compute. reflexivity.
Defined.

Lemma decimals_in_range_get_token_decimals w a self :
  decimals_in_range self ->
  decimals_in_range (snd (get_token_decimals w a self)) /\
  exists d, fst (get_token_decimals w a self) = Ok d /\ 0 <= d < 256.
Proof.
  intros Hr. rewrite get_token_decimals_unfold.
  destruct (_decimals_cache self !! Py.lower a) as [d|] eqn:Hc.
  { split; [exact Hr|]. exists d. split; [reflexivity|]. exact (Hr _ _ Hc). }
  destruct (to_checksum_address w a);
    [|split; [exact Hr|exists 18; split; [reflexivity|lia]]].
  destruct (decimals_call w _ _) as [z|];
    [|split; [exact Hr|exists 18; split; [reflexivity|lia]]].
  unfold decode_uint8.
  destruct ((0 <=? z) && (z <? 256)) eqn:Hz.
  - apply andb_true_iff in Hz. destruct Hz as [H0 H1].
    apply Z.leb_le in H0. apply Z.ltb_lt in H1. cbn [snd fst].
    split; [|exists z; split; [reflexivity|lia]].
    intros k d. cbn [set_decimals_cache _decimals_cache record_call].
    destruct (decide (Py.lower a = k)) as [<-|Hne].
    + rewrite lookup_insert_eq. intros [= <-]. lia.
    + rewrite lookup_insert_ne by exact Hne. apply Hr.
  - split; [exact Hr|exists 18; split; [reflexivity|lia]].
Qed.

(** Token decimals are always a [uint8].  The cache starts empty; every
    lookup returns a value from 0 to 255 (a cached one, a decoded one or
    the fallback 18), and lookups and watcher turns leave only such values
    in the cache. *)
Lemma decimals_are_always_uint8 :
  (forall self, _decimals_cache self = ∅ -> decimals_in_range self) /\
  (forall (w : World) (a : string) (self : ArbitrageMonitor),
      decimals_in_range self ->
      decimals_in_range (snd (get_token_decimals w a self)) /\
      exists d, fst (get_token_decimals w a self) = Ok d /\ 0 <= d < 256) /\
  (forall (w : World) (fuel : nat) (wt : Watcher) (self : ArbitrageMonitor),
      decimals_in_range self ->
      decimals_in_range (snd (watcher_run w fuel wt self))).
Proof.
  split; [|split].
  - intros self He k d. rewrite He, lookup_empty. discriminate.
  - apply decimals_in_range_get_token_decimals.
  - intros w fuel wt.
    apply (respects_watcher_run
             (fun s s' => decimals_in_range s -> decimals_in_range s')); auto.
    intros w' a self. apply decimals_in_range_get_token_decimals.
Qed.

(** ** Pair locator *)

Lemma get_pair_address_unfold w a b dex self :
  get_pair_address w a b dex self =
  match dexes self !! dex with
  | None => (Ok None, self)
  | Some d =>
      match to_checksum_address w (factory_address d) with
      | Raise _ => (Ok None, self)
      | Ok factory =>
          match to_checksum_address w a with
          | Raise _ => (Ok None, self)
          | Ok ta =>
              match to_checksum_address w b with
              | Raise _ => (Ok None, self)
              | Ok tb =>
                  (Ok match getPair_call w (List.length (rpc_calls self)) factory ta tb with
                      | Ok pa => if String.eqb pa zero_address then None else Some pa
                      | Raise _ => None
                      end,
                   record_call (GetPair factory ta tb) self)
              end
          end
      end
  end.
Proof.
  unfold get_pair_address, try_except, bind, gets, lift, getitem, remote, ret.
  destruct (dexes self !! dex) as [d|]; [|reflexivity].
  destruct (to_checksum_address w (factory_address d)); [|reflexivity].
  destruct (to_checksum_address w a); [|reflexivity].
  destruct (to_checksum_address w b); [|reflexivity].
  destruct (getPair_call w _ _ _ _) as [pa|]; [|reflexivity].
  destruct (String.eqb pa zero_address); reflexivity.
Qed.

(** X7: the pair locator never raises and asks the chain at most once.  It
    answers nothing, without any remote call, for a DEX key that is not in
    the table; and an address it does answer is never the zero address: it
    is what the factory of that DEX returned for the two tokens. *)
Theorem pair_lookup_never_raises
    (w : World) (tokenA tokenB dex_key : string) (self : ArbitrageMonitor) :
  exists r,
    fst (get_pair_address w tokenA tokenB dex_key self) = Ok r /\
    (snd (get_pair_address w tokenA tokenB dex_key self) = self \/
     exists factory ta tb,
       snd (get_pair_address w tokenA tokenB dex_key self)
       = record_call (GetPair factory ta tb) self) /\
    (dexes self !! dex_key = None ->
     r = None /\ snd (get_pair_address w tokenA tokenB dex_key self) = self) /\
    (forall pa, r = Some pa ->
       pa <> zero_address /\
       exists d factory ta tb,
         dexes self !! dex_key = Some d /\
         to_checksum_address w (factory_address d) = Ok factory /\
         to_checksum_address w tokenA = Ok ta /\
         to_checksum_address w tokenB = Ok tb /\
         getPair_call w (List.length (rpc_calls self)) factory ta tb = Ok pa).
Proof.
  rewrite get_pair_address_unfold.
  destruct (dexes self !! dex_key) as [d|] eqn:Hd.
  2:{ exists None. cbn [fst snd]. repeat split; auto; discriminate. }
  destruct (to_checksum_address w (factory_address d)) as [factory|] eqn:Hf.
  2:{ exists None. cbn [fst snd]. repeat split; auto; discriminate. }
  destruct (to_checksum_address w tokenA) as [ta|] eqn:Ha.
  2:{ exists None. cbn [fst snd]. repeat split; auto; discriminate. }
  destruct (to_checksum_address w tokenB) as [tb|] eqn:Hb.
  2:{ exists None. cbn [fst snd]. repeat split; auto; discriminate. }
  eexists. cbn [fst snd]. split; [reflexivity|].
  split; [right; eauto|]. split; [discriminate|].
  intros pa. destruct (getPair_call w _ factory ta tb) as [pa'|] eqn:Hp; [|discriminate].
  destruct (String.eqb_spec pa' zero_address) as [|Hne]; [discriminate|].
  intros [= <-]. split; [exact Hne|].
  exists d, factory, ta, tb. auto.
Qed.

(** ** Gas estimate *)

(** X8: the gas estimate never raises.  It is exactly 10.0 when the
    gas price cannot be had: with a [w3.eth] that has no [get_gas_price]
    nothing is asked at all, and after a gas-price call that failed or
    answered no [uint256] only that call was made.  It is 10.0 as well when
    the cost of 600000 gas exceeds [2**256 - 1] wei, which [from_wei]
    refuses, the price feed not being asked, and when the price feed fails.
    Otherwise it is the cost of 600000 gas in ether times the feed's price.
    With the feed at 2000 USD: no [get_gas_price] gives 10.0 with no
    request, a gas price of [2**256 - 1] gives 10.0 with the feed not
    asked, and a gas price of 1 gwei gives 1.2 USD. *)
Theorem gas_estimate_falls_back_to_ten :
  (forall (w : World) (self : ArbitrageMonitor),
     let t := List.length (rpc_calls self) in
     let r := fst (estimate_gas_cost w self) in
     let self' := snd (estimate_gas_cost w self) in
     (exists g, r = Ok g) /\
     (forall e, get_gas_price_call w t = Raise e ->
        r = Ok 10%float /\
        self' = if is_attribute_error e then self
                else record_call GetGasPrice self) /\
     (forall z, get_gas_price_call w t = Ok z ->
        is_uint256 z = false \/ 2 ^ 256 - 1 < z * 600000 ->
        r = Ok 10%float /\ self' = record_call GetGasPrice self) /\
     (forall z e, get_gas_price_call w t = Ok z ->
        0 <= z -> z * 600000 <= 2 ^ 256 - 1 ->
        eth_usd_feed w (S t) = Raise e ->
        r = Ok 10%float /\
        self' = record_call EthUsdFeed (record_call GetGasPrice self)) /\
     (forall z p eth, get_gas_price_call w t = Ok z ->
        0 <= z -> z * 600000 <= 2 ^ 256 - 1 ->
        eth_usd_feed w (S t) = Ok p ->
        Py.truediv (z * 600000) (10 ^ 18) = Some eth ->
        r = Ok (eth * p)%float /\
        self' = record_call EthUsdFeed (record_call GetGasPrice self))) /\
  estimate_gas_cost web3_world (Demo.monitor ∅) = (Ok 10%float, Demo.monitor ∅) /\
  estimate_gas_cost (gas_world (2 ^ 256 - 1)) (Demo.monitor ∅)
  = (Ok 10%float, record_call GetGasPrice (Demo.monitor ∅)) /\
  estimate_gas_cost (gas_world (10 ^ 9)) (Demo.monitor ∅)
  = (Ok 1.2%float, record_call EthUsdFeed (record_call GetGasPrice (Demo.monitor ∅))).
Proof.
  split; [|repeat split; vm_compute; reflexivity].
  intros w self. cbv zeta.
  unfold estimate_gas_cost, try_except, bind, eth_get_gas_price, remote, lift, ret,
    decode_uint256, from_wei_ether.
  destruct (get_gas_price_call w (List.length (rpc_calls self))) as [z|e] eqn:Hg.
  2:{ split; [destruct (is_attribute_error e); cbn [fst]; eauto|].
      split; [intros e' [= <-]; destruct (is_attribute_error e); auto|].
      split; [intros ? [=]|]. split; [intros ? ? [=]|]. intros ? ? ? [=]. }
  destruct (is_uint256 z) eqn:Hz.
  2:{ cbn [fst snd]. split; [eauto|]. split; [intros ? [=]|]. split; [auto|].
      assert (Hneg : ~ (0 <= z /\ z * 600000 <= 2 ^ 256 - 1)).
      { unfold is_uint256 in Hz. apply andb_false_iff in Hz. lia. }
      split; [intros z' e [= <-] ? ?; exfalso; auto|].
      intros z' p eth [= <-] ? ?; exfalso; auto. }
  assert (H0 : 0 <= z) by (unfold is_uint256 in Hz; apply andb_true_iff in Hz; lia).
  replace (z * 600000 <? 0) with false by (symmetry; apply Z.ltb_ge; lia).
  cbn [orb rpc_calls record_call List.length].
  destruct (2 ^ 256 - 1 <? z * 600000) eqn:Hr.
  { apply Z.ltb_lt in Hr. cbn [fst snd]. split; [eauto|].
    split; [intros ? [=]|]. split; [auto|].
    split; [intros z' e [= <-] ? ?; lia|]. intros z' p eth [= <-] ? ?; lia. }
  apply Z.ltb_ge in Hr.
  change (Py.truediv (z * 600000) (10 ^ 18))
    with (Some (SF2Prim (SFdiv prec emax (Py.sf_of_int (z * 600000))
                               (Py.sf_of_int (10 ^ 18))))).
  cbv [of_option].
  destruct (eth_usd_feed w (S (List.length (rpc_calls self)))) as [p|e] eqn:Hp;
    cbn [fst snd].
  - split; [eauto|]. split; [intros ? [=]|].
    split; [intros z' [= <-] [?|?]; [congruence|lia]|].
    split; [intros ? ? _ _ _ [=]|].
    intros z' p' eth [= <-] _ _ [= <-] [= <-]. split; reflexivity.
  - split; [eauto|]. split; [intros ? [=]|].
    split; [intros z' [= <-] [?|?]; [congruence|lia]|].
    split; [auto|]. intros ? ? ? _ _ _ [=].
Qed.

(** ** Quote client *)

(** X9: a quote needs a known DEX and a known stable token.  For a DEX key
    that is not in the table the quote client answers nothing and asks the
    chain nothing; for an unknown stable-token symbol it answers nothing.
    A price it does return is the second amount of the router's quote for
    one whole token ([10 ** token_decimals] units) along the path from the
    token to the stable token, divided by one whole stable unit; it lies
    strictly between 0 and 1e12, and that quote was the last remote call. *)
Theorem quote_is_for_one_whole_token
    (w : World) (a st dex : string) (self : ArbitrageMonitor) :
  (dexes self !! dex = None -> get_token_price w a st dex self = (Ok None, self)) /\
  (stable_tokens self !! st = None -> fst (get_token_price w a st dex self) = Ok None) /\
  (forall p, fst (get_token_price w a st dex self) = Ok (Some p) ->
     exists di stable router td sd s1 s2 ta tb outs out,
       dexes self !! dex = Some di /\
       stable_tokens self !! st = Some stable /\
       to_checksum_address w (router_address di) = Ok router /\
       get_token_decimals w a self = (Ok td, s1) /\
       get_token_decimals w stable s1 = (Ok sd, s2) /\
       to_checksum_address w a = Ok ta /\
       to_checksum_address w stable = Ok tb /\
       getAmountsOut_call w (List.length (rpc_calls s2)) router (10 ^ td) [ta; tb]
       = Ok outs /\
       outs !! 1%nat = Some out /\
       Py.truediv out (10 ^ sd) = Some p /\
       valid_price p /\
       snd (get_token_price w a st dex self)
       = record_call (GetAmountsOut router (10 ^ td) [ta; tb]) s2).
Proof.
  split; [|split].
  - intros Hd. rewrite get_token_price_unfold.
    unfold quoted_price, bind, gets, lift, getitem. rewrite Hd. reflexivity.
  - intros Hs. rewrite get_token_price_unfold.
    unfold quoted_price, bind, gets, lift, getitem.
    destruct (dexes self !! dex) as [di|]; [|reflexivity].
    destruct (to_checksum_address w (router_address di)); [|reflexivity].
    pose proof (get_token_decimals_keeps stable_tokens w a
                  ltac:(reflexivity) ltac:(reflexivity) self) as K.
    destruct (get_token_decimals w a self) as [[td|e] s1]; [|reflexivity].
    cbn [snd] in K. rewrite K, Hs. reflexivity.
  - intros p. pose proof (get_token_price_valid w a st dex self p) as Hvalid.
    rewrite get_token_price_unfold in *.
    unfold quoted_price, bind, gets, lift, getitem, remote in *.
    destruct (dexes self !! dex) as [di|] eqn:E1; [|discriminate].
    destruct (to_checksum_address w (router_address di)) as [router|] eqn:E2;
      [|discriminate].
    pose proof (get_token_decimals_keeps stable_tokens w a
                  ltac:(reflexivity) ltac:(reflexivity) self) as K.
    destruct (get_token_decimals w a self) as [[td|e] s1] eqn:E3; [|discriminate].
    cbn [snd] in K. rewrite K in *.
    destruct (stable_tokens self !! st) as [stable|] eqn:E4; [|discriminate].
    destruct (get_token_decimals w stable s1) as [[sd|e] s2] eqn:E5; [|discriminate].
    destruct (to_checksum_address w a) as [ta|] eqn:E6; [|discriminate].
    destruct (to_checksum_address w stable) as [tb|] eqn:E7; [|discriminate].
    destruct (abi_uint256 td (10 ^ td)) as [[]|]; [|discriminate].
    destruct (getAmountsOut_call w _ router (10 ^ td) [ta; tb]) as [outs|] eqn:Hq;
      [|discriminate].
    unfold decode_uint256_array in *.
    destruct (forallb is_uint256 outs); [|discriminate].
    destruct (outs !! 1%nat) as [out|] eqn:Ho; [|discriminate].
    cbv [of_option] in *.
    destruct (Py.truediv out (10 ^ sd)) as [price|] eqn:Hdiv; [|discriminate].
    cbn [fst snd] in *. intros Hp. specialize (Hvalid Hp).
    injection Hp as Hp. apply sane_Some in Hp. destruct Hp as [-> _].
    exists di, stable, router, td, sd, s1, s2, ta, tb, outs, out.
    repeat (split; [first [reflexivity|assumption]|]). reflexivity.
Qed.

(** ** Remote calls issued *)

Lemma calls_within_refl n self : calls_within n self self.
Proof. exists []. split; [reflexivity|cbn; lia]. Qed.

Lemma calls_within_trans n k s1 s2 s3 :
  calls_within n s1 s2 -> calls_within k s2 s3 -> calls_within (n + k) s1 s3.
Proof.
  intros (l1 & E1 & L1) (l2 & E2 & L2). exists (l2 ++ l1). split.
  - rewrite E2, E1, app_assoc. reflexivity.
  - rewrite List.length_app. lia.
Qed.

Lemma calls_within_weaken n k s1 s2 :
  (n <= k)%nat -> calls_within n s1 s2 -> calls_within k s1 s2.
Proof. intros Hle (l & E & L). exists l. split; [exact E|lia]. Qed.

Lemma spends_weaken {A} n k (m : M A) : (n <= k)%nat -> spends n m -> spends k m.
Proof. intros Hle H self. apply (calls_within_weaken n); auto. Qed.

Lemma spends_ret {A} n (a : A) : spends n (ret a).
Proof. intros self. apply (calls_within_weaken 0); [lia|apply calls_within_refl]. Qed.

Lemma spends_lift {A} n (r : result A) : spends n (lift r).
Proof. intros self. apply (calls_within_weaken 0); [lia|apply calls_within_refl]. Qed.

Lemma spends_gets {A} n (g : ArbitrageMonitor -> A) : spends n (gets g).
Proof. intros self. apply (calls_within_weaken 0); [lia|apply calls_within_refl]. Qed.

Lemma spends_remote {A} n (c : rpc) (ans : nat -> result A) : spends (S n) (remote c ans).
Proof. intros self. exists [c]. split; [reflexivity|cbn; lia]. Qed.

Lemma spends_bind {A B} n k (m : M A) (f : A -> M B) :
  spends n m -> (forall a, spends k (f a)) -> spends (n + k) (bind m f).
Proof.
  intros Hm Hf self. unfold bind. specialize (Hm self).
  destruct (m self) as [[a|e] self']; cbn [snd] in *.
  - apply (calls_within_trans _ _ _ _ _ Hm). apply Hf.
  - apply (calls_within_weaken n); [lia|exact Hm].
Qed.

Lemma spends_try_except {A} n (m : M A) (h : exn -> M A) :
  spends n m -> (forall e, spends 0 (h e)) -> spends n (try_except m h).
Proof.
  intros Hm Hh self. unfold try_except. specialize (Hm self).
  destruct (m self) as [[a|e] self']; cbn [snd] in *; [exact Hm|].
  replace n with (n + 0)%nat by lia.
  apply (calls_within_trans _ _ _ _ _ Hm). apply Hh.
Qed.

Lemma spends_get_token_decimals w a : spends 1 (get_token_decimals w a).
Proof.
  intros self. rewrite get_token_decimals_unfold.
  destruct (_decimals_cache self !! Py.lower a);
    [apply (calls_within_weaken 0); [lia|apply calls_within_refl]|].
  destruct (to_checksum_address w a) as [addr|];
    [|apply (calls_within_weaken 0); [lia|apply calls_within_refl]].
  assert (H : calls_within 1 self (record_call (Decimals addr) self))
    by (exists [Decimals addr]; split; [reflexivity|cbn; lia]).
  destruct (decimals_call w _ _); [|exact H].
  destruct (decode_uint8 _); exact H.
Qed.

(** A step that issues no call, then the rest. *)
Ltac spends_pure :=
  apply (spends_bind 0);
  [ first [apply spends_gets | apply spends_lift | apply spends_ret] | intros ? ].

Lemma spends_get_token_price w a st dex : spends 3 (get_token_price w a st dex).
Proof.
  unfold get_token_price.
  apply spends_try_except; [|intros ?; apply spends_ret].
  apply (spends_bind 3 0); [|intros ?; apply spends_ret].
  unfold quoted_price.
  do 3 spends_pure.
  apply (spends_bind 1 2); [apply spends_get_token_decimals|intros ?].
  do 2 spends_pure.
  apply (spends_bind 1 1); [apply spends_get_token_decimals|intros ?].
  do 3 spends_pure.
  apply (spends_bind 1 0); [apply spends_remote|intros ?].
  spends_pure. apply spends_lift.
Qed.

Lemma spends_update_price_for_dex w token st dex :
  spends 3 (update_price_for_dex w token st dex).
Proof.
  unfold update_price_for_dex.
  apply (spends_bind 3 0); [apply spends_get_token_price|].
  intros [p|]; [|apply spends_ret].
  destruct (Py.truthy p); [|apply spends_ret].
  apply (spends_bind 0 0); [|intros ?; apply spends_ret].
  intros self. exists []. split; [reflexivity|cbn; lia].
Qed.

Lemma spends_estimate_gas_cost w : spends 2 (estimate_gas_cost w).
Proof.
  unfold estimate_gas_cost.
  apply spends_try_except; [|intros ?; apply spends_ret].
  apply (spends_bind 1 1); [|intros ?].
  { intros self. unfold eth_get_gas_price.
    assert (H : calls_within 1 self (record_call GetGasPrice self))
      by (exists [GetGasPrice]; split; [reflexivity|cbn; lia]).
    destruct (get_gas_price_call w _) as [z|e]; cbn [snd]; [exact H|].
    destruct (is_attribute_error e); cbn [snd]; [|exact H].
    apply (calls_within_weaken 0); [lia|apply calls_within_refl]. }
  spends_pure.
  apply (spends_bind 1 0); [apply spends_remote|intros ?]. apply spends_ret.
Qed.

Lemma spends_check_and_execute w token st :
  spends 3 (check_and_execute_opportunity w token st).
Proof.
  unfold check_and_execute_opportunity.
  apply (spends_bind 0 3); [intros self; apply calls_within_refl|].
  intros [[[[d1 p1] [d2 p2]] s]|]; [|apply spends_ret].
  destruct (negb (in_band s)); [apply spends_ret|].
  unfold profit_check.
  do 3 spends_pure.
  apply (spends_bind 1 2); [apply spends_get_token_decimals|intros ?].
  spends_pure.
  apply (spends_bind 2 0); [apply spends_estimate_gas_cost|intros ?].
  spends_pure.
  destruct (Py.int_lt_float _ _); [|apply spends_ret].
  do 4 spends_pure. apply spends_ret.
Qed.

(** X10: one swap event costs at most six remote calls: at most three for
    the price update (two decimals look-ups and the quote) and at most
    three for the evaluation (one decimals look-up, the gas price and the
    price feed).  So a poll that delivers [n] events to a watcher of a DEX
    that is in the DEX table is handled with at most [6 * n] calls, each
    look-up of decimals with at most one, and the gas estimate with at most
    two. *)
Theorem swap_event_costs_at_most_six_calls
    (w : World) (wt : Watcher) (entries : list Z) (token : Token) (st dex a : string) :
  (forall self, listed self wt ->
                calls_within (6 * List.length entries) self
                             (snd (process_entries w wt entries self))) /\
  spends 3 (update_price_for_dex w token st dex) /\
  spends 3 (check_and_execute_opportunity w token st) /\
  spends 2 (estimate_gas_cost w) /\
  spends 1 (get_token_decimals w a).
Proof.
  split; [|split; [apply spends_update_price_for_dex|
           split; [apply spends_check_and_execute|
           split; [apply spends_estimate_gas_cost|apply spends_get_token_decimals]]]].
  intros self _. revert self. change (spends (6 * List.length entries)
                                            (process_entries w wt entries)).
  induction entries as [|entry rest IH]; cbn [process_entries]; [apply spends_ret|].
  replace (6 * List.length (entry :: rest))%nat
    with (6 + 6 * List.length rest)%nat by (cbn [List.length]; lia).
  apply spends_bind.
  - apply spends_try_except; [|intros ?; apply spends_ret].
    apply (spends_bind 3 3); [apply spends_update_price_for_dex|intros ?].
    apply (spends_bind 3 0); [apply spends_check_and_execute|intros ?].
    apply spends_ret.
  - intros [task|e]; [|apply spends_ret].
    replace (6 * List.length rest)%nat with (6 * List.length rest + 0)%nat by lia.
    apply spends_bind; [exact IH|].
    intros [[logs tasks] err]. apply spends_ret.
Qed.

(** ** The price cache as a store *)

(** X11: storing and reading back.  After an update that returns a price, that
    price is the cache entry of the token (under its lower-cased address)
    and the DEX, every other entry is what it was, and the evaluator's
    collection for any spelling of the address holds that price for the DEX
    if the DEX is selected.  After an update that returns nothing the cache
    is unchanged. *)
Theorem updated_price_is_read_back
    (w : World) (token : Token) (st dex : string) (self : ArbitrageMonitor) :
  let r := fst (update_price_for_dex w token st dex self) in
  let self' := snd (update_price_for_dex w token st dex self) in
  (forall p, r = Ok (Some p) ->
     cache_get (price_cache self') (Py.lower (address token)) dex = Some p /\
     (forall key dex', (key, dex') <> (Py.lower (address token), dex) ->
        cache_get (price_cache self') key dex' = cache_get (price_cache self) key dex') /\
     (forall token', Py.lower (address token') = Py.lower (address token) ->
        In dex (selected_dexes self) ->
        In (dex, p) (collect_prices (price_cache self') (Py.lower (address token'))
                                    (selected_dexes self')))) /\
  (r = Ok None -> price_cache self' = price_cache self).
Proof.
  cbv zeta.
  assert (Hsel : selected_dexes (snd (update_price_for_dex w token st dex self))
                 = selected_dexes self).
  { apply (respects_update_price_for_dex
             (fun s s' => selected_dexes s' = selected_dexes s));
      try (intros; reflexivity).
    - intros s1 s2 s3 H1 H2. congruence.
    - intros w' a s. apply (get_token_decimals_keeps selected_dexes w' a); reflexivity. }
  revert Hsel.
  rewrite update_price_for_dex_unfold.
  pose proof (get_token_price_keeps_prices w (address token) st dex self) as Hk.
  destruct (get_token_price w (address token) st dex self) as [[[p|]|e] s1];
    cbn [snd] in Hk.
  - destruct (Py.truthy p) eqn:Ht; cbn [fst snd]; intros Hsel.
    + split; [|discriminate]. intros q [= <-].
      cbn [price_cache set_price_cache]. rewrite Hk.
      assert (Hget : cache_get (cache_put (Py.lower (address token)) dex p
                                          (price_cache self))
                               (Py.lower (address token)) dex = Some p).
      { rewrite cache_get_put. rewrite decide_True by auto. reflexivity. }
      split; [exact Hget|]. split.
      * intros key dex' Hne. rewrite cache_get_put.
        rewrite decide_False; [reflexivity|]. intros [<- <-]. apply Hne. reflexivity.
      * intros token' Hcase Hin. rewrite Hcase.
        apply collect_prices_complete; [rewrite Hsel; exact Hin|].
        split; [exact Hget|exact Ht].
    + split; [discriminate|]. intros _. exact Hk.
  - cbn [fst snd]. intros _. split; [discriminate|]. intros _. exact Hk.
  - cbn [fst snd]. intros _. split; discriminate.
Qed.

(** ** The watcher over any number of turns *)

Lemma check_and_execute_own_trade w wt self o self' :
  check_and_execute_opportunity w (w_token wt) (w_stable_token wt) self
  = (Ok (Some o), self') ->
  own_trade self wt o.
Proof.
  rewrite check_and_execute_unfold.
  destruct (price_spread self (w_token wt)) as [[[[low high] s]|]|e] eqn:Hs;
    try discriminate.
  destruct (in_band s); [|discriminate].
  intros Hp. apply profit_check_fields in Hp.
  destruct Hp as (Ha & Hsym & Hst & Hb & Hsd & _ & _ & _ & _ & Hthr & _).
  apply price_spread_Some in Hs. destruct Hs as (H1 & H2 & H3 & _).
  unfold own_trade. rewrite Hb, Hsd. auto 10.
Qed.

Lemma own_trade_same_config self self' wt o :
  same_config self self' -> own_trade self' wt o -> own_trade self wt o.
Proof.
  unfold same_config, config, own_trade. intros [= _ _ _ _ _ Hsel _ Hthr _].
  rewrite Hsel, Hthr. auto.
Qed.

Lemma same_config_trans s1 s2 s3 :
  same_config s1 s2 -> same_config s2 s3 -> same_config s1 s3.
Proof. unfold same_config. congruence. Qed.

Lemma same_config_respected {A} (m : M A) :
  (forall R : ArbitrageMonitor -> ArbitrageMonitor -> Prop,
      (forall s, R s s) -> (forall s1 s2 s3, R s1 s2 -> R s2 s3 -> R s1 s3) ->
      (forall c s, is_loop_call c = false -> R s (record_call c s)) ->
      (forall g s, R s (set_price_cache g s)) ->
      (forall w a, respects R (get_token_decimals w a)) ->
      respects R m) ->
  respects same_config m.
Proof.
  intros H. apply H; try (intros; reflexivity).
  - apply same_config_trans.
  - intros w a s. apply (get_token_decimals_keeps config w a); reflexivity.
Qed.

Lemma polls_get_token_decimals w a :
  respects (fun s s' => polls s' = polls s) (get_token_decimals w a).
Proof.
  intros self. rewrite get_token_decimals_unfold.
  destruct (_decimals_cache self !! Py.lower a); [reflexivity|].
  destruct (to_checksum_address w a); [|reflexivity].
  destruct (decimals_call w _ _); [|reflexivity].
  destruct (decode_uint8 _); reflexivity.
Qed.

Lemma polls_respected {A} (m : M A) :
  (forall R : ArbitrageMonitor -> ArbitrageMonitor -> Prop,
      (forall s, R s s) -> (forall s1 s2 s3, R s1 s2 -> R s2 s3 -> R s1 s3) ->
      (forall c s, is_loop_call c = false -> R s (record_call c s)) ->
      (forall g s, R s (set_price_cache g s)) ->
      (forall w a, respects R (get_token_decimals w a)) ->
      respects R m) ->
  respects (fun s s' => polls s' = polls s) m.
Proof.
  intros H. apply H; try (intros; reflexivity).
  - intros s1 s2 s3 H1 H2. congruence.
  - intros [] s Hc; try discriminate; reflexivity.
  - apply polls_get_token_decimals.
Qed.

(** The handling of the entries of one poll returns - the first exception
    ends the loop and is reported - and hands over own trades only. *)
Lemma process_entries_spec w wt entries self :
  exists logs tasks err,
    fst (process_entries w wt entries self) = Ok (logs, tasks, err) /\
    Forall (own_trade self wt) tasks.
Proof.
  revert self. induction entries as [|entry rest IH]; intros self;
    cbn [process_entries].
  - exists [], [], None. split; [reflexivity|constructor].
  - unfold bind at 1, try_except, bind at 1.
    pose proof (same_config_respected
                  (update_price_for_dex w (w_token wt) (w_stable_token wt) (w_dex_key wt))
                  ltac:(intros R ? ? ? ? ?; apply respects_update_price_for_dex;
                        assumption) self) as C1.
    destruct (update_price_for_dex w (w_token wt) (w_stable_token wt) (w_dex_key wt) self)
      as [[u|e] s1]; cbn [snd] in C1.
    2:{ unfold ret. cbn [fst]. exists [(INFO, "SWAP DETECTED")], [], (Some e).
        split; [reflexivity|constructor]. }
    unfold bind at 1.
    pose proof (same_config_respected
                  (check_and_execute_opportunity w (w_token wt) (w_stable_token wt))
                  ltac:(intros R ? ? ? ? ?; apply respects_check_and_execute;
                        assumption) s1) as C2.
    pose proof (check_and_execute_own_trade w wt s1) as Hown.
    destruct (check_and_execute_opportunity w (w_token wt) (w_stable_token wt) s1)
      as [[task|e] s2]; cbn [snd] in C2.
    2:{ unfold ret. cbn [fst]. exists [(INFO, "SWAP DETECTED")], [], (Some e).
        split; [reflexivity|constructor]. }
    unfold ret at 1. cbv beta iota. unfold bind.
    destruct (IH s2) as (logs & tasks & err & Hr & Hf).
    destruct (process_entries w wt rest s2) as [r s3]. cbn [fst] in Hr. subst r.
    unfold ret. cbn [fst].
    assert (Hf' : Forall (own_trade self wt) tasks).
    { eapply List.Forall_impl; [|exact Hf]. intros o Ho.
      apply (own_trade_same_config self s2); [|exact Ho].
      apply (same_config_trans _ s1); assumption. }
    eexists _, _, _. split; [reflexivity|].
    destruct task as [o|]; [|exact Hf'].
    constructor; [|exact Hf'].
    apply (own_trade_same_config self s1); [exact C1|]. apply (Hown o s2). reflexivity.
Qed.

Lemma grows_refl wt : grows wt wt [] [] [].
Proof. unfold grows. rewrite !app_nil_r. auto 10. Qed.

Lemma grows_trans wt1 wt2 wt3 l1 s1 t1 l2 s2 t2 :
  grows wt1 wt2 l1 s1 t1 -> grows wt2 wt3 l2 s2 t2 ->
  grows wt1 wt3 (l1 ++ l2) (s1 ++ s2) (t1 ++ t2).
Proof.
  unfold grows. intros (A1 & A2 & A3 & A4 & A5 & A6 & A7) (B1 & B2 & B3 & B4 & B5 & B6 & B7).
  rewrite B1, B2, B3, B4, B5, B6, B7, A1, A2, A3, A4, A5, A6, A7, !app_assoc. auto 10.
Qed.

Lemma grows_step_to wt ph errors logs sleeps spawned :
  grows wt (step_to ph errors logs sleeps spawned wt) logs sleeps spawned.
Proof. unfold grows, step_to. cbn. auto 10. Qed.

Lemma on_error_sleep errors :
  0 <= errors -> watcher_sleep (Z.min (5 * (errors + 1)) 60).
Proof.
  intros H. right. split; [lia|].
  destruct (Z.min_spec (5 * (errors + 1)) 60) as [[_ ->]|[_ ->]]; [|reflexivity].
  rewrite Z.mul_comm. apply Z.mod_mul. lia.
Qed.

Lemma grows_on_error wt errors spawned e :
  exists logs,
    grows wt (on_error wt errors spawned e) logs [Z.min (5 * (errors + 1)) 60] spawned /\
    consecutive_errors (on_error wt errors spawned e) = errors + 1 /\
    w_phase (on_error wt errors spawned e) = CreatingFilter.
Proof.
  unfold on_error. eexists. split; [apply grows_step_to|]. split; reflexivity.
Qed.

(** One turn of a watcher. *)
Lemma watcher_step_spec w wt self :
  exists wt' self' logs sleeps spawned,
    watcher_step w wt self = (Ok wt', self') /\
    grows wt wt' logs sleeps spawned /\
    Forall (own_trade self wt) spawned /\
    (0 <= consecutive_errors wt ->
     0 <= consecutive_errors wt' <= consecutive_errors wt + 1 /\
     Forall watcher_sleep sleeps) /\
    (polls self' <= polls self + List.length sleeps)%nat /\
    same_config self self'.
Proof.
  unfold watcher_step, bind at 1, gets.
  destruct (w_phase wt) as [|f|] eqn:Hph.
  - (* head of the outer loop *)
    destruct (negb (is_monitoring self)).
    { eexists _, _, [], [], []. unfold ret.
      split; [reflexivity|]. split; [apply grows_step_to|]. split; [constructor|].
      split; [|split; [unfold polls; cbn; lia|reflexivity]].
      intros H. cbn. split; [lia|constructor]. }
    unfold try_except, bind, remote, ret.
    destruct (new_filter_call w _ _) as [event_filter|e].
    + eexists _, _, [], [], []. split; [reflexivity|]. split; [apply grows_step_to|].
      split; [constructor|]. split; [|split; [unfold polls; cbn; lia|reflexivity]].
      intros H. cbn. split; [lia|constructor].
    + destruct (grows_on_error wt (consecutive_errors wt) [] e) as (logs & G & E & _).
      eexists _, _, logs, _, []. split; [reflexivity|]. split; [exact G|].
      split; [constructor|]. split; [|split; [unfold polls; cbn; lia|reflexivity]].
      intros H. rewrite E. split; [lia|].
      constructor; [apply on_error_sleep; exact H|constructor].
  - (* head of the inner loop *)
    destruct (negb (is_monitoring self)).
    { eexists _, _, [], [], []. unfold ret.
      split; [reflexivity|]. split; [apply grows_step_to|]. split; [constructor|].
      split; [|split; [unfold polls; cbn; lia|reflexivity]].
      intros H. cbn. split; [lia|constructor]. }
    unfold bind at 1, remote.
    destruct (get_new_entries_call w _ f) as [entries|e].
    2:{ unfold ret.
        destruct (grows_on_error wt (consecutive_errors wt) [] e) as (logs & G & E & _).
        eexists _, _, logs, _, []. split; [reflexivity|]. split; [exact G|].
        split; [constructor|]. split; [|split; [unfold polls; cbn; lia|reflexivity]].
        intros H. rewrite E. split; [lia|].
        constructor; [apply on_error_sleep; exact H|constructor]. }
    unfold bind.
    destruct (process_entries_spec w wt entries (record_call (GetNewEntries f) self))
      as (logs & tasks & err & Hr & Hown).
    pose proof (polls_respected (process_entries w wt entries)
                  ltac:(intros R ? ? ? ? ?; apply respects_process_entries; assumption)
                  (record_call (GetNewEntries f) self)) as Hpolls.
    pose proof (same_config_respected (process_entries w wt entries)
                  ltac:(intros R ? ? ? ? ?; apply respects_process_entries; assumption)
                  (record_call (GetNewEntries f) self)) as Hcfg.
    destruct (process_entries w wt entries (record_call (GetNewEntries f) self))
      as [r s1]. cbn [fst snd] in Hr, Hpolls, Hcfg. subst r.
    assert (Hown' : Forall (own_trade self wt) tasks).
    { eapply List.Forall_impl; [|exact Hown]. intros o Ho.
      apply (own_trade_same_config self (record_call (GetNewEntries f) self));
        [reflexivity|exact Ho]. }
    assert (Hp : (polls s1 <= polls self + 1)%nat).
    { rewrite Hpolls. unfold polls. cbn. lia. }
    destruct err as [e|]; unfold ret.
    + destruct (grows_on_error (step_to (Polling f) 0 logs [] [] wt) 0 tasks e)
        as (logs' & G & E & _).
      eexists _, _, (logs ++ logs'), _, tasks. split; [reflexivity|].
      split.
      { pose proof (grows_trans _ _ _ _ _ _ _ _ _
                      (grows_step_to wt (Polling f) 0 logs [] []) G) as G'.
        exact G'. }
      split; [exact Hown'|]. split; [|split; [cbn [List.length app]; lia|exact Hcfg]].
      intros H. rewrite E. split; [lia|].
      constructor; [apply (on_error_sleep 0); lia|constructor].
    + eexists _, _, logs, [2], tasks. split; [reflexivity|].
      split; [apply grows_step_to|]. split; [exact Hown'|].
      split; [|split; [cbn [List.length app]; lia|exact Hcfg]].
      intros H. cbn. split; [lia|]. constructor; [left; reflexivity|constructor].
  - (* the method has returned *)
    exists wt, self, [], [], []. unfold ret.
    split; [reflexivity|]. split; [apply grows_refl|]. split; [constructor|].
    split; [|split; [unfold polls; cbn; lia|reflexivity]]. intros H. split; [lia|constructor].
Qed.

Lemma own_trade_grows self wt wt' logs sleeps spawned o :
  grows wt wt' logs sleeps spawned -> own_trade self wt' o -> own_trade self wt o.
Proof.
  unfold grows, own_trade. intros (A1 & A2 & _). rewrite A1, A2. auto.
Qed.

(** Any number of turns of a watcher. *)
Lemma watcher_run_spec w fuel wt self :
  exists wt' self' logs sleeps spawned,
    watcher_run w fuel wt self = (Ok wt', self') /\
    grows wt wt' logs sleeps spawned /\
    Forall (own_trade self wt) spawned /\
    (0 <= consecutive_errors wt ->
     0 <= consecutive_errors wt' <= consecutive_errors wt + Z.of_nat fuel /\
     Forall watcher_sleep sleeps) /\
    (polls self' <= polls self + List.length sleeps)%nat /\
    same_config self self'.
Proof.
  revert wt self. induction fuel as [|n IH]; intros wt self.
  - exists wt, self, [], [], []. cbn [watcher_run]. unfold ret.
    split; [reflexivity|]. split; [apply grows_refl|]. split; [constructor|].
    split; [|split; [unfold polls; cbn; lia|reflexivity]]. intros H. split; [lia|constructor].
  - cbn [watcher_run]. unfold bind.
    destruct (watcher_step_spec w wt self)
      as (wt1 & s1 & l1 & sl1 & t1 & -> & G1 & O1 & B1 & P1 & C1).
    destruct (IH wt1 s1) as (wt2 & s2 & l2 & sl2 & t2 & -> & G2 & O2 & B2 & P2 & C2).
    exists wt2, s2, (l1 ++ l2), (sl1 ++ sl2), (t1 ++ t2).
    split; [reflexivity|]. split; [exact (grows_trans _ _ _ _ _ _ _ _ _ G1 G2)|].
    split.
    { apply Forall_app. split; [exact O1|].
      eapply List.Forall_impl; [|exact O2]. intros o Ho.
      apply (own_trade_grows self wt wt1 l1 sl1 t1); [exact G1|].
      apply (own_trade_same_config self s1); assumption. }
    split; [|split; [rewrite List.length_app; lia|exact (same_config_trans _ _ _ C1 C2)]].
    intros H. destruct (B1 H) as [E1 F1]. destruct (B2 ltac:(lia)) as [E2 F2].
    split; [lia|]. apply Forall_app. split; assumption.
Qed.

(** X12: the watcher survives every error.  Whatever the chain answers and
    whatever the handling of a swap raises, any number of turns of a
    watcher of a DEX that is in the DEX table returns: no exception leaves
    the two loops.  The subscription stays the same - token, stable token,
    DEX and pair address - and what the watcher logged, slept and spawned
    before is still there. *)
Theorem watcher_never_raises
    (w : World) (fuel : nat) (wt : Watcher) (self : ArbitrageMonitor) :
  listed self wt ->
  exists wt' logs sleeps spawned,
    fst (watcher_run w fuel wt self) = Ok wt' /\
    grows wt wt' logs sleeps spawned.
Proof.
  intros _.
  destruct (watcher_run_spec w fuel wt self)
    as (wt' & self' & logs & sleeps & spawned & E & G & _).
  exists wt', logs, sleeps, spawned. rewrite E. auto.
Qed.

Lemma watcher_never_raises_witness :
  exists wt' logs sleeps spawned,
    fst (watcher_run recovering_world 4 polling_watcher (Demo.monitor ∅)) = Ok wt' /\
    grows polling_watcher wt' logs sleeps spawned.
Proof.
  apply (watcher_never_raises recovering_world 4 polling_watcher (Demo.monitor ∅)).
  eexists. vm_compute. reflexivity.
Defined.



(** X14: the back-off is bounded.  A watcher of a DEX that is in the DEX
    table and that starts with a non-negative error count keeps it
    non-negative, raises it by at most one per turn, and only ever sleeps
    2 s (after a poll that went well) or a multiple of 5 s from 5 to 60 s
    (after an error). *)
Theorem watcher_backoff_is_bounded
    (w : World) (fuel : nat) (wt : Watcher) (self : ArbitrageMonitor) :
  listed self wt ->
  0 <= consecutive_errors wt ->
  exists wt' sleeps,
    fst (watcher_run w fuel wt self) = Ok wt' /\
    w_slept wt' = w_slept wt ++ sleeps /\
    Forall watcher_sleep sleeps /\
    0 <= consecutive_errors wt' <= consecutive_errors wt + Z.of_nat fuel.
Proof.
  intros _ H.
  destruct (watcher_run_spec w fuel wt self)
    as (wt' & self' & logs & sleeps & spawned & E & G & _ & B & _).
  destruct (B H) as [B1 B2].
  exists wt', sleeps. rewrite E. destruct G as (_ & _ & _ & _ & _ & G & _). auto.
Qed.

Lemma watcher_backoff_is_bounded_witness :
  exists wt' sleeps,
    fst (watcher_run expiring_world 30 polling_watcher (Demo.monitor ∅)) = Ok wt' /\
    w_slept wt' = w_slept polling_watcher ++ sleeps /\
    Forall watcher_sleep sleeps /\
    0 <= consecutive_errors wt' <= consecutive_errors polling_watcher + Z.of_nat 30.
Proof.
  apply (watcher_backoff_is_bounded expiring_world 30 polling_watcher (Demo.monitor ∅)).
  - eexists. vm_compute. reflexivity.
  - vm_compute. discriminate.
Defined.

(** X15: the watcher sleeps after every poll.  Over any number of turns
    the number of polls that a watcher of a DEX that is in the DEX table
    issues is at most the number of sleeps it takes: each turn polls at
    most once and then sleeps, 2 s or longer, before the next one. *)
Theorem watcher_sleeps_after_every_poll
    (w : World) (fuel : nat) (wt : Watcher) (self : ArbitrageMonitor) :
  listed self wt ->
  exists wt' self' sleeps,
    watcher_run w fuel wt self = (Ok wt', self') /\
    w_slept wt' = w_slept wt ++ sleeps /\
    (polls self' <= polls self + List.length sleeps)%nat /\
    (List.length sleeps <= fuel)%nat.
Proof.
  intros _. revert wt self. induction fuel as [|n IH]; intros wt self.
  - exists wt, self, []. cbn [watcher_run]. unfold ret. rewrite app_nil_r.
    repeat split; cbn; lia.
  - cbn [watcher_run]. unfold bind.
    destruct (watcher_step_spec w wt self)
      as (wt1 & s1 & l1 & sl1 & t1 & E1 & G1 & _ & _ & P1 & _).
    assert (L1 : (List.length sl1 <= 1)%nat).
    { clear - E1 G1. destruct G1 as (_ & _ & _ & _ & _ & G & _).
      revert E1 G. unfold watcher_step, bind at 1, gets.
      destruct (w_phase wt) as [|f|].
      - destruct (negb (is_monitoring self)).
        + unfold ret. intros [= <- _]. cbn [step_to w_slept]. intros G.
          apply app_inv_head in G. subst sl1. cbn. lia.
        + unfold try_except, bind, remote, ret.
          destruct (new_filter_call w _ _); intros [= <- _];
            cbn [step_to on_error w_slept]; intros G;
            apply app_inv_head in G; subst sl1; cbn; lia.
      - destruct (negb (is_monitoring self)).
        + unfold ret. intros [= <- _]. cbn [step_to w_slept]. intros G.
          apply app_inv_head in G. subst sl1. cbn. lia.
        + unfold bind at 1, remote.
          destruct (get_new_entries_call w _ f) as [entries|e].
          * unfold bind.
            destruct (process_entries w wt entries _) as [[[[logs tasks] [e|]]|e] s2];
              unfold ret; try discriminate; intros [= <- _];
              cbn [step_to on_error w_slept]; rewrite ?app_nil_r; intros G;
              apply app_inv_head in G; subst sl1; cbn; lia.
          * unfold ret. intros [= <- _]. cbn [step_to on_error w_slept]. intros G.
            apply app_inv_head in G. subst sl1. cbn. lia.
      - unfold ret. intros [= <- _] G.
        rewrite <- (app_nil_r (w_slept wt)) in G at 1.
        apply app_inv_head in G. subst sl1. cbn. lia. }
    rewrite E1.
    destruct (IH wt1 s1) as (wt2 & s2 & sl2 & -> & G2 & P2 & L2).
    exists wt2, s2, (sl1 ++ sl2). split; [reflexivity|].
    destruct G1 as (_ & _ & _ & _ & _ & G1 & _).
    rewrite G2, G1, app_assoc, List.length_app. repeat split; lia.
Qed.

Lemma watcher_sleeps_after_every_poll_witness :
  exists wt' self' sleeps,
    watcher_run recovering_world 4 polling_watcher (Demo.monitor ∅) = (Ok wt', self') /\
    w_slept wt' = w_slept polling_watcher ++ sleeps /\
    (polls self' <= polls (Demo.monitor ∅) + List.length sleeps)%nat /\
    (List.length sleeps <= 4)%nat.
Proof.
  apply (watcher_sleeps_after_every_poll recovering_world 4 polling_watcher
           (Demo.monitor ∅)).
  eexists. vm_compute. reflexivity.
Defined.

(** X16: stopping.  With monitoring switched off, a watcher at the head of
    either loop returns at its next turn without asking the chain anything
    and without logging, sleeping or spawning; and a watcher that has
    returned stays so for good, even if monitoring is switched on again. *)
Theorem watcher_stops_when_monitoring_is_off
    (w : World) (fuel : nat) (wt : Watcher) (self : ArbitrageMonitor) :
  (is_monitoring self = false ->
   exists wt',
     watcher_run w (S fuel) wt self = (Ok wt', self) /\
     w_phase wt' = Stopped /\ grows wt wt' [] [] [] /\
     consecutive_errors wt' = consecutive_errors wt) /\
  (w_phase wt = Stopped -> watcher_run w fuel wt self = (Ok wt, self)).
Proof.
  assert (Hterm : forall n wt0 s, w_phase wt0 = Stopped ->
                                  watcher_run w n wt0 s = (Ok wt0, s)).
  { induction n as [|n IH]; intros wt0 s Hp; [reflexivity|].
    cbn [watcher_run]. unfold bind, watcher_step at 1, bind, gets. rewrite Hp.
    unfold ret. apply IH. exact Hp. }
  split; [|apply Hterm].
  intros Hoff. cbn [watcher_run]. unfold bind, watcher_step at 1, bind, gets.
  rewrite Hoff. cbn [negb].
  destruct (w_phase wt) eqn:Hp; unfold ret.
  - eexists. split; [apply Hterm; reflexivity|].
    split; [reflexivity|]. split; [apply grows_step_to|reflexivity].
  - eexists. split; [apply Hterm; reflexivity|].
    split; [reflexivity|]. split; [apply grows_step_to|reflexivity].
  - exists wt. split; [apply Hterm; exact Hp|].
    split; [exact Hp|]. split; [apply grows_refl|reflexivity].
Qed.

(** X17: no pool, no subscription.  Subscribing with a stable-token symbol
    that is not in the table raises [KeyError] before anything is asked.
    When the pair locator finds no pool - unknown DEX, a failed call, the
    zero address - or the answer is the empty string, the subscription
    returns at once: its watcher has stopped, and no later turn creates a
    filter, polls, or changes the monitor. *)
Theorem no_pool_no_subscription
    (w : World) (token : Token) (st dex : string) (self : ArbitrageMonitor) :
  (stable_tokens self !! st = None ->
   subscribe_to_swap w token st dex self = (Raise (KeyError st), self)) /\
  (forall stable,
      stable_tokens self !! st = Some stable ->
      (fst (get_pair_address w (address token) stable dex self) = Ok None \/
       fst (get_pair_address w (address token) stable dex self) = Ok (Some "")) ->
      exists wt,
        subscribe_to_swap w token st dex self
        = (Ok wt, snd (get_pair_address w (address token) stable dex self)) /\
        w_phase wt = Stopped /\
        forall w' fuel s, watcher_run w' fuel wt s = (Ok wt, s)).
Proof.
  assert (Hterm : forall w' n wt0 s, w_phase wt0 = Stopped ->
                                     watcher_run w' n wt0 s = (Ok wt0, s)).
  { intros w'. induction n as [|n IH]; intros wt0 s Hp; [reflexivity|].
    cbn [watcher_run]. unfold bind, watcher_step at 1, bind, gets. rewrite Hp.
    unfold ret. apply IH. exact Hp. }
  split.
  - intros Hs. unfold subscribe_to_swap, bind, gets, lift, getitem. rewrite Hs.
    reflexivity.
  - intros stable Hs Hpair.
    unfold subscribe_to_swap, bind, gets, lift, getitem. rewrite Hs.
    destruct (get_pair_address w (address token) stable dex self) as [r s1].
    cbn [fst snd] in *.
    destruct Hpair as [->| ->]; unfold ret; eexists;
      (split; [reflexivity|]); (split; [reflexivity|]);
      intros w' n s; apply Hterm; reflexivity.
Qed.

(** ** The steps of a trade *)

(** X18: a trade runs through its steps in order and stops at the first that
    fails.  The chain requests of an invocation running alone are an
    initial part of: nonce, gas price, build, sign, send, receipt, 60 s
    pause - each at most once, nothing sent that was not built and signed
    before.  When the call parameters cannot be put together, nothing is
    asked of the chain at all; and the steps are complete exactly when a
    receipt came back. *)
Theorem trade_steps_run_in_order
    (w : World) (self : ArbitrageMonitor) (opp : ArbitrageOpportunity) :
  let h := history (run_alone w (execute_arbitrage w self opp)) in
  chain_steps h `prefix_of` pipeline /\
  ((exists e, params_tuple w self opp = Raise e) -> chain_steps h = []) /\
  (chain_steps h = pipeline <-> count is_receipt h = 1%nat).
Proof.
  all_outcomes;
    (split; [eexists; reflexivity|]);
    (split; [first [reflexivity | intros [? [=]]]|]);
    (split; [first [reflexivity | discriminate]|first [reflexivity | discriminate]]).
Qed.

(** X19: each step of a trade uses what the steps before it answered: the
    transaction is built for the monitor's account with a gas limit of
    800000 and with the nonce and the gas price just fetched; what the node
    built is signed with the monitor's key; the signed bytes are what is
    sent; the receipt is awaited for the hash that sending returned, for
    300 s; and the only sleep is the 60 s pause. *)
Theorem trade_steps_pass_on_their_answers
    (w : World) (self : ArbitrageMonitor) (opp : ArbitrageOpportunity) :
  flows self None None None None None
        (exchanges (history (run_alone w (execute_arbitrage w self opp)))).
Proof. all_outcomes; cbn; auto 20. Qed.

(** ** Requests are made inside the critical section *)

Lemma bracketed_cfinally_release (body : coro unit) :
  quiet body -> bracketed (cfinally body release).
Proof.
  induction 1; cbn [cfinally cbind release].
  - constructor. intros [[]|x]; constructor.
  - constructor. intros [[]|x]; constructor.
  - constructor. auto.
Qed.

Lemma execute_arbitrage_bracketing w self opp :
  bracketing (execute_arbitrage w self opp).
Proof.
  unfold execute_arbitrage, acquire. cbn [cbind]. constructor. cbn [negb].
  apply bracketed_cfinally_release.
  apply quiet_ctry; [|intros e; apply quiet_perform_return].
  repeat first
    [ apply quiet_cbind; [|intros ?]
    | apply quiet_perform_return | apply quiet_call | apply quiet_clift
    | match goal with |- quiet (if ?b then _ else _) => destruct b end ].
Qed.

Lemma own_events_app tid h1 h2 :
  own_events tid (h1 ++ h2) = own_events tid h1 ++ own_events tid h2.
Proof. unfold own_events. rewrite List.filter_app, map_app. reflexivity. Qed.

Lemma own_events_other tid i evs :
  i <> tid -> Forall (fun ev : nat * event => fst ev = tid) evs -> own_events i evs = [].
Proof.
  intros Hne H. induction H as [|ev evs Hev _ IH]; [reflexivity|].
  unfold own_events in *. cbn [List.filter]. rewrite Hev.
  destruct (Nat.eqb_spec tid i) as [->|_]; [contradiction|exact IH].
Qed.

Lemma own_events_one tid (e : event) : own_events tid [(tid, e)] = [e].
Proof. unfold own_events. cbn. rewrite Nat.eqb_refl. reflexivity. Qed.

Lemma standing_of_app a b : standing_of (a ++ b) = fold_left stand b (standing_of a).
Proof. unfold standing_of. apply fold_left_app. Qed.

(** A turn inside the critical section. *)
Lemma advance_bracketed w tid (c : coro unit) :
  bracketed c ->
  forall lk hist,
    standing_of (own_events tid hist) = Inside ->
    exists t lk' evs,
      advance w tid c lk hist = (t, lk', hist ++ evs) /\
      Forall (fun ev : nat * event => fst ev = tid) evs /\
      task_standing (Some t) (standing_of (own_events tid (hist ++ evs))).
Proof.
  induction 1 as [k Hk|R e k Hk IH]; intros lk hist Hin; cbn [advance].
  - destruct (locked lk).
    + assert (Hs : standing_of (own_events tid (hist ++ [(tid, Released)])) = Left).
      { rewrite own_events_app, standing_of_app, Hin, own_events_one. reflexivity. }
      destruct (Hk (Ok tt)); cbn [advance]; eexists _, _, [(tid, Released)];
        (split; [reflexivity|]);
        (split; [constructor; [reflexivity|constructor]|]);
        right; exact Hs.
    + destruct (Hk (Raise (RuntimeError "Lock is not acquired."))); cbn [advance];
        eexists _, _, []; rewrite app_nil_r;
        (split; [reflexivity|]); (split; [constructor|]); left; exact Hin.
  - destruct (awaited e).
    + eexists _, _, []. rewrite app_nil_r. split; [reflexivity|].
      split; [constructor|]. split; [exact Hk|exact Hin].
    + set (r := io_answer w (List.length hist) e).
      destruct (IH r lk (hist ++ [(tid, Did e r)])) as (t & lk' & evs & Hadv & Hevs & Hst).
      { rewrite own_events_app, standing_of_app, Hin, own_events_one. reflexivity. }
      exists t, lk', ((tid, Did e r) :: evs).
      rewrite Hadv, <- app_assoc. split; [reflexivity|].
      split; [constructor; [reflexivity|exact Hevs]|].
      rewrite <- app_assoc in Hst. exact Hst.
Qed.

Lemma task_standing_other (l : Loop) lk tid t evs i :
  i <> tid ->
  Forall (fun ev : nat * event => fst ev = tid) evs ->
  task_standing (tasks l !! i) (standing_of (own_events i (history l))) ->
  task_standing
    (tasks {| trade_lock := lk; tasks := set_task tid t (tasks l);
              history := history l ++ evs |} !! i)
    (standing_of (own_events i (history l ++ evs))).
Proof.
  intros Hne Hevs H. cbn [tasks history]. unfold set_task.
  rewrite list_lookup_insert_ne by auto.
  rewrite own_events_app, (own_events_other tid i evs Hne Hevs), app_nil_r. exact H.
Qed.

Lemma resume_standing w tid l : loop_standing l -> loop_standing (resume w tid l).
Proof.
  intros Hinv. unfold resume.
  destruct (tasks l !! tid) as [[c|R e k|k|r]|] eqn:Ht; try exact Hinv.
  - (* the task starts *)
    pose proof (Hinv tid) as Hme. rewrite Ht in Hme. cbn [task_standing] in Hme.
    destruct Hme as [Hc Hs]. destruct Hc as [k Hk]. cbn [advance].
    destruct (locked (trade_lock l)) eqn:Hl; [|destruct (waiters (trade_lock l)) eqn:Hw].
    + intros i. destruct (decide (i = tid)) as [->|Hne].
      * cbn [tasks history]. unfold set_task.
        rewrite list_lookup_insert_eq by (apply lookup_lt_is_Some; eauto).
        cbn [task_standing]. split; [exact Hk|].
        rewrite own_events_app, standing_of_app, Hs, own_events_one. reflexivity.
      * apply task_standing_other; [exact Hne| |apply Hinv].
        constructor; [reflexivity|constructor].
    + destruct (advance_bracketed w tid (k true) Hk {| locked := true; waiters := [] |}
                  (history l ++ [(tid, Acquired)])) as (t & lk' & evs & Hadv & Hevs & Hst).
      { rewrite own_events_app, standing_of_app, Hs, own_events_one. reflexivity. }
      rewrite Hadv. intros i. destruct (decide (i = tid)) as [->|Hne].
      * cbn [tasks history]. unfold set_task.
        rewrite list_lookup_insert_eq by (apply lookup_lt_is_Some; eauto).
        exact Hst.
      * rewrite <- app_assoc. apply task_standing_other; [exact Hne| |apply Hinv].
        constructor; [reflexivity|exact Hevs].
    + intros i. destruct (decide (i = tid)) as [->|Hne].
      * cbn [tasks history]. unfold set_task.
        rewrite list_lookup_insert_eq by (apply lookup_lt_is_Some; eauto).
        cbn [task_standing]. split; [exact Hk|].
        rewrite own_events_app, standing_of_app, Hs, own_events_one. reflexivity.
      * apply task_standing_other; [exact Hne| |apply Hinv].
        constructor; [reflexivity|constructor].
  - (* the awaited request is answered *)
    pose proof (Hinv tid) as Hme. rewrite Ht in Hme. cbn [task_standing] in Hme.
    destruct Hme as [Hk Hs].
    set (r := io_answer w (List.length (history l)) e).
    destruct (advance_bracketed w tid (k r) (Hk r) (trade_lock l)
                (history l ++ [(tid, Did e r)])) as (t & lk' & evs & Hadv & Hevs & Hst).
    { rewrite own_events_app, standing_of_app, Hs, own_events_one. reflexivity. }
    rewrite Hadv. intros i. destruct (decide (i = tid)) as [->|Hne].
    + cbn [tasks history]. unfold set_task.
      rewrite list_lookup_insert_eq by (apply lookup_lt_is_Some; eauto).
      exact Hst.
    + rewrite <- app_assoc. apply task_standing_other; [exact Hne| |apply Hinv].
      constructor; [reflexivity|exact Hevs].
  - (* the task waits for the lock *)
    destruct (woken tid (waiters (trade_lock l))); [|exact Hinv].
    pose proof (Hinv tid) as Hme. rewrite Ht in Hme. cbn [task_standing] in Hme.
    destruct Hme as [Hk Hs].
    destruct (advance_bracketed w tid (k true) Hk
                {| locked := true; waiters := leave_queue tid (waiters (trade_lock l)) |}
                (history l ++ [(tid, Acquired)])) as (t & lk' & evs & Hadv & Hevs & Hst).
    { rewrite own_events_app, standing_of_app, Hs, own_events_one. reflexivity. }
    rewrite Hadv. intros i. destruct (decide (i = tid)) as [->|Hne].
    + cbn [tasks history]. unfold set_task.
      rewrite list_lookup_insert_eq by (apply lookup_lt_is_Some; eauto).
      exact Hst.
    + rewrite <- app_assoc. apply task_standing_other; [exact Hne| |apply Hinv].
      constructor; [reflexivity|exact Hevs].
Qed.

Lemma schedule_standing w tids l : loop_standing l -> loop_standing (schedule w tids l).
Proof.
  revert l. induction tids as [|tid rest IH]; intros l H; [exact H|].
  cbn [schedule fold_left]. apply IH, resume_standing, H.
Qed.

Lemma fresh_loop_standing (cs : list (coro unit)) :
  Forall bracketing cs -> loop_standing (fresh_loop cs).
Proof.
  intros Hcs i. cbn [fresh_loop tasks history]. rewrite list_lookup_fmap.
  destruct (cs !! i) as [c|] eqn:Ec; cbn; [|reflexivity].
  split; [|reflexivity].
  rewrite Forall_forall in Hcs. apply Hcs. apply list_elem_of_lookup. eauto.
Qed.

(** X20: every request is made inside the critical section.  However many
    opportunities are handed to [execute_arbitrage] and however the loop
    interleaves the tasks, what a task writes into the history is, in this
    order: at most one wait in the lock's queue, one acquisition, its
    requests, one release, and nothing after - so no chain call, log line
    or sleep of a trade happens before the task has the lock or after it
    gave it up, and a task in the middle of an awaited request is inside. *)
Theorem requests_only_inside_the_lock
    (w : World) (self : ArbitrageMonitor)
    (opps : list ArbitrageOpportunity) (tids : list nat) (i : nat) :
  let l := schedule w tids (fresh_loop (map (execute_arbitrage w self) opps)) in
  let s := standing_of (own_events i (history l)) in
  s <> Astray /\
  (forall t, tasks l !! i = Some t -> state_of t = IsSuspended -> s = Inside) /\
  (forall t, tasks l !! i = Some t -> state_of t = IsWaitingLock -> s = InQueue) /\
  (forall t, tasks l !! i = Some t -> state_of t = IsCreated -> s = Outside).
Proof.
  cbv zeta.
  pose proof (schedule_standing w tids _
                (fresh_loop_standing (map (execute_arbitrage w self) opps)
                   ltac:(apply Forall_map, Forall_forall; intros;
                         apply execute_arbitrage_bracketing)) i) as H.
  destruct (tasks _ !! i) as [[c|R e k|k|r]|]; cbn [task_standing] in H.
  - destruct H as [_ ->].
    split; [discriminate|]. split; [|split]; intros t [= <-]; try discriminate;
      reflexivity.
  - destruct H as [_ ->].
    split; [discriminate|]. split; [|split]; intros t [= <-]; try discriminate;
      reflexivity.
  - destruct H as [_ ->].
    split; [discriminate|]. split; [|split]; intros t [= <-]; try discriminate;
      reflexivity.
  - split; [destruct H as [-> | ->]; discriminate|].
    split; [|split]; intros t [= <-]; discriminate.
  - rewrite H. split; [discriminate|]. split; [|split]; discriminate.
Qed.

(** ** The set-up dialogue *)

Lemma pick_skip {A} (items : list A) (indices : list Z) i :
  i < 0 \/ Z.of_nat (List.length items) <= i ->
  pick items (i :: indices) = pick items indices.
Proof.
  intros Hi. cbn [pick].
  destruct (Z.leb_spec 0 i); cbn [andb]; [|reflexivity].
  destruct (Z.ltb_spec i (Z.of_nat (List.length items))); [lia|reflexivity].
Qed.

Lemma pick_take {A} (items : list A) (indices : list Z) i :
  0 <= i < Z.of_nat (List.length items) ->
  exists item,
    items !! Z.to_nat i = Some item /\
    pick items (i :: indices)
    = match pick items indices with
      | Ok chosen => Ok (item :: chosen)
      | Raise e => Raise e
      end.
Proof.
  intros Hi. cbn [pick].
  destruct (Z.leb_spec 0 i); [|lia]. cbn [andb].
  destruct (Z.ltb_spec i (Z.of_nat (List.length items))); [|lia].
  destruct (items !! Z.to_nat i) as [item|] eqn:E; [eauto|].
  apply lookup_ge_None in E. lia.
Qed.

Lemma pick_from {A} (items : list A) (indices : list Z) :
  exists chosen, pick items indices = Ok chosen /\ Forall (fun x => In x items) chosen.
Proof.
  induction indices as [|i rest (chosen & IH & Hin)]; [exists []; split; [reflexivity|constructor]|].
  destruct (Z_lt_le_dec i 0) as [Hneg|Hpos];
    [rewrite pick_skip by lia; eauto|].
  destruct (Z_lt_le_dec i (Z.of_nat (List.length items))) as [Hlt|Hge];
    [|rewrite pick_skip by lia; eauto].
  destruct (pick_take items rest i ltac:(lia)) as (item & E & ->).
  rewrite IH. exists (item :: chosen). split; [reflexivity|].
  constructor; [|exact Hin].
  apply list_elem_of_lookup_2 in E. apply list_elem_of_In. exact E.
Qed.

Lemma indices_of_raises max pieces e :
  indices_of max pieces = Raise e -> is_bad_input e = true.
Proof.
  induction pieces as [|x rest IH]; cbn [indices_of]; [discriminate|].
  destruct (PyStr.strip x); [exact IH|].
  destruct (PyStr.int_of_stripped max _); [|intros [= <-]; reflexivity].
  destruct (indices_of max rest); [discriminate|].
  intros [= <-]. apply IH. reflexivity.
Qed.

(** What the [try] body of a dialogue comes to: the chosen items, all of
    them items of the list, or an exception that the handler catches. *)
Lemma chosen_of_cases {A} max (items : list A) selection :
  (exists chosen, chosen_of max items selection = Ok chosen /\
                  Forall (fun x => In x items) chosen) \/
  (exists e, chosen_of max items selection = Raise e /\ is_bad_input e = true).
Proof.
  unfold chosen_of.
  destruct (indices_of max (PyStr.split "," selection)) as [indices|e] eqn:E.
  - left. apply pick_from.
  - right. exists e. split; [reflexivity|]. exact (indices_of_raises _ _ _ E).
Qed.

Lemma select_dexes_spec
    (max_str_digits : nat) (dex_keys lines : list string) :
  let '(r, printed, unread) := select_dexes max_str_digits dex_keys lines in
  exists read,
    lines = read ++ unread /\
    match r with
    | Ok chosen =>
        (2 <= List.length chosen)%nat /\
        Forall (fun key => In key dex_keys) chosen /\
        List.length read = S (List.length printed)
    | Raise e =>
        e = EOFError /\ unread = [] /\ List.length printed = List.length lines
    end.
Proof.
  induction lines as [|line rest IH]; cbn [select_dexes].
  - exists []. split; [reflexivity|]. auto.
  - destruct (select_dexes max_str_digits dex_keys rest) as [[r printed] unread].
    destruct IH as (read & Hread & IH).
    assert (Hagain : forall complaint : string,
               exists read0,
                 line :: rest = read0 ++ unread /\
                 match r with
                 | Ok chosen =>
                     (2 <= List.length chosen)%nat /\
                     Forall (fun key => In key dex_keys) chosen /\
                     List.length read0 = S (List.length (complaint :: printed))
                 | Raise e =>
                     e = EOFError /\ unread = [] /\
                     List.length (complaint :: printed) = List.length (line :: rest)
                 end).
    { intros complaint. exists (line :: read). split; [rewrite Hread; reflexivity|].
      destruct r as [chosen|e].
      - destruct IH as (H1 & H2 & H3). cbn [List.length]. auto.
      - destruct IH as (H1 & H2 & H3). cbn [List.length]. auto. }
    destruct (chosen_of_cases max_str_digits dex_keys (PyStr.strip line))
      as [(chosen & -> & Hin)|(e & -> & ->)].
    + destruct (Nat.leb_spec 2 (List.length chosen)) as [H2|H2]; [|apply Hagain].
      exists [line]. split; [reflexivity|]. auto.
    + apply Hagain.
Qed.

(** X22: the DEX selection ends in one of two ways.  Either a line was
    accepted: then at least two keys were chosen, each a key of the DEX
    table, and every line read before was answered by a complaint.  Or the
    input ran out and [EOFError] is raised, with a complaint for every
    line.  Nothing else is ever raised. *)
Theorem dex_selection_takes_two_known_keys
    (max_str_digits : nat) (dex_keys lines : list string) :
  let '(r, printed, unread) := select_dexes max_str_digits dex_keys lines in
  exists read,
    lines = read ++ unread /\
    match r with
    | Ok chosen =>
        (2 <= List.length chosen)%nat /\
        Forall (fun key => In key dex_keys) chosen /\
        List.length read = S (List.length printed)
    | Raise e =>
        e = EOFError /\ unread = [] /\ List.length printed = List.length lines
    end.
Proof. apply select_dexes_spec. Qed.

(** Numbers out of range are ignored, not refused.  Picking by position
    never raises [IndexError] and yields items of the list only.  A position
    below 1 or beyond the list is skipped - 0 and negative numbers do not
    count from the end - and a position inside the list contributes the
    item at that place, in the order and as often as it is named. *)
Lemma selection_skips_numbers_out_of_range
    (A : Type) (items : list A) (indices : list Z) :
  (exists chosen, pick items indices = Ok chosen /\
                  Forall (fun x => In x items) chosen) /\
  (forall i, (i < 0 \/ Z.of_nat (List.length items) <= i) ->
             pick items (i :: indices) = pick items indices) /\
  (forall i, 0 <= i < Z.of_nat (List.length items) ->
             exists item,
               items !! Z.to_nat i = Some item /\
               pick items (i :: indices)
               = match pick items indices with
                 | Ok chosen => Ok (item :: chosen)
                 | Raise e => Raise e
                 end).
Proof.
  split; [apply pick_from|]. split; [apply pick_skip|apply pick_take].
Qed.

(** X23: naming one DEX twice passes the selection.  The line [1,1] is
    accepted: the first DEX is chosen twice, which counts as two.  With a
    selection that names one DEX only, however often, the evaluator never
    reports an opportunity, whatever prices are cached: it needs two
    different DEXes. *)
Theorem same_dex_twice_passes_selection
    (max_str_digits : nat) (key : string) (keys rest : list string)
    (w : World) (self : ArbitrageMonitor) (token : Token) (st : string) :
  select_dexes max_str_digits (key :: keys) ("1,1" :: rest) = (Ok [key; key], [], rest) /\
  forall chosen,
    Forall (fun k => k = key) chosen ->
    check_and_execute_opportunity w token st (set_selected_dexes chosen self)
    = (Ok None, set_selected_dexes chosen self).
Proof.
  split.
  - cbn [select_dexes]. unfold chosen_of.
    change (PyStr.split "," (PyStr.strip "1,1")) with ["1"; "1"].
    cbn [indices_of]. change (PyStr.strip "1") with "1".
    assert (E : PyStr.int_of_stripped max_str_digits "1" = Some 1).
    { unfold PyStr.int_of_stripped. cbn [PyStr.digits].
      change (Ascii.eqb "1" "_") with false. cbv iota.
      change (PyStr.digit_of "1") with (Some 1). cbv iota.
      change (PyStr.digits (10 * 0 + 1) 1 true "") with (Some (1, 1%nat)).
      cbv iota beta.
      destruct max_str_digits as [|[|n]]; reflexivity. }
    cbv beta iota. rewrite E. cbv beta iota. change (1 - 1) with 0.
    cbn [pick List.length].
    change (0 <=? 0) with true.
    replace (0 <? Z.of_nat (S (List.length keys))) with true
      by (symmetry; apply Z.ltb_lt; lia).
    cbn [andb Z.to_nat]. reflexivity.
  - intros chosen Hall.
    rewrite check_and_execute_unfold. rewrite price_spread_needs_two; [reflexivity|].
    cbn [selected_dexes set_selected_dexes]. rewrite List.Forall_forall in Hall.
    intros d1 p1 d2 p2 H1 H2 _ _. rewrite (Hall d1 H1), (Hall d2 H2). reflexivity.
Qed.

Lemma present_scraped_tokens_spec
    (max_str_digits : nat) (scraped : result (list Token)) (lines : list string) :
  ((forall records, scraped = Ok records -> records = []) ->
   present_scraped_tokens max_str_digits scraped lines = (Ok None, [], lines)) /\
  (forall records line rest,
      scraped = Ok records -> records <> [] ->
      Py.lower (PyStr.strip line) = "all" ->
      present_scraped_tokens max_str_digits scraped (line :: rest)
      = (Ok (Some records), [], rest)) /\
  (forall records, scraped = Ok records ->
   let '(r, printed, unread) := present_scraped_tokens max_str_digits scraped lines in
   exists read,
     lines = read ++ unread /\
     match r with
     | Ok None => records = []
     | Ok (Some tokens) =>
         tokens <> [] /\ Forall (fun t => In t records) tokens /\
         List.length read = S (List.length printed)
     | Raise e =>
         e = EOFError /\ unread = [] /\ List.length printed = List.length lines
     end).
Proof.
  split; [|split].
  - intros Hnone. unfold present_scraped_tokens.
    destruct scraped as [records|e]; [|reflexivity].
    rewrite (Hnone records eq_refl). reflexivity.
  - intros records line rest -> Hne Hall. unfold present_scraped_tokens.
    destruct records as [|t records]; [contradiction|].
    cbn [select_tokens]. rewrite Hall. reflexivity.
  - intros records ->. unfold present_scraped_tokens.
    destruct records as [|t0 records0]; [exists []; split; reflexivity|].
    set (records := t0 :: records0).
    assert (Hrec : records <> []) by discriminate.
    clearbody records. clear t0 records0.
    induction lines as [|line rest IH]; cbn [select_tokens].
    + exists []. split; [reflexivity|]. auto.
    + destruct (select_tokens max_str_digits records rest) as [[r printed] unread].
      destruct IH as (read & Hread & IH).
      assert (Hagain : forall complaint : string,
                 exists read0,
                   line :: rest = read0 ++ unread /\
                   match match r with
                         | Ok tokens => Ok (Some tokens)
                         | Raise e => Raise e
                         end with
                   | Ok None => records = []
                   | Ok (Some tokens) =>
                       tokens <> [] /\ Forall (fun t => In t records) tokens /\
                       List.length read0 = S (List.length (complaint :: printed))
                   | Raise e =>
                       e = EOFError /\ unread = [] /\
                       List.length (complaint :: printed) = List.length (line :: rest)
                   end).
      { intros complaint. exists (line :: read). split; [rewrite Hread; reflexivity|].
        destruct r as [tokens|e].
        - destruct IH as (H1 & H2 & H3). cbn [List.length]. auto.
        - destruct IH as (H1 & H2 & H3). cbn [List.length]. auto. }
      destruct (String.eqb (Py.lower (PyStr.strip line)) "all").
      { exists [line]. split; [reflexivity|]. split; [exact Hrec|].
        split; [|reflexivity].
        apply Forall_forall. intros t Ht. apply list_elem_of_In. exact Ht. }
      destruct (chosen_of_cases max_str_digits records (PyStr.strip line))
        as [(chosen & -> & Hin)|(e & -> & ->)].
      * destruct chosen as [|t chosen]; [apply Hagain|].
        exists [line]. split; [reflexivity|]. split; [discriminate|]. auto.
      * apply Hagain.
Qed.

(** X24: the token selection.  When the scraper raises or returns no records
    the method returns [False] and reads no input.  Otherwise it ends with
    a non-empty list of tokens, each one of the records, or with
    [EOFError] when the input runs out; and the
    answer [all], in any letter case and with blanks around it, selects
    every record. *)
Theorem token_selection_takes_scraped_records
    (max_str_digits : nat) (scraped : result (list Token)) (lines : list string) :
  ((forall records, scraped = Ok records -> records = []) ->
   present_scraped_tokens max_str_digits scraped lines = (Ok None, [], lines)) /\
  (forall records line rest,
      scraped = Ok records -> records <> [] ->
      Py.lower (PyStr.strip line) = "all" ->
      present_scraped_tokens max_str_digits scraped (line :: rest)
      = (Ok (Some records), [], rest)) /\
  (forall records, scraped = Ok records ->
   let '(r, printed, unread) := present_scraped_tokens max_str_digits scraped lines in
   exists read,
     lines = read ++ unread /\
     match r with
     | Ok None => records = []
     | Ok (Some tokens) =>
         tokens <> [] /\ Forall (fun t => In t records) tokens /\
         List.length read = S (List.length printed)
     | Raise e =>
         e = EOFError /\ unread = [] /\ List.length printed = List.length lines
     end).
Proof. apply present_scraped_tokens_spec. Qed.

(** ** Construction and start-up *)

Lemma missing_config_nil r p c :
  missing_config r p c = [] <-> falsy r = false /\ falsy p = false /\ falsy c = false.
Proof.
  unfold missing_config. destruct (falsy r), (falsy p), (falsy c); cbn;
    split; try discriminate; try tauto; intros (H1 & H2 & H3); discriminate.
Qed.

(** X25: the settings [main] found missing are reported, all of them, and
    nothing else is done; and when none is missing the constructor's own
    three checks pass, so that it can only fail for a node that is not
    connected, a key that gives no account, or a contract address that has
    no checksum form. *)
Theorem main_reports_every_missing_setting
    (w : World) (connected : bool) (from_key : string -> result string)
    (max_str_digits : nat) (url key addr : option string)
    (scraped : result (list Token)) (lines : list string) :
  let missing := missing_config url key addr in
  (forall name,
      In name missing <->
      (name = "RPC_URL" /\ falsy url = true) \/
      (name = "PRIVATE_KEY" /\ falsy key = true) \/
      (name = "CONTRACT_ADDRESS" /\ falsy addr = true)) /\
  (missing <> [] ->
   main w connected from_key max_str_digits url key addr scraped lines
   = MissingConfiguration missing) /\
  (missing = [] ->
   forall e,
     init w connected from_key url key addr = Raise e ->
     (connected = false /\
      e = Exception "ConnectionError" "Failed to connect to the RPC provider.") \/
     from_key (default "" key) = Raise e \/
     to_checksum_address w (default "" addr) = Raise e).
Proof.
  cbv zeta. split; [|split].
  - intros name. unfold missing_config.
    destruct (falsy url), (falsy key), (falsy addr);
      cbn [app In]; split; intros H;
      repeat match goal with
             | H : _ \/ _ |- _ => destruct H
             | H : _ /\ _ |- _ => destruct H
             | H : False |- _ => destruct H
             end; subst; try discriminate; auto 10.
  - intros Hne. unfold main.
    destruct (missing_config url key addr); [contradiction|reflexivity].
  - intros Hnil e. apply missing_config_nil in Hnil. destruct Hnil as (H1 & H2 & H3).
    unfold init. rewrite H1, H2, H3.
    destruct connected; cbn [negb]; [|intros [= <-]; auto].
    unfold rbind.
    destruct (from_key (default "" key)); [|intros [= <-]; auto].
    destruct (to_checksum_address w (default "" addr));
      [discriminate|intros [= <-]; auto].
Qed.

Lemma dex_keys_of_init_known key :
  In key dex_keys_of_init -> exists info, dexes_of_init !! key = Some info.
Proof.
  intros [<-|[<-|[<-|[<-|[]]]]]; eexists; vm_compute; reflexivity.
Qed.

Lemma display_status_known (self : ArbitrageMonitor) (selected : list string) :
  Forall (fun key => is_Some (dexes self !! key)) selected ->
  exists names, display_status self selected = Ok names.
Proof.
  induction 1 as [|key rest [info Hk] _ [names IH]]; cbn [display_status]; [eauto|].
  unfold rbind, getitem. rewrite Hk, IH. eauto.
Qed.

(** A monitor as [__init__] leaves it, but for the DEX selection. *)
Lemma init_fresh w connected from_key url key addr bot :
  init w connected from_key url key addr = Ok bot ->
  falsy url = false /\ falsy key = false /\ falsy addr = false /\
  connected = true /\
  from_key (default "" key) = Ok (account bot) /\
  to_checksum_address w (default "" addr) = Ok (contract_address bot) /\
  private_key bot = default "" key /\
  dexes bot = dexes_of_init /\
  stable_tokens bot = {[ "USDC" := "0x833589fCD6eDb6E08f4c7C32D4f71b54bdA02913" ]} /\
  selected_dexes bot = [] /\ is_monitoring bot = false /\
  price_cache bot = ∅ /\ _decimals_cache bot = ∅ /\
  min_profit_threshold bot = 10 /\ max_flash_loan_amount bot = 5000 /\
  rpc_calls bot = [].
Proof.
  unfold init.
  destruct (falsy url); [discriminate|].
  destruct (falsy key); [discriminate|].
  destruct (falsy addr); [discriminate|].
  destruct connected; [|discriminate]. cbn [negb]. unfold rbind.
  destruct (from_key (default "" key)) as [a|]; [|discriminate].
  destruct (to_checksum_address w (default "" addr)) as [c|]; [|discriminate].
  intros [= <-]. cbn. auto 20.
Qed.

(** What [main] hands to [monitor_opportunities]. *)
Lemma main_monitoring
    (w : World) (connected : bool) (from_key : string -> result string)
    (max_str_digits : nat) (url key addr : option string)
    (scraped : result (list Token)) (lines : list string)
    (bot : ArbitrageMonitor) (selected_tokens : list Token) :
  main w connected from_key max_str_digits url key addr scraped lines
  = Monitoring bot selected_tokens ->
  exists fresh records,
    init w connected from_key url key addr = Ok fresh /\
    bot = set_selected_dexes (selected_dexes bot) fresh /\
    (2 <= List.length (selected_dexes bot))%nat /\
    Forall (fun k => In k dex_keys_of_init) (selected_dexes bot) /\
    scraped = Ok records /\
    selected_tokens <> [] /\
    Forall (fun t => In t records) selected_tokens /\
    exists line, In line lines /\ Py.lower (PyStr.strip line) = "y".
Proof.
  unfold main.
  destruct (missing_config url key addr); [|discriminate].
  unfold rbind at 1.
  destruct (init w connected from_key url key addr) as [fresh|e] eqn:Hinit;
    [|discriminate].
  destruct scraped as [records|e].
  2:{ cbn. discriminate. }
  pose proof (present_scraped_tokens_spec max_str_digits (Ok records) lines) as (_ & _ & Hp).
  specialize (Hp records eq_refl).
  destruct (present_scraped_tokens max_str_digits (Ok records) lines)
    as [[rt printed1] lines1].
  destruct Hp as (read1 & Hread1 & Hp).
  destruct rt as [[tokens|]|e]; cbn [rbind]; [| discriminate | discriminate].
  destruct Hp as (Hne & Hin & _).
  pose proof (select_dexes_spec max_str_digits dex_keys_of_init lines1) as Hs.
  destruct (select_dexes max_str_digits dex_keys_of_init lines1)
    as [[rc printed2] lines2].
  destruct Hs as (read2 & Hread2 & Hs).
  destruct rc as [chosen|e]; cbn [rbind]; [|discriminate].
  destruct Hs as (H2 & Hkeys & _).
  destruct (display_status _ _); cbn [rbind]; [|discriminate].
  destruct lines2 as [|line rest]; [discriminate|].
  destruct (String.eqb_spec (Py.lower (PyStr.strip line)) "y") as [Hy|]; [|discriminate].
  intros [= <- <-]. exists fresh, records.
  split; [reflexivity|]. cbn [selected_dexes set_selected_dexes].
  split; [reflexivity|]. split; [exact H2|]. split; [exact Hkeys|].
  split; [reflexivity|]. split; [exact Hne|]. split; [exact Hin|].
  exists line. split; [|exact Hy].
  rewrite Hread1, Hread2. apply in_or_app. right. apply in_or_app. right.
  left. reflexivity.
Qed.

(** X26: [main] starts monitoring only after a complete set-up: all three
    settings are there, the node is connected, the scraper delivered
    records and the user chose at least one of them, chose at least two DEX
    keys, all of them in the DEX table, and confirmed with [y].  The
    monitor handed over is as the constructor made it - both caches empty,
    monitoring off, a threshold of 10 and a notional of 5000 - with the
    chosen DEX keys as its selection. *)
Theorem main_monitors_only_after_setup
    (w : World) (connected : bool) (from_key : string -> result string)
    (max_str_digits : nat) (url key addr : option string)
    (scraped : result (list Token)) (lines : list string)
    (bot : ArbitrageMonitor) (selected_tokens : list Token) :
  main w connected from_key max_str_digits url key addr scraped lines
  = Monitoring bot selected_tokens ->
  missing_config url key addr = [] /\ connected = true /\
  (exists records,
      scraped = Ok records /\ selected_tokens <> [] /\
      Forall (fun t => In t records) selected_tokens) /\
  (2 <= List.length (selected_dexes bot))%nat /\
  Forall (fun k => is_Some (dexes bot !! k)) (selected_dexes bot) /\
  (exists line, In line lines /\ Py.lower (PyStr.strip line) = "y") /\
  is_monitoring bot = false /\ price_cache bot = ∅ /\ _decimals_cache bot = ∅ /\
  min_profit_threshold bot = 10 /\ max_flash_loan_amount bot = 5000 /\
  is_Some (stable_tokens bot !! "USDC") /\ rpc_calls bot = [].
Proof.
  intros Hm. apply main_monitoring in Hm.
  destruct Hm as (fresh & records & Hinit & Hbot & H2 & Hkeys & Hs & Hne & Hin & Hy).
  apply init_fresh in Hinit.
  destruct Hinit as (F1 & F2 & F3 & Hc & _ & _ & _ & Hd & Hst & _ & Hmon & Hpc & Hdc
                     & Hthr & Hmax & Hcalls).
  rewrite Hbot. cbn [set_selected_dexes selected_dexes dexes is_monitoring price_cache
                     _decimals_cache min_profit_threshold max_flash_loan_amount
                     stable_tokens rpc_calls].
  split; [apply missing_config_nil; auto|]. split; [exact Hc|].
  split; [eauto|]. split; [exact H2|].
  split.
  { rewrite Hd. eapply List.Forall_impl; [|exact Hkeys].
    intros k Hk. destruct (dex_keys_of_init_known k Hk) as [info ->]. eauto. }
  split; [exact Hy|]. rewrite Hst.
  repeat (split; [assumption|]). split; [|assumption].
  eexists. vm_compute. reflexivity.
Qed.

Lemma main_monitors_only_after_setup_witness :
  let bot := set_selected_dexes ["uniswap_v2"; "baseswap"]
               {| account := "0xAcc0"; private_key := "key";
                  contract_address := "0xC0de"; dexes := dexes_of_init;
                  stable_tokens :=
                    {[ "USDC" := "0x833589fCD6eDb6E08f4c7C32D4f71b54bdA02913" ]};
                  selected_dexes := []; is_monitoring := false; price_cache := ∅;
                  _decimals_cache := ∅; min_profit_threshold := 10;
                  max_flash_loan_amount := 5000; rpc_calls := [] |} in
  missing_config (Some "http://node") (Some "key") (Some "0xC0de") = [] /\
  true = true /\
  (exists records,
      Ok [Demo.token] = Ok records /\ [Demo.token] <> [] /\
      Forall (fun t => In t records) [Demo.token]) /\
  (2 <= List.length (selected_dexes bot))%nat /\
  Forall (fun k => is_Some (dexes bot !! k)) (selected_dexes bot) /\
  (exists line, In line ["nine"; " All"; "1"; "1, 3 ,7"; " Y "]
                /\ Py.lower (PyStr.strip line) = "y") /\
  is_monitoring bot = false /\ price_cache bot = ∅ /\ _decimals_cache bot = ∅ /\
  min_profit_threshold bot = 10 /\ max_flash_loan_amount bot = 5000 /\
  is_Some (stable_tokens bot !! "USDC") /\ rpc_calls bot = [].
Proof.
  cbv zeta.
  apply (main_monitors_only_after_setup calm_world true (fun _ => Ok "0xAcc0") 4300
           (Some "http://node") (Some "key") (Some "0xC0de") (Ok [Demo.token])
           ["nine"; " All"; "1"; "1, 3 ,7"; " Y "]).
  vm_compute. reflexivity.
Defined.

(** ** The pool check and the first prices *)

(** The tables and limits that the start-up and an evaluation read. *)
Lemma same_config_tables self self' :
  same_config self self' ->
  dexes self' = dexes self /\ stable_tokens self' = stable_tokens self /\
  selected_dexes self' = selected_dexes self /\
  max_flash_loan_amount self' = max_flash_loan_amount self.
Proof.
  unfold same_config, config. intros [= _ _ _ H1 H2 H3 _ _ H4]. auto.
Qed.

Lemma get_pair_address_frame w a b dex self :
  exists o self',
    get_pair_address w a b dex self = (Ok o, self') /\
    same_config self self' /\ price_cache self' = price_cache self /\
    calls_within 1 self self' /\
    (forall pa, o = Some pa -> pa <> zero_address).
Proof.
  rewrite get_pair_address_unfold.
  assert (H0 : calls_within 1 self self)
    by (apply (calls_within_weaken 0); [lia|apply calls_within_refl]).
  destruct (dexes self !! dex) as [d|];
    [|eexists _, _; repeat split; try reflexivity; [exact H0|discriminate]].
  destruct (to_checksum_address w (factory_address d)) as [f|];
    [|eexists _, _; repeat split; try reflexivity; [exact H0|discriminate]].
  destruct (to_checksum_address w a) as [ta|];
    [|eexists _, _; repeat split; try reflexivity; [exact H0|discriminate]].
  destruct (to_checksum_address w b) as [tb|];
    [|eexists _, _; repeat split; try reflexivity; [exact H0|discriminate]].
  eexists _, _. split; [reflexivity|]. split; [reflexivity|]. split; [reflexivity|].
  split; [exists [GetPair f ta tb]; split; [reflexivity|cbn; lia]|].
  intros pa. destruct (getPair_call w _ f ta tb) as [pa'|]; [|discriminate].
  destruct (String.eqb_spec pa' zero_address) as [|Hne]; [discriminate|].
  intros [= <-]. exact Hne.
Qed.

(** The inner loop of the pool check, for one token. *)
Lemma verify_dexes_spec w token dex_keys self :
  exists r self',
    verify_dexes w token dex_keys self = (r, self') /\
    same_config self self' /\ price_cache self' = price_cache self /\
    calls_within (List.length dex_keys) self self' /\
    match r with
    | Ok found => Forall (verified_pair [token] dex_keys) found
    | Raise e =>
        (e = KeyError "USDC" /\ stable_tokens self !! "USDC" = None) \/
        (exists dex, In dex dex_keys /\ dexes self !! dex = None /\ e = KeyError dex)
    end.
Proof.
  revert self. induction dex_keys as [|dex rest IH]; intros self; cbn [verify_dexes].
  - eexists _, _. split; [reflexivity|]. split; [reflexivity|]. split; [reflexivity|].
    split; [apply calls_within_refl|constructor].
  - unfold bind at 1, gets. unfold bind at 1, lift, getitem.
    destruct (stable_tokens self !! "USDC") as [usdc|] eqn:Hu.
    2:{ eexists _, _. split; [reflexivity|]. split; [reflexivity|].
        split; [reflexivity|].
        split; [apply (calls_within_weaken 0); [lia|apply calls_within_refl]|].
        left. split; reflexivity. }
    unfold bind at 1.
    destruct (get_pair_address_frame w (address token) usdc dex self)
      as (o & s1 & -> & C1 & P1 & N1 & Hz).
    destruct (same_config_tables _ _ C1) as (D1 & S1 & _ & _).
    unfold bind at 1. unfold bind at 1. rewrite D1.
    destruct (dexes self !! dex) as [info|] eqn:Hd.
    2:{ eexists _, _. split; [reflexivity|]. split; [exact C1|]. split; [exact P1|].
        split; [apply (calls_within_weaken 1); [cbn [List.length]; lia|exact N1]|].
        right. exists dex. split; [left; reflexivity|]. split; [exact Hd|reflexivity]. }
    unfold bind at 1.
    destruct (IH s1) as (r & s2 & -> & C2 & P2 & N2 & Hr).
    assert (Hn : calls_within (List.length (dex :: rest)) self s2).
    { cbn [List.length]. change (S (List.length rest)) with (1 + List.length rest)%nat.
      exact (calls_within_trans _ _ _ _ _ N1 N2). }
    assert (Hc : same_config self s2) by exact (same_config_trans _ _ _ C1 C2).
    assert (Hp : price_cache s2 = price_cache self) by congruence.
    destruct r as [more|e].
    2:{ eexists _, _. split; [reflexivity|]. split; [exact Hc|]. split; [exact Hp|].
        split; [exact Hn|].
        destruct Hr as [[-> Hr]|(d & Hin & Hdn & ->)].
        - exfalso. rewrite S1, Hu in Hr. discriminate.
        - right. exists d. split; [right; exact Hin|]. rewrite <- D1. auto. }
    assert (Hmore' : Forall (verified_pair [token] (dex :: rest)) more).
    { eapply List.Forall_impl; [|exact Hr].
      intros [[t d] pa] (H1 & H2 & H3 & H4). cbn. auto. }
    destruct o as [[|c r]|]; unfold ret; eexists _, _;
      (split; [reflexivity|]); (split; [exact Hc|]); (split; [exact Hp|]);
      (split; [exact Hn|]); try exact Hmore'.
    constructor; [|exact Hmore'].
    cbn. split; [auto|]. split; [auto|]. split; [discriminate|].
    apply Hz. reflexivity.
Qed.

(** The pool check over all selected tokens. *)
Lemma verify_pools_spec w selected_tokens self :
  exists r self',
    verify_pools w selected_tokens self = (r, self') /\
    same_config self self' /\ price_cache self' = price_cache self /\
    calls_within (List.length selected_tokens * List.length (selected_dexes self))
                 self self' /\
    match r with
    | Ok valid_pairs =>
        Forall (verified_pair selected_tokens (selected_dexes self)) valid_pairs
    | Raise e =>
        (e = KeyError "USDC" /\ stable_tokens self !! "USDC" = None) \/
        (exists dex, In dex (selected_dexes self) /\ dexes self !! dex = None /\
                     e = KeyError dex)
    end.
Proof.
  revert self. induction selected_tokens as [|token rest IH]; intros self;
    cbn [verify_pools].
  - eexists _, _. split; [reflexivity|]. split; [reflexivity|]. split; [reflexivity|].
    split; [apply calls_within_refl|constructor].
  - unfold bind at 1, gets. unfold bind at 1.
    destruct (verify_dexes_spec w token (selected_dexes self) self)
      as (r1 & s1 & -> & C1 & P1 & N1 & H1).
    destruct (same_config_tables _ _ C1) as (Hdx & Hst & Hsel & _).
    destruct r1 as [found|e].
    2:{ eexists _, _. split; [reflexivity|]. split; [exact C1|]. split; [exact P1|].
        split; [|exact H1].
        apply (calls_within_weaken (List.length (selected_dexes self)));
          [cbn [List.length]; lia|exact N1]. }
    unfold bind at 1.
    destruct (IH s1) as (r2 & s2 & -> & C2 & P2 & N2 & H2).
    rewrite Hsel in N2, H2. rewrite Hst, Hdx in H2.
    assert (Hn : calls_within
                   (List.length (token :: rest) * List.length (selected_dexes self))
                   self s2).
    { cbn [List.length Nat.mul]. exact (calls_within_trans _ _ _ _ _ N1 N2). }
    destruct r2 as [more|e]; unfold ret; eexists _, _;
      (split; [reflexivity|]);
      (split; [exact (same_config_trans _ _ _ C1 C2)|]);
      (split; [congruence|]); (split; [exact Hn|]); [|exact H2].
    apply Forall_app. split.
    + eapply List.Forall_impl; [|exact H1].
      intros [[t d] pa] ([<-|[]] & Hd & Hp). cbn. auto.
    + eapply List.Forall_impl; [|exact H2].
      intros [[t d] pa] (Ht & Hd & Hp). cbn. auto.
Qed.

Lemma update_price_for_dex_total w token st dex self :
  exists r, fst (update_price_for_dex w token st dex self) = Ok r.
Proof.
  rewrite update_price_for_dex_unfold, get_token_price_unfold.
  destruct (quoted_price w (address token) st dex self) as [[price|e] s1]; [|eauto].
  destruct (sane price) as [p|]; [|eauto].
  destruct (Py.truthy p); eauto.
Qed.

(** The initial price fetch. *)
Lemma fetch_prices_spec w valid_pairs self :
  exists self',
    fetch_prices w valid_pairs self = (Ok tt, self') /\
    same_config self self' /\
    calls_within (3 * List.length valid_pairs) self self' /\
    (cache_valid (price_cache self) -> cache_valid (price_cache self')) /\
    (forall key dex p,
        cache_get (price_cache self') key dex = Some p ->
        cache_get (price_cache self) key dex = Some p \/
        exists token pa, In (token, dex, pa) valid_pairs /\ key = Py.lower (address token)).
Proof.
  revert self. induction valid_pairs as [|[[token dex] pa] rest IH]; intros self;
    cbn [fetch_prices].
  - eexists. split; [reflexivity|]. split; [reflexivity|].
    split; [apply calls_within_refl|]. split; auto.
  - unfold bind.
    destruct (update_price_for_dex_total w token "USDC" dex self) as [r Hr].
    pose proof (same_config_respected (update_price_for_dex w token "USDC" dex)
                  ltac:(intros R ? ? ? ? ?; apply respects_update_price_for_dex;
                        assumption) self) as C1.
    pose proof (spends_update_price_for_dex w token "USDC" dex self) as N1.
    pose proof (update_price_step w token "USDC" dex self) as V1.
    assert (F1 : forall key d p,
               cache_get (price_cache (snd (update_price_for_dex w token "USDC" dex self)))
                         key d = Some p ->
               cache_get (price_cache self) key d = Some p \/
               (d = dex /\ key = Py.lower (address token))).
    { intros key d p. rewrite update_price_for_dex_unfold.
      pose proof (get_token_price_keeps_prices w (address token) "USDC" dex self) as Hk.
      destruct (get_token_price w (address token) "USDC" dex self) as [[[q|]|e] s0];
        cbn [snd] in Hk |- *; try (rewrite Hk; auto).
      destruct (Py.truthy q); cbn [snd]; [|rewrite Hk; auto].
      cbn [price_cache set_price_cache]. rewrite Hk, cache_get_put.
      case_decide as Hd; [destruct Hd as [<- <-]; auto|auto]. }
    destruct (update_price_for_dex w token "USDC" dex self) as [r1 s1].
    cbn [fst snd] in *. subst r1.
    destruct (IH s1) as (s2 & -> & C2 & N2 & V2 & F2).
    exists s2. split; [reflexivity|].
    split; [exact (same_config_trans _ _ _ C1 C2)|].
    split.
    { replace (3 * List.length ((token, dex, pa) :: rest))%nat
        with (3 + 3 * List.length rest)%nat by (cbn [List.length]; lia).
      exact (calls_within_trans _ _ _ _ _ N1 N2). }
    split.
    { intros Hv. apply V2. cbv zeta in V1. apply (V1 Hv). }
    intros key d p Hget. destruct (F2 key d p Hget) as [H|(t & pa' & Hin & ->)].
    + destruct (F1 key d p H) as [H'|[-> ->]]; [auto|].
      right. exists token, pa. split; [left; reflexivity|reflexivity].
    + right. exists t, pa'. split; [right; exact Hin|reflexivity].
Qed.

(** [monitor_opportunities] up to the creation of the listener tasks. *)
Lemma monitor_opportunities_spec w selected_tokens self :
  exists r self',
    monitor_opportunities w selected_tokens self = (r, self') /\
    same_config (set_is_monitoring (is_monitoring self') self) self' /\
    match r with
    | Ok valid_pairs =>
        is_monitoring self' = match valid_pairs with [] => false | _ => true end /\
        (valid_pairs = [] -> price_cache self' = price_cache self) /\
        Forall (verified_pair selected_tokens (selected_dexes self)) valid_pairs /\
        calls_within (List.length selected_tokens * List.length (selected_dexes self)
                      + 3 * List.length valid_pairs) self self' /\
        (cache_valid (price_cache self) -> cache_valid (price_cache self')) /\
        (forall key dex p,
            cache_get (price_cache self') key dex = Some p ->
            cache_get (price_cache self) key dex = Some p \/
            exists token pa,
              In (token, dex, pa) valid_pairs /\ key = Py.lower (address token))
    | Raise e =>
        ((e = KeyError "USDC" /\ stable_tokens self !! "USDC" = None) \/
         (exists dex, In dex (selected_dexes self) /\ dexes self !! dex = None /\
                      e = KeyError dex)) /\
        is_monitoring self' = true /\ price_cache self' = price_cache self
    end.
Proof.
  unfold monitor_opportunities, bind at 1, modify. unfold bind at 1.
  destruct (verify_pools_spec w selected_tokens (set_is_monitoring true self))
    as (r & s1 & -> & C1 & P1 & N1 & H1).
  cbn [set_is_monitoring selected_dexes stable_tokens dexes price_cache] in P1, N1, H1.
  assert (Hmon : is_monitoring s1 = true).
  { unfold same_config, config in C1. injection C1 as _ _ _ _ _ _ Hm _ _. exact Hm. }
  destruct r as [valid_pairs|e].
  2:{ eexists _, _. split; [reflexivity|]. rewrite Hmon. split; [exact C1|].
      auto. }
  destruct valid_pairs as [|pair rest].
  - unfold bind, modify, ret. eexists _, _. split; [reflexivity|].
    cbn [set_is_monitoring is_monitoring]. split.
    { unfold same_config, config in *. cbn in *. congruence. }
    split; [reflexivity|]. split; [intros _; exact P1|]. split; [constructor|]. split.
    { cbn [List.length]. rewrite Nat.mul_0_r, Nat.add_0_r.
      destruct N1 as (new & E & L). exists new. split; [exact E|exact L]. }
    change (price_cache (set_is_monitoring false s1)) with (price_cache s1).
    rewrite P1. split; auto.
  - unfold bind.
    destruct (fetch_prices_spec w (pair :: rest) s1) as (s2 & -> & C2 & N2 & V2 & F2).
    unfold ret. eexists _, _. split; [reflexivity|].
    assert (Hmon2 : is_monitoring s2 = true).
    { unfold same_config, config in C2. injection C2 as _ _ _ _ _ _ Hm _ _.
      congruence. }
    rewrite Hmon2. split; [exact (same_config_trans _ _ _ C1 C2)|].
    split; [reflexivity|]. split; [discriminate|]. split; [exact H1|].
    split.
    { assert (N0 : calls_within
                     (List.length selected_tokens * List.length (selected_dexes self))
                     self s1).
      { destruct N1 as (new & E & L). exists new. split; [exact E|exact L]. }
      exact (calls_within_trans _ _ _ _ _ N0 N2). }
    rewrite P1 in V2, F2. split; [exact V2|exact F2].
Qed.

(** The pair locator, as the pool check uses it: it returns, keeps the
    configuration, and asks the factory once where the DEX is in the table
    and the three addresses have checksum forms. *)
Lemma get_pair_address_asks w a b dex self :
  exists o self' new,
    get_pair_address w a b dex self = (Ok o, self') /\
    same_config self self' /\
    rpc_calls self' = new ++ rpc_calls self /\
    (forall info f ta tb,
        dexes self !! dex = Some info ->
        to_checksum_address w (factory_address info) = Ok f ->
        to_checksum_address w a = Ok ta ->
        to_checksum_address w b = Ok tb ->
        new = [GetPair f ta tb]).
Proof.
  rewrite get_pair_address_unfold.
  destruct (dexes self !! dex) as [d|] eqn:E0.
  2:{ exists None, self, []. split; [reflexivity|]. split; [reflexivity|].
      split; [reflexivity|]. intros ? ? ? ? [=]. }
  destruct (to_checksum_address w (factory_address d)) as [f|] eqn:E1.
  2:{ exists None, self, []. split; [reflexivity|]. split; [reflexivity|].
      split; [reflexivity|]. intros ? ? ? ? [= <-] H. congruence. }
  destruct (to_checksum_address w a) as [ta|] eqn:E2.
  2:{ exists None, self, []. split; [reflexivity|]. split; [reflexivity|].
      split; [reflexivity|]. intros ? ? ? ? _ _ [=]. }
  destruct (to_checksum_address w b) as [tb|] eqn:E3.
  2:{ exists None, self, []. split; [reflexivity|]. split; [reflexivity|].
      split; [reflexivity|]. intros ? ? ? ? _ _ _ [=]. }
  eexists _, _, [GetPair f ta tb]. split; [reflexivity|].
  split; [reflexivity|]. split; [reflexivity|].
  intros info f' ta' tb' [= <-] Hf [= <-] [= <-].
  rewrite E1 in Hf. injection Hf as <-. reflexivity.
Qed.

(** With steady factories the pair locator's answer depends on the DEX
    table only. *)
Lemma listing_stable w self self' usdc token dex :
  steady_factories w -> dexes self' = dexes self ->
  listing w self' usdc token dex = listing w self usdc token dex.
Proof.
  intros Hs Hd. unfold listing. rewrite !get_pair_address_unfold, Hd.
  destruct (dexes self !! dex) as [d|]; [|reflexivity].
  destruct (to_checksum_address w (factory_address d)) as [f|]; [|reflexivity].
  destruct (to_checksum_address w (address token)) as [ta|]; [|reflexivity].
  destruct (to_checksum_address w usdc) as [tb|]; [|reflexivity].
  cbn [fst]. rewrite (Hs (List.length (rpc_calls self')) (List.length (rpc_calls self))).
  reflexivity.
Qed.

Lemma flat_map_same {A B} (f g : A -> list B) (l : list A) :
  (forall a, f a = g a) -> flat_map f l = flat_map g l.
Proof.
  intros H. induction l as [|a l IH]; cbn [flat_map]; [reflexivity|].
  rewrite H, IH. reflexivity.
Qed.

(** The inner loop of the pool check with complete tables: every DEX is
    asked, in order. *)
Lemma verify_dexes_complete w token usdc dex_keys self :
  stable_tokens self !! "USDC" = Some usdc ->
  (forall dex, In dex dex_keys -> is_Some (dexes self !! dex)) ->
  exists found self' new,
    verify_dexes w token dex_keys self = (Ok found, self') /\
    same_config self self' /\
    rpc_calls self' = new ++ rpc_calls self /\
    (forall dex info f ta tb,
        In dex dex_keys -> dexes self !! dex = Some info ->
        to_checksum_address w (factory_address info) = Ok f ->
        to_checksum_address w (address token) = Ok ta ->
        to_checksum_address w usdc = Ok tb ->
        In (GetPair f ta tb) new) /\
    (steady_factories w -> found = flat_map (listing w self usdc token) dex_keys).
Proof.
  revert self. induction dex_keys as [|dex rest IH]; intros self Hu Hl;
    cbn [verify_dexes].
  - exists [], self, []. split; [reflexivity|]. split; [reflexivity|].
    split; [reflexivity|]. split; [intros ? ? ? ? ? []|reflexivity].
  - unfold bind at 1, gets. unfold bind at 1, lift, getitem. rewrite Hu.
    unfold bind at 1.
    pose proof (eq_refl : listing w self usdc token dex = listing w self usdc token dex)
      as Hlist. unfold listing at 2 in Hlist.
    destruct (get_pair_address_asks w (address token) usdc dex self)
      as (o & s1 & new1 & E1 & C1 & N1 & A1).
    rewrite E1 in Hlist |- *. cbn [fst] in Hlist.
    destruct (same_config_tables _ _ C1) as (D1 & S1 & _ & _).
    unfold bind at 1. unfold bind at 1. rewrite D1.
    destruct (Hl dex (or_introl eq_refl)) as [info Hinfo]. rewrite Hinfo.
    unfold bind at 1.
    destruct (IH s1) as (more & s2 & new2 & -> & C2 & N2 & A2 & F2).
    { rewrite S1. exact Hu. }
    { intros d Hd. rewrite D1. apply Hl. right. exact Hd. }
    exists (listing w self usdc token dex ++ more), s2, (new2 ++ new1).
    split.
    { rewrite Hlist. destruct o as [[|c r]|]; reflexivity. }
    split; [exact (same_config_trans _ _ _ C1 C2)|].
    split; [rewrite N2, N1, app_assoc; reflexivity|].
    split.
    + intros d i f ta tb [<-|Hd] Hi Hf Ha Hb; apply in_or_app.
      * right. rewrite (A1 i f ta tb Hi Hf Ha Hb). left. reflexivity.
      * left. apply (A2 d i f ta tb Hd); [rewrite D1|..]; assumption.
    + intros Hs. cbn [flat_map]. rewrite (F2 Hs). f_equal.
      apply flat_map_same. intros d. apply listing_stable; assumption.
Qed.

(** The pool check with complete tables: every selected token is asked for
    on every selected DEX, token by token. *)
Lemma verify_pools_complete w usdc selected_tokens self :
  stable_tokens self !! "USDC" = Some usdc ->
  (forall dex, In dex (selected_dexes self) -> is_Some (dexes self !! dex)) ->
  exists valid_pairs self' new,
    verify_pools w selected_tokens self = (Ok valid_pairs, self') /\
    same_config self self' /\
    rpc_calls self' = new ++ rpc_calls self /\
    (forall token dex info f ta tb,
        In token selected_tokens -> In dex (selected_dexes self) ->
        dexes self !! dex = Some info ->
        to_checksum_address w (factory_address info) = Ok f ->
        to_checksum_address w (address token) = Ok ta ->
        to_checksum_address w usdc = Ok tb ->
        In (GetPair f ta tb) new) /\
    (steady_factories w ->
     valid_pairs = flat_map (fun token => flat_map (listing w self usdc token)
                                                   (selected_dexes self))
                            selected_tokens).
Proof.
  revert self. induction selected_tokens as [|token rest IH]; intros self Hu Hl;
    cbn [verify_pools].
  - exists [], self, []. split; [reflexivity|]. split; [reflexivity|].
    split; [reflexivity|]. split; [intros ? ? ? ? ? ? []|reflexivity].
  - unfold bind at 1, gets. unfold bind at 1.
    destruct (verify_dexes_complete w token usdc (selected_dexes self) self Hu Hl)
      as (found & s1 & new1 & -> & C1 & N1 & A1 & F1).
    destruct (same_config_tables _ _ C1) as (D1 & S1 & L1 & _).
    unfold bind at 1.
    destruct (IH s1) as (more & s2 & new2 & -> & C2 & N2 & A2 & F2).
    { rewrite S1. exact Hu. }
    { intros d Hd. rewrite D1. apply Hl. rewrite <- L1. exact Hd. }
    exists (found ++ more), s2, (new2 ++ new1).
    split; [reflexivity|].
    split; [exact (same_config_trans _ _ _ C1 C2)|].
    split; [rewrite N2, N1, app_assoc; reflexivity|].
    split.
    + intros t d i f ta tb [<-|Ht] Hd Hi Hf Ha Hb; apply in_or_app.
      * right. apply (A1 d i f ta tb); assumption.
      * left. apply (A2 t d i f ta tb Ht); [rewrite L1|rewrite D1|..]; assumption.
    + intros Hs. cbn [flat_map]. rewrite (F1 Hs), (F2 Hs), L1. f_equal.
      apply flat_map_same. intros t. apply flat_map_same. intros d.
      apply listing_stable; assumption.
Qed.

(** The inner loop at a DEX that is not in the table: the DEXes before it
    are checked, then the report line for it raises. *)
Lemma verify_dexes_unlisted w token usdc pre dex post self :
  stable_tokens self !! "USDC" = Some usdc ->
  (forall d, In d pre -> is_Some (dexes self !! d)) ->
  dexes self !! dex = None ->
  exists self',
    verify_dexes w token (pre ++ dex :: post) self = (Raise (KeyError dex), self') /\
    same_config self self'.
Proof.
  revert self. induction pre as [|d pre IH]; intros self Hu Hl Hn;
    cbn [app verify_dexes].
  - unfold bind at 1, gets. unfold bind at 1, lift, getitem. rewrite Hu.
    unfold bind at 1.
    destruct (get_pair_address_asks w (address token) usdc dex self)
      as (o & s1 & new1 & -> & C1 & _).
    destruct (same_config_tables _ _ C1) as (D1 & _).
    unfold bind at 1. unfold bind at 1. rewrite D1, Hn.
    exists s1. split; [reflexivity|exact C1].
  - unfold bind at 1, gets. unfold bind at 1, lift, getitem. rewrite Hu.
    unfold bind at 1.
    destruct (get_pair_address_asks w (address token) usdc d self)
      as (o & s1 & new1 & -> & C1 & _).
    destruct (same_config_tables _ _ C1) as (D1 & S1 & _ & _).
    unfold bind at 1. unfold bind at 1. rewrite D1.
    destruct (Hl d (or_introl eq_refl)) as [info ->].
    unfold bind at 1.
    destruct (IH s1) as (s2 & -> & C2).
    { rewrite S1. exact Hu. }
    { intros d' Hd'. rewrite D1. apply Hl. right. exact Hd'. }
    { rewrite D1. exact Hn. }
    exists s2. split; [reflexivity|exact (same_config_trans _ _ _ C1 C2)].
Qed.

(** Without [USDC] in the stable-token table the first check raises. *)
Lemma verify_dexes_no_usdc w token dex rest self :
  stable_tokens self !! "USDC" = None ->
  verify_dexes w token (dex :: rest) self = (Raise (KeyError "USDC"), self).
Proof.
  intros Hu. cbn [verify_dexes]. unfold bind at 1, gets.
  unfold bind at 1, lift, getitem. rewrite Hu. reflexivity.
Qed.

(** Without a selected DEX the pool check has nothing to ask. *)
Lemma verify_pools_no_dex w selected_tokens self :
  selected_dexes self = [] -> verify_pools w selected_tokens self = (Ok [], self).
Proof.
  intros Hd. induction selected_tokens as [|token rest IH]; cbn [verify_pools];
    [reflexivity|].
  unfold bind at 1, gets. rewrite Hd. cbn [verify_dexes].
  unfold bind at 1, ret. unfold bind at 1. rewrite IH. reflexivity.
Qed.

Lemma is_monitoring_same_config self self' :
  same_config self self' -> is_monitoring self' = is_monitoring self.
Proof. unfold same_config, config. intros [= _ _ _ _ _ _ H _ _]. exact H. Qed.

(** X27: monitoring needs a verified pool.  The start-up checks every
    selected token on every selected DEX, token by token and DEX by DEX.
    With [USDC] in the stable-token table and every selected DEX in the
    DEX table it returns, and for every selected token and selected DEX
    whose addresses have checksum forms the factory of that DEX was asked
    for the pair of the token and [USDC]; with factories whose answers do
    not change with time, the pairs found are exactly the products of
    token and DEX, in this order, for which the pair locator returns an
    address that is not empty.  When no pool is found - in particular with
    no selected token or no selected DEX, where nothing is asked - the
    start-up switches monitoring off again and returns with the price cache
    untouched; otherwise monitoring stays on and listeners are created
    exactly for the pairs found, each a selected token on a selected DEX
    with a pool address that is neither empty nor the zero address.  With
    a token and a DEX selected, a missing [USDC] entry raises
    [KeyError('USDC')] before anything is asked, and with [USDC] known the
    first selected DEX that is not in the DEX table raises [KeyError] of
    its key; both leave the monitoring flag on, and the start-up raises
    nothing else.  With one token, a pool on DEX A and none on DEX B, both
    factories are asked and the one pair on DEX A is listed; with DEX A
    and an unknown DEX C selected, DEX A is asked and then
    [KeyError('dexC')] is raised; with no token selected nothing is asked
    and monitoring is off. *)
Theorem monitoring_needs_a_verified_pool :
  (forall (w : World) (selected_tokens : list Token) (self : ArbitrageMonitor),
     (exists r self',
        monitor_opportunities w selected_tokens self = (r, self') /\
        match r with
        | Ok [] => is_monitoring self' = false /\ price_cache self' = price_cache self
        | Ok valid_pairs =>
            is_monitoring self' = true /\
            Forall (verified_pair selected_tokens (selected_dexes self)) valid_pairs
        | Raise e =>
            ((e = KeyError "USDC" /\ stable_tokens self !! "USDC" = None) \/
             (exists dex, In dex (selected_dexes self) /\ dexes self !! dex = None /\
                          e = KeyError dex)) /\
            is_monitoring self' = true
        end) /\
     (selected_tokens = [] \/ selected_dexes self = [] ->
      monitor_opportunities w selected_tokens self
      = (Ok [], set_is_monitoring false self)) /\
     (selected_tokens <> [] -> selected_dexes self <> [] ->
      stable_tokens self !! "USDC" = None ->
      monitor_opportunities w selected_tokens self
      = (Raise (KeyError "USDC"), set_is_monitoring true self)) /\
     (forall usdc pre dex post,
         selected_tokens <> [] ->
         stable_tokens self !! "USDC" = Some usdc ->
         selected_dexes self = pre ++ dex :: post ->
         (forall d, In d pre -> is_Some (dexes self !! d)) ->
         dexes self !! dex = None ->
         fst (monitor_opportunities w selected_tokens self) = Raise (KeyError dex) /\
         is_monitoring (snd (monitor_opportunities w selected_tokens self)) = true) /\
     (forall usdc,
         stable_tokens self !! "USDC" = Some usdc ->
         (forall d, In d (selected_dexes self) -> is_Some (dexes self !! d)) ->
         exists valid_pairs self' new,
           monitor_opportunities w selected_tokens self = (Ok valid_pairs, self') /\
           rpc_calls self' = new ++ rpc_calls self /\
           (forall token dex info f ta tb,
               In token selected_tokens -> In dex (selected_dexes self) ->
               dexes self !! dex = Some info ->
               to_checksum_address w (factory_address info) = Ok f ->
               to_checksum_address w (address token) = Ok ta ->
               to_checksum_address w usdc = Ok tb ->
               In (GetPair f ta tb) new) /\
           (steady_factories w ->
            valid_pairs
            = flat_map (fun token => flat_map (listing w self usdc token)
                                              (selected_dexes self))
                       selected_tokens))) /\
  (let self' := snd (monitor_opportunities one_pool_world [Demo.token] (Demo.monitor ∅)) in
   fst (monitor_opportunities one_pool_world [Demo.token] (Demo.monitor ∅))
   = Ok [(Demo.token, "dexA", "0xPa1r")] /\
   is_monitoring self' = true /\
   In (GetPair "0xFA" "0xAbC1" Demo.USDC) (rpc_calls self') /\
   In (GetPair "0xFB" "0xAbC1" Demo.USDC) (rpc_calls self') /\
   cache_get (price_cache self') (Py.lower "0xAbC1") "dexA" = Some 2%float) /\
  (let self := set_selected_dexes ["dexA"; "dexC"] (Demo.monitor ∅) in
   monitor_opportunities one_pool_world [Demo.token] self
   = (Raise (KeyError "dexC"),
      record_call (GetPair "0xFA" "0xAbC1" Demo.USDC) self)) /\
  monitor_opportunities one_pool_world [] (Demo.monitor ∅)
  = (Ok [], set_is_monitoring false (Demo.monitor ∅)).
Proof.
  split.
  2:{ split; [vm_compute; repeat split; auto 10|].
      split; [|reflexivity].
      cbv zeta. apply (f_equal2 pair); [vm_compute; reflexivity|].
      vm_compute. reflexivity. }
  intros w selected_tokens self. split; [|split; [|split; [|split]]].
  - destruct (monitor_opportunities_spec w selected_tokens self)
      as (r & self' & E & _ & H).
    exists r, self'. split; [exact E|].
    destruct r as [[|pair rest]|e].
    + destruct H as (Hm & Hp & _). auto.
    + destruct H as (Hm & _ & Hv & _). auto.
    + destruct H as (He & Hm & _). auto.
  - intros Hempty. unfold monitor_opportunities, bind at 1, modify. unfold bind at 1.
    assert (E : verify_pools w selected_tokens (set_is_monitoring true self)
                = (Ok [], set_is_monitoring true self)).
    { destruct Hempty as [->|Hd]; [reflexivity|].
      apply verify_pools_no_dex. exact Hd. }
    rewrite E. reflexivity.
  - intros Ht Hd Hu.
    destruct selected_tokens as [|token rest]; [contradiction|].
    destruct (selected_dexes self) as [|dex dexes'] eqn:Hsel; [contradiction|].
    unfold monitor_opportunities, bind at 1, modify. unfold bind at 1.
    cbn [verify_pools]. unfold bind at 1, gets.
    cbn [selected_dexes set_is_monitoring]. rewrite Hsel.
    unfold bind at 1.
    rewrite (verify_dexes_no_usdc w token dex dexes' (set_is_monitoring true self) Hu).
    reflexivity.
  - intros usdc pre dex post Ht Hu Hsel Hl Hn.
    destruct selected_tokens as [|token rest]; [contradiction|].
    destruct (verify_dexes_unlisted w token usdc pre dex post
                (set_is_monitoring true self) Hu Hl Hn) as (s1 & E & C).
    assert (Em : monitor_opportunities w (token :: rest) self
                 = (Raise (KeyError dex), s1)).
    { unfold monitor_opportunities, bind at 1, modify. unfold bind at 1.
      cbn [verify_pools]. unfold bind at 1, gets.
      cbn [selected_dexes set_is_monitoring]. rewrite Hsel.
      unfold bind at 1. rewrite E. reflexivity. }
    rewrite Em. cbn [fst snd]. split; [reflexivity|].
    rewrite (is_monitoring_same_config _ _ C). reflexivity.
  - intros usdc Hu Hl.
    unfold monitor_opportunities, bind at 1, modify. unfold bind at 1.
    destruct (verify_pools_complete w usdc selected_tokens
                (set_is_monitoring true self) Hu Hl)
      as (valid_pairs & s1 & new1 & -> & C1 & N1 & A1 & F1).
    cbn [set_is_monitoring rpc_calls selected_dexes dexes] in N1, A1, F1.
    assert (Hflat : steady_factories w ->
              valid_pairs
              = flat_map (fun token => flat_map (listing w self usdc token)
                                                (selected_dexes self))
                         selected_tokens).
    { intros Hs. rewrite (F1 Hs). apply flat_map_same. intros t.
      apply flat_map_same. intros d. apply listing_stable; [exact Hs|reflexivity]. }
    destruct valid_pairs as [|pair rest].
    + unfold bind, modify, ret. exists [], (set_is_monitoring false s1), new1.
      split; [reflexivity|]. split; [exact N1|]. split; [exact A1|exact Hflat].
    + unfold bind.
      destruct (fetch_prices_spec w (pair :: rest) s1) as (s2 & -> & _ & (l & N2 & _) & _).
      unfold ret. exists (pair :: rest), s2, (l ++ new1).
      split; [reflexivity|]. split; [rewrite N2, N1, app_assoc; reflexivity|].
      split; [|exact Hflat].
      intros t d i f ta tb Ht Hd Hi Hf Ha Hb. apply in_or_app. right.
      apply (A1 t d i f ta tb); assumption.
Qed.

(** X28: the first prices belong to verified pools.  After the start-up every
    entry of the price cache was either there before or is the price of a
    token on a DEX where a pool was found; a valid cache stays valid; the
    configuration of the monitor is as before, apart from the monitoring
    flag; and the start-up asked the chain at
    most once per token and DEX for the pool and three times per pair found
    for its price. *)
Theorem first_prices_are_for_verified_pools
    (w : World) (selected_tokens : list Token) (self : ArbitrageMonitor)
    (valid_pairs : list (Token * string * string)) (self' : ArbitrageMonitor) :
  monitor_opportunities w selected_tokens self = (Ok valid_pairs, self') ->
  (forall key dex p,
      cache_get (price_cache self') key dex = Some p ->
      cache_get (price_cache self) key dex = Some p \/
      exists token pa,
        In (token, dex, pa) valid_pairs /\ key = Py.lower (address token)) /\
  (cache_valid (price_cache self) -> cache_valid (price_cache self')) /\
  same_config (set_is_monitoring (is_monitoring self') self) self' /\
  calls_within (List.length selected_tokens * List.length (selected_dexes self)
                + 3 * List.length valid_pairs) self self'.
Proof.
  intros E.
  destruct (monitor_opportunities_spec w selected_tokens self)
    as (r & s & E' & C & H).
  rewrite E in E'. injection E' as <- <-.
  destruct H as (_ & _ & _ & N & V & F). auto.
Qed.

Lemma first_prices_are_for_verified_pools_witness :
  let w := Demo.world (2 * 10 ^ 6) (Ok 1) (Ok 1) in
  let self := Demo.monitor ∅ in
  let valid_pairs := [(Demo.token, "dexA", "0xPa1r"); (Demo.token, "dexB", "0xPa1r")] in
  let self' := snd (monitor_opportunities w [Demo.token] self) in
  (forall key dex p,
      cache_get (price_cache self') key dex = Some p ->
      cache_get (price_cache self) key dex = Some p \/
      exists token pa,
        In (token, dex, pa) valid_pairs /\ key = Py.lower (address token)) /\
  (cache_valid (price_cache self) -> cache_valid (price_cache self')) /\
  same_config (set_is_monitoring (is_monitoring self') self) self' /\
  calls_within (List.length [Demo.token] * List.length (selected_dexes self)
                + 3 * List.length valid_pairs) self self'.
Proof.
  cbv zeta.
  apply (first_prices_are_for_verified_pools (Demo.world (2 * 10 ^ 6) (Ok 1) (Ok 1))
           [Demo.token] (Demo.monitor ∅)).
  vm_compute. reflexivity.
Defined.

(** X29: after a complete set-up nothing is left to raise.  For a monitor
    that [main] hands over, the start-up finds the stable token [USDC] and
    every selected DEX in their tables and returns; and from then on, after
    any number of turns of any watcher of a DEX that is in the DEX table,
    an evaluation for [USDC] returns as well: the stable token is known,
    every selected DEX is in the table, and the notional fits a float. *)
Theorem nothing_raises_after_setup
    (w : World) (connected : bool) (from_key : string -> result string)
    (max_str_digits : nat) (url key addr : option string)
    (scraped : result (list Token)) (lines : list string)
    (bot : ArbitrageMonitor) (selected_tokens : list Token) :
  main w connected from_key max_str_digits url key addr scraped lines
  = Monitoring bot selected_tokens ->
  forall w1 : World,
  exists valid_pairs started,
    monitor_opportunities w1 selected_tokens bot = (Ok valid_pairs, started) /\
    forall (w2 : World) (fuel : nat) (wt : Watcher) (token : Token),
      listed started wt ->
      exists r,
        fst (check_and_execute_opportunity w2 token "USDC"
               (snd (watcher_run w2 fuel wt started))) = Ok r.
Proof.
  intros Hm w1. apply main_monitoring in Hm.
  destruct Hm as (fresh & records & Hinit & Hbot & _ & Hkeys & _).
  apply init_fresh in Hinit.
  destruct Hinit as (_ & _ & _ & _ & _ & _ & _ & Hd & Hst & _ & _ & _ & _ & _ & Hmax & _).
  assert (Hd' : dexes bot = dexes_of_init) by (rewrite Hbot; exact Hd).
  assert (Hst' : stable_tokens bot !! "USDC"
                 = Some "0x833589fCD6eDb6E08f4c7C32D4f71b54bdA02913").
  { rewrite Hbot. cbn [set_selected_dexes stable_tokens]. rewrite Hst.
    vm_compute. reflexivity. }
  assert (Hmax' : max_flash_loan_amount bot = 5000) by (rewrite Hbot; exact Hmax).
  destruct (monitor_opportunities_spec w1 selected_tokens bot)
    as (r & started & E & C & H).
  destruct r as [valid_pairs|e].
  2:{ exfalso. destruct H as ([[_ H]|(dex & Hin & Hdn & _)] & _); [congruence|].
      rewrite List.Forall_forall in Hkeys. rewrite Hd' in Hdn.
      destruct (dex_keys_of_init_known dex (Hkeys dex Hin)) as [info Hi]. congruence. }
  exists valid_pairs, started. split; [exact E|].
  intros w2 fuel wt token _.
  destruct (watcher_run_spec w2 fuel wt started)
    as (wt' & later & _ & _ & _ & E2 & _ & _ & _ & _ & C2).
  rewrite E2. cbn [snd].
  apply same_config_tables in C. apply same_config_tables in C2.
  cbn [set_is_monitoring dexes stable_tokens selected_dexes max_flash_loan_amount] in C.
  destruct C as (D1 & S1 & L1 & M1), C2 as (D2 & S2 & L2 & M2).
  apply (check_and_execute_total w2 later token "USDC"
           "0x833589fCD6eDb6E08f4c7C32D4f71b54bdA02913").
  - rewrite S2, S1. exact Hst'.
  - intros dex Hin. rewrite L2, L1 in Hin. rewrite D2, D1, Hd'.
    rewrite List.Forall_forall in Hkeys.
    destruct (dex_keys_of_init_known dex (Hkeys dex Hin)) as [info ->]. eauto.
  - rewrite M2, M1, Hmax'. eexists. vm_compute. reflexivity.
Qed.

Lemma nothing_raises_after_setup_witness :
  exists bot selected_tokens,
    main calm_world true (fun _ => Ok "0xAcc0") 4300
         (Some "http://node") (Some "key") (Some "0xC0de") (Ok [Demo.token])
         ["1"; "2,4"; "y"]
    = Monitoring bot selected_tokens /\
    forall w1 : World,
    exists valid_pairs started,
      monitor_opportunities w1 selected_tokens bot = (Ok valid_pairs, started) /\
      forall (w2 : World) (fuel : nat) (wt : Watcher) (token : Token),
        listed started wt ->
        exists r,
          fst (check_and_execute_opportunity w2 token "USDC"
                 (snd (watcher_run w2 fuel wt started))) = Ok r.
Proof.
  eexists _, _. split; [vm_compute; reflexivity|].
  apply (nothing_raises_after_setup calm_world true (fun _ => Ok "0xAcc0") 4300
           (Some "http://node") (Some "key") (Some "0xC0de") (Ok [Demo.token])
           ["1"; "2,4"; "y"]).
  vm_compute. reflexivity.
Defined.

(** ** The scraper's records *)

Lemma NoDup_snoc {A} (l : list A) (x : A) :
  List.NoDup l -> ~ In x l -> List.NoDup (l ++ [x]).
Proof.
  induction 1 as [|y l Hy Hl IH]; cbn [app]; intros Hx.
  - constructor; [intros []|constructor].
  - constructor.
    + intros Hin. apply in_app_or in Hin. destruct Hin as [Hin|[<-|[]]];
        [contradiction|]. apply Hx. left. reflexivity.
    + apply IH. intros Hin. apply Hx. right. exact Hin.
Qed.

Lemma build_records_spec limit found :
  forall seen records,
    (forall r, In r records -> In (Py.lower (s_address r)) seen) ->
    List.NoDup (map (fun r => Py.lower (s_address r)) records) ->
    Forall (fun r => s_symbol r <> "") records ->
    (Z.of_nat (List.length records) < limit \/ records = []) ->
    let out := build_records limit seen records found in
    List.NoDup (map (fun r => Py.lower (s_address r)) out) /\
    Forall (fun r => s_symbol r <> "") out /\
    (Z.of_nat (List.length out) <= Z.max limit 1) /\
    (exists new, out = records ++ new /\
                 Forall (fun r => exists name sym,
                             In (s_address r, name, sym) found) new).
Proof.
  induction found as [|[[addr name] sym] rest IH]; intros seen records Hseen Hnd Hsym Hlen;
    cbn [build_records].
  - cbv zeta. split; [exact Hnd|]. split; [exact Hsym|].
    split; [destruct Hlen as [H| ->]; cbn; lia|].
    exists []. rewrite app_nil_r. split; [reflexivity|constructor].
  - destruct (existsb (String.eqb (Py.lower addr)) seen) eqn:Hex.
    { destruct (IH seen records Hseen Hnd Hsym Hlen) as (H1 & H2 & H3 & new & H4 & H5).
      cbv zeta. repeat (split; [assumption|]). exists new. split; [exact H4|].
      eapply List.Forall_impl; [|exact H5].
      intros r (n & s & Hin). exists n, s. right. exact Hin. }
    set (rec := {| s_address := addr; s_name := or_else name "";
                   s_symbol := or_else sym "UNKNOWN"; s_trend := "+" |}).
    assert (Hfresh : ~ In (Py.lower addr) seen).
    { intros Hin. apply Bool.not_true_iff_false in Hex. apply Hex.
      apply existsb_exists. exists (Py.lower addr). split; [exact Hin|].
      apply String.eqb_refl. }
    assert (Hnd' : List.NoDup (map (fun r => Py.lower (s_address r)) (records ++ [rec]))).
    { rewrite map_app. cbn [map]. apply NoDup_snoc; [exact Hnd|].
      intros Hk. apply in_map_iff in Hk.
      destruct Hk as (r & Hr & Hin). apply Hfresh.
      change (Py.lower addr) with (Py.lower (s_address rec)).
      rewrite <- Hr. apply Hseen. exact Hin. }
    assert (Hsym' : Forall (fun r => s_symbol r <> "") (records ++ [rec])).
    { apply Forall_app. split; [exact Hsym|]. constructor; [|constructor].
      cbn [rec s_symbol]. destruct sym as [[|c r]|]; discriminate. }
    assert (Hrec : exists n s, In (s_address rec, n, s) ((addr, name, sym) :: rest)).
    { exists name, sym. left. reflexivity. }
    destruct (Z.leb_spec limit (Z.of_nat (List.length (records ++ [rec])))) as [Hfull|Hroom].
    + cbv zeta. split; [exact Hnd'|]. split; [exact Hsym'|]. split.
      { rewrite List.length_app in *. cbn [List.length] in *.
        destruct Hlen as [H| ->]; cbn [List.length] in *; lia. }
      exists [rec]. split; [reflexivity|]. constructor; [exact Hrec|constructor].
    + destruct (IH (Py.lower addr :: seen) (records ++ [rec])) as (H1 & H2 & H3 & new & H4 & H5).
      * intros r Hin. apply in_app_or in Hin. destruct Hin as [Hin|[<-|[]]].
        -- right. apply Hseen. exact Hin.
        -- left. reflexivity.
      * exact Hnd'.
      * exact Hsym'.
      * left. exact Hroom.
      * cbv zeta. repeat (split; [assumption|]).
        exists (rec :: new). rewrite H4, <- app_assoc. split; [reflexivity|].
        constructor; [exact Hrec|].
        eapply List.Forall_impl; [|exact H5].
        intros r (n & s & Hin). exists n, s. right. exact Hin.
Qed.

(** X30: the scraper's records name every token once.  No two records have
    the same address in lower case, so no two tokens offered for selection
    share an entry of the price cache; every address is one that was found;
    no symbol is empty; and there are at most [limit] records - but one,
    not none, for a limit below 1. *)
Theorem scraped_records_name_each_token_once
    (limit : Z) (found : list (string * option string * option string)) :
  let records := build_records limit [] [] found in
  List.NoDup (map (fun t => Py.lower (address t)) (map token_of records)) /\
  Forall (fun r => exists name sym, In (s_address r, name, sym) found) records /\
  Forall (fun r => s_symbol r <> "") records /\
  Z.of_nat (List.length records) <= Z.max limit 1 /\
  (found <> [] -> records <> []).
Proof.
  cbv zeta.
  destruct (build_records_spec limit found [] []
              ltac:(intros r []) ltac:(constructor) ltac:(constructor)
              ltac:(right; reflexivity))
    as (H1 & H2 & H3 & new & H4 & H5).
  split; [rewrite map_map; exact H1|].
  split; [rewrite H4; exact H5|]. split; [exact H2|]. split; [exact H3|].
  destruct found as [|[[addr name] sym] rest]; [contradiction|].
  intros _. cbn [build_records existsb app List.length].
  destruct (limit <=? Z.of_nat 1) eqn:Hl; [discriminate|].
  apply Z.leb_gt in Hl.
  destruct (build_records_spec limit rest [Py.lower addr]
              [{| s_address := addr; s_name := or_else name "";
                  s_symbol := or_else sym "UNKNOWN"; s_trend := "+" |}])
    as (_ & _ & _ & new' & E & _).
  - intros r [<-|[]]. left. reflexivity.
  - constructor; [intros []|constructor].
  - constructor; [|constructor]. cbn. destruct sym as [[|c r]|]; discriminate.
  - left. exact Hl.
  - cbv zeta in E. rewrite E. discriminate.
Qed.
